(** * 13G.py: daily 13D/13G ownership report

    A shallow embedding of [13G.py]: the message chunker [chunk_text], the
    record loop of [fetch_13dg_filings_for_cik], [format_daily_report],
    [send_telegram_message] and [main], with the properties the
    specification states about them.

    Conventions.
    - A Python [str] is a sequence of Unicode code points, so that [len] is
      [length]: [pystr := list N].
    - A Python [int] is a [Z].  A Python [float] is a binary64 value of the
      Standard Library's [SpecFloat]: zeros, infinities, NaN and finite
      values; [float(n)] rounds to the nearest double, ties to even, and
      raises [OverflowError] beyond the largest one.
    - Code that can raise returns a [result]; code that talks to the network
      threads the log of the requests made so far.
    - [print] writes to [stdout], which raises [UnicodeEncodeError] on a
      character it cannot encode.  The calls outside any [try] of
      [fetch_13dg_filings_for_cik] and [main] that write text from outside
      are modelled: the one in the handler of the date parse, the one in
      the handler of a failed fetch and the one of the report.  The calls
      that write program text, numbers and the identifier of a configured
      fund, and the diagnostics of [send_telegram_message], are left
      out. *)

From Stdlib Require Import List ZArith NArith Bool Ascii String.
From Stdlib Require Import Floats.SpecFloat.
From Stdlib Require Import DecimalString Lia.
Import ListNotations.

Set Warnings "-register-all".
Open Scope Z_scope.

(* ================================================================== *)
(** * Python strings *)

Definition char := N.
Definition pystr := list char.

(** An ASCII literal as a Python string. *)
Definition lit (s : string) : pystr :=
  List.map N_of_ascii (list_ascii_of_string s).

Definition NL : char := 10%N.      (* "\n" *)
Definition SP : char := 32%N.      (* " " *)

Definition len (s : pystr) : Z := Z.of_nat (List.length s).

(** Python clamps a slice bound to [0, len]; a negative bound counts from
    the end of the string. *)
Definition clamp (n i : Z) : Z :=
  if i <? 0 then Z.max 0 (n + i) else Z.min i n.

(** [s[:i]] *)
Definition slice_to (s : pystr) (i : Z) : pystr :=
  firstn (Z.to_nat (clamp (len s) i)) s.

(** [s[i:]] *)
Definition slice_from (s : pystr) (i : Z) : pystr :=
  skipn (Z.to_nat (clamp (len s) i)) s.

(** Highest index at which [c] occurs in [s]. *)
Fixpoint rindex (c : char) (s : pystr) : option nat :=
  match s with
  | [] => None
  | x :: r =>
      match rindex c r with
      | Some j => Some (S j)
      | None => if N.eqb x c then Some O else None
      end
  end.

(** [s.rfind(c, 0, stop)] for a one-character [c]: the highest index of [c]
    inside [s[0:stop]], or -1. *)
Definition rfind (s : pystr) (c : char) (stop : Z) : Z :=
  match rindex c (slice_to s stop) with
  | Some j => Z.of_nat j
  | None => -1
  end.

(** [s.lstrip(c)] for a one-character [c]. *)
Fixpoint lstrip (c : char) (s : pystr) : pystr :=
  match s with
  | [] => []
  | x :: r => if N.eqb x c then lstrip c r else s
  end.

(* ================================================================== *)
(** * TELEGRAM HELPERS: [chunk_text] *)

Definition MAX_TELEGRAM_LENGTH : Z := 4000.

(** The position at which the loop body cuts [remaining]. *)
Definition split_point (max_len : Z) (remaining : pystr) : Z :=
  let split_at := rfind remaining NL max_len in
  if split_at =? -1 then max_len else split_at.

(** One turn of [while remaining: ...]: the loop is left ([Done]) or goes
    round again with a new [remaining] and [chunks]. *)
Inductive turn : Type :=
| Done (chunks : list pystr)
| Again (remaining : pystr) (chunks : list pystr).

Definition chunk_step (max_len : Z) (remaining : pystr) (chunks : list pystr)
  : turn :=
  match remaining with
  | [] => Done chunks                                   (* while remaining *)
  | _ :: _ =>
      if len remaining <=? max_len
      then Done (chunks ++ [remaining])                 (* append; break *)
      else
        let split_at := split_point max_len remaining in
        let chunk := slice_to remaining split_at in
        Again (lstrip NL (slice_from remaining split_at)) (chunks ++ [chunk])
  end.

(** The loop, run for at most [fuel] turns; [None] when the fuel runs out
    before the loop is left. *)
Fixpoint chunk_loop (fuel : nat) (max_len : Z) (remaining : pystr)
  (chunks : list pystr) : option (list pystr) :=
  match fuel with
  | O => None
  | S fuel' =>
      match chunk_step max_len remaining chunks with
      | Done cs => Some cs
      | Again r cs => chunk_loop fuel' max_len r cs
      end
  end.

(** [chunk_text(text, max_len)].  Every turn but the last shortens the text
    when [max_len >= 1], so that one more turn than the text has characters
    is enough then ([chunk_loop_enough]). *)
Definition chunk_text (max_len : Z) (text : pystr) : option (list pystr) :=
  chunk_loop (S (List.length text)) max_len text [].

(** Chunking every chunk of a list again. *)
Fixpoint rechunk (max_len : Z) (chunks : list pystr) : option (list pystr) :=
  match chunks with
  | [] => Some []
  | c :: cs =>
      match chunk_text max_len c, rechunk max_len cs with
      | Some a, Some b => Some (a ++ b)
      | _, _ => None
      end
  end.

(** Chunks and separators laid out in turn: [c1 ++ s1 ++ c2 ++ s2 ++ ...];
    chunks beyond the last separator follow each other directly. *)
Fixpoint weave (chunks seps : list pystr) : pystr :=
  match chunks, seps with
  | [], _ => []
  | c :: cs, [] => c ++ weave cs []
  | c :: cs, s :: ss => c ++ s ++ weave cs ss
  end.

Definition only_newlines (s : pystr) : Prop := Forall (fun c => c = NL) s.

(** The text is the chunks with a run of newlines between consecutive
    chunks, and nothing after the last one. *)
Definition restored_between (text : pystr) (chunks : list pystr) : Prop :=
  exists seps,
    List.length seps = pred (List.length chunks)
    /\ Forall only_newlines seps
    /\ text = weave chunks seps.

Definition sample_nl_line : pystr := NL :: lit "abcdef".
Definition sample_trailing : pystr := lit "ab" ++ [NL; NL; NL].


(* ================================================================== *)
(** * Python values and exceptions *)

(** What [resp.json()] can return, and so what the fields of a raw filing
    record can hold. *)
Inductive pyval : Type :=
| PNone
| PBool (b : bool)
| PInt (z : Z)
| PFloat (x : spec_float)
| PStr (s : pystr)
| PList (l : list pyval)
| PDict (d : list (pystr * pyval)).

(** The exceptions the script meets.  The message of an error that the
    script or a builtin raises, and that of a JSON decoder, is ASCII; an
    error of [requests] or of [stdout] carries [repr(e)], which shows text
    from outside. *)
Inductive exn : Type :=
| RuntimeError          (* raise RuntimeError("SEC_API_KEY is not set...") *)
| AttributeError        (* .get / .split / .strip on a value without it *)
| TypeError             (* iterating a value that is not iterable *)
| ConnectionError (shown : pystr)      (* requests.post failed *)
| HTTPError (shown : pystr)            (* resp.raise_for_status() *)
| JSONDecodeError       (* resp.json() *)
| OverflowError         (* float(p) on an int beyond the doubles *)
| UnicodeEncodeError (shown : pystr).  (* print of text that stdout
                                          cannot encode *)

Inductive result (A : Type) : Type :=
| Ok (a : A)
| Raise (e : exn).
Arguments Ok {A} a.
Arguments Raise {A} e.

Definition bind {A B : Type} (c : result A) (k : A -> result B) : result B :=
  match c with
  | Ok a => k a
  | Raise e => Raise e
  end.

Declare Scope py_scope.
Delimit Scope py_scope with py.
Notation "x <- c ;; k" := (bind c (fun x => k))
  (at level 61, c at next level, right associativity) : py_scope.
Open Scope py_scope.

Definition str_eqb (a b : pystr) : bool :=
  if list_eq_dec N.eq_dec a b then true else false.

(** [bool(v)] *)
Definition truthy (v : pyval) : bool :=
  match v with
  | PNone => false
  | PBool b => b
  | PInt z => negb (z =? 0)
  | PFloat x => match x with S754_zero _ => false | _ => true end
  | PStr s => match s with [] => false | _ :: _ => true end
  | PList l => match l with [] => false | _ :: _ => true end
  | PDict d => match d with [] => false | _ :: _ => true end
  end.

(** [a or b] *)
Definition py_or (a b : pyval) : pyval := if truthy a then a else b.

Fixpoint lookup {V : Type} (key : pystr) (d : list (pystr * V)) : option V :=
  match d with
  | [] => None
  | (k, v) :: r => if str_eqb k key then Some v else lookup key r
  end.

(** [v.get(key, default)]: only a dict has [get]. *)
Definition py_get (v : pyval) (key : pystr) (default : pyval) : result pyval :=
  match v with
  | PDict d => Ok (match lookup key d with Some x => x | None => default end)
  | _ => Raise AttributeError
  end.

(** The items a [for] loop over [v] visits: the elements of a list, the
    characters of a string, the keys of a dict. *)
Definition py_iter (v : pyval) : result (list pyval) :=
  match v with
  | PList l => Ok l
  | PStr s => Ok (List.map (fun c => PStr [c]) s)
  | PDict d => Ok (List.map (fun kv => PStr (fst kv)) d)
  | _ => Raise TypeError
  end.

(** [s.split(sep, 1)[0]]: the part of [s] before the first [sep]. *)
Fixpoint before_first (sep : char) (s : pystr) : pystr :=
  match s with
  | [] => []
  | x :: r => if N.eqb x sep then [] else x :: before_first sep r
  end.

(** [v.split("T", 1)[0]]: only a string has [split]. *)
Definition split_T (v : pyval) : result pystr :=
  match v with
  | PStr s => Ok (before_first 84%N s)
  | _ => Raise AttributeError
  end.

(** [float(n)] for an [int]: the nearest double, ties to even, and
    [OverflowError] when that is beyond the largest double. *)
Definition float_of_int (z : Z) : result spec_float :=
  match binary_normalize 53 1024 z 0 false with
  | S754_infinity _ => Raise OverflowError
  | x => Ok x
  end.

(** [isinstance(p, (int, float))]; a Python [bool] is an [int]. *)
Definition is_number (p : pyval) : bool :=
  match p with
  | PBool _ | PInt _ | PFloat _ => true
  | _ => false
  end.

(** [float(p)], which the code calls under the guard [is_number] only. *)
Definition py_float (p : pyval) : result spec_float :=
  match p with
  | PBool b => float_of_int (if b then 1 else 0)
  | PInt z => float_of_int z
  | PFloat x => Ok x
  | _ => Raise TypeError
  end.

(** [max(l)]: the first item is kept until an item [y] with [y > m] comes;
    [y > m] is false when either is NaN. *)
Definition py_max (first : spec_float) (others : list spec_float)
  : spec_float :=
  fold_left (fun m y => if SFltb m y then y else m) others first.

(* ================================================================== *)
(** * Dates *)

Record date : Type := mkdate { year : Z; month : Z; day : Z }.

(** [a < b] on [datetime.date]: year, then month, then day. *)
Definition date_ltb (a b : date) : bool :=
  match year a ?= year b with
  | Lt => true
  | Gt => false
  | Eq =>
      match month a ?= month b with
      | Lt => true
      | Gt => false
      | Eq => day a <? day b
      end
  end.

(** [a <= b], written out on its own. *)
Definition date_leb (a b : date) : bool :=
  (year a <? year b)
  || ((year a =? year b)
      && ((month a <? month b)
          || ((month a =? month b) && (day a <=? day b)))).

(* ================================================================== *)
(** * What the script takes from outside *)

Inductive request : Type :=
| SecPost (cik : pystr)            (* requests.post(SEC_API_URL, ...) *)
| TelegramPost (body : pystr).     (* requests.post(.../sendMessage, ...) *)

(** [datetime.now(timezone.utc)], as [strftime] reads it. *)
Record clock : Type := mkclock {
  c_year : Z; c_month : Z; c_day : Z;
  c_hour : Z; c_minute : Z; c_second : Z
}.

(** Library functions whose result the script only passes on, the clock,
    the standard output, the environment variables and the two web
    services.  A service answers a request in view of all the requests
    made before it. *)
Record env : Type := mkenv {
  (** [datetime.strptime(s, "%Y-%m-%d").date()], [None] when it raises *)
  strptime : pystr -> option date;
  (** [now_utc.date() - timedelta(days=lookback_days)] *)
  cutoff_for : Z -> date;
  (** [datetime.now(timezone.utc)] *)
  now_utc : clock;
  (** [f"{x:.1f}"] *)
  fmt_1f : spec_float -> pystr;
  (** the characters beyond ASCII that the encoding of [stdout] has *)
  stdout_encodes : char -> bool;
  (** [repr(e)] of the error [stdout] raises on a text *)
  encode_error_repr : pystr -> pystr;
  SEC_API_KEY : pystr;
  TELEGRAM_BOT_TOKEN : pystr;
  TELEGRAM_CHAT_ID : pystr;
  (** [requests.post], [raise_for_status] and [resp.json()] for a filer *)
  sec_api : list request -> pystr -> result pyval;
  (** [requests.post] for a message: the status code and [resp.json()] *)
  telegram_api : list request -> pystr -> result (Z * result pyval)
}.

(** [stdout] can encode the text: every encoding it may have holds the
    ASCII characters. *)
Definition printable (E : env) (text : pystr) : bool :=
  forallb (fun c => (c <? 128)%N || stdout_encodes E c) text.

(** [print(text)] *)
Definition py_print (E : env) (text : pystr) : result unit :=
  if printable E text then Ok tt
  else Raise (UnicodeEncodeError (encode_error_repr E text)).

(** [print(repr(e))] *)
Definition print_repr (E : env) (e : exn) : result unit :=
  match e with
  | ConnectionError shown | HTTPError shown | UnicodeEncodeError shown =>
      py_print E shown
  | _ => Ok tt
  end.

(** [str(v)] of a string. *)
Definition str_of (v : pyval) : pystr :=
  match v with
  | PStr s => s
  | _ => []
  end.

(** Code that makes requests: from the log of the requests made so far
    (latest first) to an outcome and the new log. *)
Definition io (A : Type) : Type := list request -> result A * list request.

Definition ret {A : Type} (a : A) : io A := fun log => (Ok a, log).

Definition raise {A : Type} (e : exn) : io A := fun log => (Raise e, log).

Definition iobind {A B : Type} (c : io A) (k : A -> io B) : io B :=
  fun log =>
    match c log with
    | (Ok a, log') => k a log'
    | (Raise e, log') => (Raise e, log')
    end.

(** A pure computation inside [io]. *)
Definition lift {A : Type} (c : result A) : io A := fun log => (c, log).

(** [try: c  except Exception: handler] *)
Definition try_except {A : Type} (c : io A) (handler : exn -> io A) : io A :=
  fun log =>
    match c log with
    | (Ok a, log') => (Ok a, log')
    | (Raise e, log') => handler e log'
    end.

Notation "x <~ c ;; k" := (iobind c (fun x => k))
  (at level 61, c at next level, right associativity) : py_scope.

(* ================================================================== *)
(** * SEC-API HELPERS: [fetch_13dg_filings_for_cik] *)

Definition LOOKBACK_DAYS : Z := 365.
Definition MAX_FILINGS_PER_FUND : Z := 5.

(** One entry of [results]. *)
Record filing : Type := mkfiling {
  form : pyval;
  filed_at_date : pystr;
  issuer : pyval;
  percent_owned : option spec_float
}.

(** [for o in owners: ...]: the list [percents]. *)
Fixpoint collect_percents (owners : list pyval)
  (percents : list spec_float) : result (list spec_float) :=
  match owners with
  | [] => Ok percents
  | o :: rest =>
      p <- py_get o (lit "amountAsPercent") PNone ;;
      if is_number p
      then x <- py_float p ;; collect_percents rest (percents ++ [x])
      else collect_percents rest percents
  end.

(** [max(percents) if percents else None] *)
Definition headline (percents : list spec_float) : option spec_float :=
  match percents with
  | [] => None
  | x :: r => Some (py_max x r)
  end.

(** The owner entries of a raw record: [f.get("owners", []) or []], as the
    loop [for o in owners] visits them. *)
Definition owners_of (f : pyval) : result (list pyval) :=
  owners0 <- py_get f (lit "owners") (PList []) ;;
  py_iter (py_or owners0 (PList [])).

(** What the loop over the owners appends for an entry, if anything. *)
Definition owner_percent (o : pyval) : option spec_float :=
  match py_get o (lit "amountAsPercent") PNone with
  | Ok p =>
      if is_number p
      then match py_float p with
           | Ok x => Some x
           | Raise _ => None
           end
      else None
  | Raise _ => None
  end.

Definition is_nan (x : spec_float) : bool :=
  match x with
  | S754_nan => true
  | _ => false
  end.

(** 1.0 and 0.0 *)
Definition float_one : spec_float :=
  S754_finite false 4503599627370496 (-52).
Definition float_zero : spec_float := S754_zero false.

(** The percentage of an owner entry as the specification has it: the
    ["amountAsPercent"] that is a number, as a float. *)
Definition numeric_percent (o : pyval) : option spec_float :=
  match o with
  | PDict d =>
      match lookup (lit "amountAsPercent") d with
      | Some (PInt z) =>
          match float_of_int z with
          | Ok x => Some x
          | Raise _ => None
          end
      | Some (PFloat x) => Some x
      | _ => None
      end
  | _ => None
  end.

(** The percentage of an owner entry that the code counts: a number or a
    boolean, [True] as 1.0 and [False] as 0.0. *)
Definition counted_percent (o : pyval) : option spec_float :=
  match o with
  | PDict d =>
      match lookup (lit "amountAsPercent") d with
      | Some (PBool true) => Some float_one
      | Some (PBool false) => Some float_zero
      | Some (PInt z) =>
          match float_of_int z with
          | Ok x => Some x
          | Raise _ => None
          end
      | Some (PFloat x) => Some x
      | _ => None
      end
  | _ => None
  end.

(** [p] is the headline of [owners] as the specification states it: the
    greatest of the numeric percentages, and [None] exactly when there is
    none. *)
Definition headline_as_stated (owners : list pyval)
  (p : option spec_float) : Prop :=
  (p = None <-> forall o, In o owners -> numeric_percent o = None)
  /\ forall m,
       p = Some m ->
       (exists o, In o owners /\ numeric_percent o = Some m)
       /\ forall o v, In o owners -> numeric_percent o = Some v ->
                      SFleb v m = true.

(** What one turn of [for f in filings] does with [f]. *)
Inductive verdict : Type :=
| Skip                     (* continue *)
| Keep (r : filing).       (* results.append(...) *)

(** The body of the loop, after the [len(results) >= max_filings] test.
    The handler of the date parse prints [filed_at_raw] and then the error
    of the parse, which shows no character that [filed_at_raw] has not. *)
Definition normalize (E : env) (cutoff_date : date) (f : pyval)
  : result verdict :=
  form <- py_get f (lit "formType") (PStr []) ;;
  filed_at_raw <- py_get f (lit "filedAt") PNone ;;
  issuer <- py_get f (lit "nameOfIssuer") (PStr []) ;;
  owners0 <- py_get f (lit "owners") (PList []) ;;
  let owners := py_or owners0 (PList []) in
  if negb (truthy filed_at_raw) then Ok Skip
  else
    filed_date_str <- split_T filed_at_raw ;;
    match strptime E filed_date_str with
    | None => _ <- py_print E (str_of filed_at_raw) ;; Ok Skip
    | Some filed_date =>
        if date_ltb filed_date cutoff_date then Ok Skip
        else
          os <- py_iter owners ;;
          percents <- collect_percents os [] ;;
          Ok (Keep (mkfiling form filed_date_str issuer (headline percents)))
    end.

(** [results = []; for f in filings: ...; return results] *)
Fixpoint extract_loop (E : env) (cutoff_date : date) (max_filings : Z)
  (filings : list pyval) (results : list filing) : result (list filing) :=
  match filings with
  | [] => Ok results
  | f :: rest =>
      if Z.of_nat (List.length results) >=? max_filings then Ok results      (* break *)
      else
        v <- normalize E cutoff_date f ;;
        match v with
        | Skip => extract_loop E cutoff_date max_filings rest results
        | Keep r =>
            extract_loop E cutoff_date max_filings rest (results ++ [r])
        end
  end.

(** The date of an entry of [results] parses and is not before the
    cutoff. *)
Definition recent (E : env) (cutoff_date : date) (r : filing) : Prop :=
  exists d, strptime E (filed_at_date r) = Some d
            /\ date_leb cutoff_date d = true.

Definition PLACEHOLDER_KEY : pystr := lit "YOUR_SEC_API_KEY_HERE".

(** [requests.post(SEC_API_URL, ...)], [resp.raise_for_status()] and
    [resp.json()]: one request, logged whatever its outcome. *)
Definition sec_post (E : env) (cik : pystr) : io pyval :=
  fun log => (sec_api E log cik, SecPost cik :: log).

(** [fetch_13dg_filings_for_cik(cik, lookback_days, max_filings)].
    [len(filings)] in the diagnostic raises [TypeError] on the values that
    cannot be iterated either, so that [py_iter] stands for both. *)
Definition fetch_13dg_filings_for_cik (E : env) (cik : pystr)
  (lookback_days max_filings : Z) : io (list filing) :=
  if negb (truthy (PStr (SEC_API_KEY E)))
     || str_eqb (SEC_API_KEY E) PLACEHOLDER_KEY
  then raise RuntimeError
  else
    let cutoff_date := cutoff_for E lookback_days in
    data <~ sec_post E cik ;;
    lift (filings0 <- py_get data (lit "filings") (PList []) ;;
          filings <- py_iter filings0 ;;
          extract_loop E cutoff_date max_filings filings []).

(* ================================================================== *)
(** * REPORT FORMATTING: [format_daily_report] *)

(** The characters [str.strip()] removes. *)
Definition is_space (c : char) : bool :=
  (((9 <=? c) && (c <=? 13)) || ((28 <=? c) && (c <=? 32))
   || (c =? 133) || (c =? 160) || (c =? 5760)
   || ((8192 <=? c) && (c <=? 8202))
   || (c =? 8232) || (c =? 8233) || (c =? 8239) || (c =? 8287)
   || (c =? 12288))%N.

Fixpoint lstrip_space (s : pystr) : pystr :=
  match s with
  | [] => []
  | x :: r => if is_space x then lstrip_space r else s
  end.

(** [s.strip()] *)
Definition strip (s : pystr) : pystr :=
  rev (lstrip_space (rev (lstrip_space s))).

(** [v.strip()]: only a string has [strip]. *)
Definition py_strip (v : pyval) : result pystr :=
  match v with
  | PStr s => Ok (strip s)
  | _ => Raise AttributeError
  end.

(** [f"{s:<35}"] for the width 35: spaces are added on the right. *)
Definition ljust (width : nat) (s : pystr) : pystr :=
  s ++ repeat SP (width - List.length s).

(** The issuer column of a row. *)
Definition issuer_field (v : pyval) : result pystr :=
  issuer <- py_strip (py_or v (PStr [])) ;;
  let issuer :=
    if len issuer >? 35 then slice_to issuer 32 ++ lit "..." else issuer in
  Ok (ljust 35 issuer).

(** The issuer column as the specification words it: a name longer than
    35 characters is cut to its first 32 and "..." is added, another one is
    padded to 35. *)
Definition issuer_field_spec (issuer_name : pystr) : pystr :=
  if len issuer_name >? 35 then firstn 32 issuer_name ++ lit "..."
  else ljust 35 issuer_name.

Definition pct_str (E : env) (p : option spec_float) : pystr :=
  match p with
  | None => lit "N/A"
  | Some x => fmt_1f E x ++ lit "%"
  end.

(** [f"{date_str} | {issuer:<35} | {pct_str}"] *)
Definition format_row (E : env) (f : filing) : result pystr :=
  field <- issuer_field (issuer f) ;;
  Ok (filed_at_date f ++ lit " | " ++ field ++ lit " | "
        ++ pct_str E (percent_owned f)).

(** [for f in filings: ...; lines.append(line)] *)
Fixpoint format_rows (E : env) (filings : list filing) (lines : list pystr)
  : result (list pystr) :=
  match filings with
  | [] => Ok lines
  | f :: rest =>
      line <- format_row E f ;;
      format_rows E rest (lines ++ [line])
  end.

Record fund_info : Type := mkinfo { name : pystr; filings : list filing }.

(** [all_funds_filings]: a dict keeps its keys in insertion order. *)
Definition funds_dict : Type := list (pystr * fund_info).

Definition rule (c : char) : pystr := repeat c 70.

Definition COLUMNS : pystr :=
  lit "Date       | Issuer                               | % owned".

Definition NO_FILINGS : pystr :=
  lit "No 13D/13G filings in the lookback window.".

(** The five lines that open the block of a fund. *)
Definition block_head (cik : pystr) (fund_name : pystr) : list pystr :=
  [ rule 61%N;
    fund_name ++ lit " (CIK " ++ cik ++ lit ")";
    rule 45%N;
    COLUMNS;
    rule 45%N ].

(** [for cik, info in all_funds_filings.items(): ...] *)
Fixpoint format_funds (E : env) (items : funds_dict) (lines : list pystr)
  : result (list pystr) :=
  match items with
  | [] => Ok lines
  | (cik, info) :: rest =>
      let lines := lines ++ block_head cik (name info) in
      match filings info with
      | [] => format_funds E rest (lines ++ [NO_FILINGS; []])
      | _ :: _ =>
          lines <- format_rows E (filings info) lines ;;
          format_funds E rest (lines ++ [[]])
      end
  end.

(** Decimal digits of a number, as [str(n)] gives them. *)
Definition str_of_Z (z : Z) : pystr :=
  lit (NilZero.string_of_int (Z.to_int z)).

(** Two digits, as [%m], [%d], [%H], [%M] and [%S] give them. *)
Definition pad2 (z : Z) : pystr :=
  if z <? 10 then lit "0" ++ str_of_Z z else str_of_Z z.

(** [now_utc.strftime('%Y-%m-%d %H:%M:%S')], for a year of four digits. *)
Definition now_str (E : env) : pystr :=
  str_of_Z (c_year (now_utc E)) ++ lit "-" ++ pad2 (c_month (now_utc E))
    ++ lit "-" ++ pad2 (c_day (now_utc E)) ++ lit " "
    ++ pad2 (c_hour (now_utc E)) ++ lit ":" ++ pad2 (c_minute (now_utc E))
    ++ lit ":" ++ pad2 (c_second (now_utc E)).

Definition report_head (E : env) : list pystr :=
  [ lit "Daily 13D/13G Ownership Snapshot";
    lit "Date (UTC): " ++ now_str E;
    lit "Showing up to " ++ str_of_Z MAX_FILINGS_PER_FUND
      ++ lit " latest filings per fund";
    [] ].

(** [sep.join(lines)] *)
Fixpoint join (sep : pystr) (lines : list pystr) : pystr :=
  match lines with
  | [] => []
  | [l] => l
  | l :: rest => l ++ sep ++ join sep rest
  end.

Definition report_lines (E : env) (all_funds_filings : funds_dict)
  : result (list pystr) :=
  format_funds E all_funds_filings (report_head E).

Definition format_daily_report (E : env) (all_funds_filings : funds_dict)
  : result pystr :=
  lines <- report_lines E all_funds_filings ;;
  Ok (join [NL] lines).

(* ================================================================== *)
(** * TELEGRAM HELPERS: [send_telegram_message] *)

(** [f"(Part {idx}/{len(chunks)})\n"] *)
Definition part_header (idx total : Z) : pystr :=
  lit "(Part " ++ str_of_Z idx ++ lit "/" ++ str_of_Z total ++ lit ")"
    ++ [NL].

(** The [try] block of the loop: [true] when the part went through. *)
Definition post_part (E : env) (body : pystr) : io bool :=
  fun log =>
    (Ok match telegram_api E log body with
        | Raise _ => false
        | Ok (status_code, json) =>
            if negb (status_code =? 200) then false
            else
              match (data <- json ;; py_get data (lit "ok") (PBool false)) with
              | Raise _ => false
              | Ok ok => truthy ok
              end
        end,
     TelegramPost body :: log).

(** [for idx, chunk in enumerate(chunks, start=1): ...] *)
Fixpoint send_parts (E : env) (total idx : Z) (chunks : list pystr)
  (all_ok : bool) : io bool :=
  match chunks with
  | [] => ret all_ok
  | chunk :: rest =>
      let body :=
        if total >? 1 then part_header idx total ++ chunk else chunk in
      sent <~ post_part E body ;;
      send_parts E total (idx + 1) rest (if sent then all_ok else false)
  end.

(** [chunk_text(text)] with the default [max_len]; the loop always ends for
    this [max_len] ([chunk_text_default_defined]), so that the second branch
    is never taken. *)
Definition chunk_text_default (text : pystr) : list pystr :=
  match chunk_text MAX_TELEGRAM_LENGTH text with
  | Some chunks => chunks
  | None => []
  end.

Definition send_telegram_message (E : env) (text : pystr) : io bool :=
  if negb (truthy (PStr (TELEGRAM_BOT_TOKEN E)))
     || negb (truthy (PStr (TELEGRAM_CHAT_ID E)))
  then ret false
  else
    let chunks := chunk_text_default text in
    send_parts E (Z.of_nat (List.length chunks)) 1 chunks true.

(* ================================================================== *)
(** * MAIN *)

Record fund : Type := mkfund { fund_name : pystr; fund_cik : pystr }.

Definition FUNDS : list fund :=
  [ mkfund (lit "Point72 Asset Management") (lit "1603466");
    mkfund (lit "Elliott") (lit "1791786");
    mkfund (lit "Starboard Value") (lit "1517137");
    mkfund (lit "Jane Street") (lit "1595888");
    mkfund (lit "Renaissance") (lit "1037389");
    mkfund (lit "Citadel") (lit "1423053");
    mkfund (lit "Millennium") (lit "1273087") ].

(** [d[key] = v]: a key already there keeps its place. *)
Fixpoint dict_set {V : Type} (key : pystr) (v : V) (d : list (pystr * V))
  : list (pystr * V) :=
  match d with
  | [] => [(key, v)]
  | (k, x) :: r =>
      if str_eqb k key then (k, v) :: r else (k, x) :: dict_set key v r
  end.

(** [print(f"Error fetching filings for {name} (CIK {cik}):", repr(e))]:
    the two arguments are written one after the other. *)
Definition print_fetch_error (E : env) (fund : fund) (e : exn)
  : result unit :=
  _ <- py_print E (lit "Error fetching filings for " ++ fund_name fund
                     ++ lit " (CIK " ++ fund_cik fund ++ lit "):") ;;
  print_repr E e.

(** [try: filings = fetch_13dg_filings_for_cik(cik)
     except Exception as e: print(...); filings = []] *)
Definition fetch_or_empty (E : env) (fund : fund) : io (list filing) :=
  try_except
    (fetch_13dg_filings_for_cik E (fund_cik fund) LOOKBACK_DAYS
       MAX_FILINGS_PER_FUND)
    (fun e => _ <~ lift (print_fetch_error E fund e) ;; ret []).

(** [for fund in FUNDS: ...] *)
Fixpoint collect_funds (E : env) (funds : list fund)
  (all_funds_filings : funds_dict) : io funds_dict :=
  match funds with
  | [] => ret all_funds_filings
  | fund :: rest =>
      filings <~ fetch_or_empty E fund ;;
      collect_funds E rest
        (dict_set (fund_cik fund) (mkinfo (fund_name fund) filings)
           all_funds_filings)
  end.

(** [main()], for any list of funds; the value is what
    [send_telegram_message] returned. *)
Definition run (E : env) (funds : list fund) : io bool :=
  all_funds_filings <~ collect_funds E funds [] ;;
  report_text <~ lift (format_daily_report E all_funds_filings) ;;
  _ <~ lift (py_print E report_text) ;;
  send_telegram_message E report_text.

Definition main (E : env) : io bool := run E FUNDS.

(** Text of ASCII characters only. *)
Definition ascii_text (s : pystr) : bool :=
  forallb (fun c => (c <? 128)%N) s.

(** The log after one fetch for each of the funds in turn, each made
    whatever came of the ones before. *)
Fixpoint log_through (E : env) (funds : list fund) (log : list request)
  : list request :=
  match funds with
  | [] => log
  | fund :: rest =>
      log_through E rest
        (snd (fetch_13dg_filings_for_cik E (fund_cik fund) LOOKBACK_DAYS
                MAX_FILINGS_PER_FUND log))
  end.

(** The handler of [main] can write its line for every fetch that raises
    in the loop over [funds] started on [log]. *)
Definition reports_errors (E : env) (funds : list fund)
  (log : list request) : Prop :=
  forall before fund after e,
    funds = before ++ fund :: after ->
    fst (fetch_13dg_filings_for_cik E (fund_cik fund) LOOKBACK_DAYS
           MAX_FILINGS_PER_FUND (log_through E before log)) = Raise e ->
    print_fetch_error E fund e = Ok tt.

(** The log when the loop of [main] is done with the funds [before]. *)
Definition log_after (E : env) (before : list fund) (log : list request)
  : list request :=
  snd (collect_funds E before [] log).

(** The check that opens [fetch_13dg_filings_for_cik]: the key is empty or
    is the placeholder. *)
Definition bad_key (E : env) : Prop :=
  SEC_API_KEY E = [] \/ SEC_API_KEY E = PLACEHOLDER_KEY.

(** The computation ends with an exception. *)
Definition aborts {A : Type} (c : io A) (log : list request) : Prop :=
  exists e, fst (c log) = Raise e.

Definition to_telegram (r : request) : Prop :=
  match r with
  | TelegramPost _ => True
  | SecPost _ => False
  end.

(** The block of a fund in the report: its five opening lines and, for a
    fund without filings, the placeholder and the blank line. *)
Definition block_start (cik : pystr) (info : fund_info) : list pystr :=
  block_head cik (name info)
    ++ match filings info with
       | [] => [NO_FILINGS; []]
       | _ :: _ => []
       end.

(* ================================================================== *)
(** * A sample environment *)

Definition digit (c : char) : option Z :=
  if ((48 <=? c) && (c <=? 57))%N then Some (Z.of_N c - 48) else None.

Fixpoint number_from (acc : Z) (s : pystr) : option Z :=
  match s with
  | [] => Some acc
  | c :: r =>
      match digit c with
      | Some d => number_from (10 * acc + d) r
      | None => None
      end
  end.

(** A non-empty run of ASCII digits as a number. *)
Definition number (s : pystr) : option Z :=
  match s with
  | [] => None
  | _ :: _ => number_from 0 s
  end.

Fixpoint split_on (sep : char) (s : pystr) : list pystr :=
  match s with
  | [] => [[]]
  | x :: r =>
      if N.eqb x sep then [] :: split_on sep r
      else
        match split_on sep r with
        | [] => [[x]]
        | w :: ws => (x :: w) :: ws
        end
  end.

Definition is_leap (y : Z) : bool :=
  (y mod 4 =? 0) && (negb (y mod 100 =? 0) || (y mod 400 =? 0)).

Definition days_in_month (y m : Z) : Z :=
  if m =? 2 then (if is_leap y then 29 else 28)
  else if (m =? 4) || (m =? 6) || (m =? 9) || (m =? 11) then 30
  else 31.

(** [datetime.strptime(s, "%Y-%m-%d").date()] on ASCII input: four digits,
    one or two for the month, one or two for the day (or a space and one
    digit), and a date that exists. *)
Definition strptime_ascii (s : pystr) : option date :=
  match split_on 45%N s with
  | [ys; ms; ds] =>
      let ds := match ds with
                | [sp; c] => if N.eqb sp SP then [c] else ds
                | _ => ds
                end in
      match number ys, number ms, number ds with
      | Some y, Some m, Some d =>
          if (List.length ys =? 4)%nat
             && (List.length ms <=? 2)%nat && (List.length ds <=? 2)%nat
             && (1 <=? y) && (1 <=? m) && (m <=? 12)
             && (1 <=? d) && (d <=? days_in_month y m)
          then Some (mkdate y m d)
          else None
      | _, _, _ => None
      end
  | _ => None
  end.

(** One decimal place, halves rounded up. *)
Definition fmt_1f_sample (x : spec_float) : pystr :=
  match x with
  | S754_nan => lit "nan"
  | S754_infinity s => if s then lit "-inf" else lit "inf"
  | S754_zero s => if s then lit "-0.0" else lit "0.0"
  | S754_finite s m e =>
      let d := 2 ^ Z.max 0 (- e) in
      let n := Z.pos m * 2 ^ Z.max 0 e in
      let tenths := (20 * n + d) / (2 * d) in
      (if s then lit "-" else [])
        ++ str_of_Z (tenths / 10) ++ lit "." ++ str_of_Z (tenths mod 10)
  end.

(** The double [m * 2^e]. *)
Definition fl (m e : Z) : spec_float := binary_normalize 53 1024 m e false.

(** A space and 35 letters "A". *)
Definition sample_padded_name : pystr := SP :: repeat 65%N 35.

Definition owner (p : pyval) : pyval := PDict [(lit "amountAsPercent", p)].

Definition raw_record (form_type filed_at issuer_name : string)
  (owners : list pyval) : pyval :=
  PDict [ (lit "formType", PStr (lit form_type));
          (lit "filedAt", PStr (lit filed_at));
          (lit "nameOfIssuer", PStr (lit issuer_name));
          (lit "owners", PList owners) ].

Definition sample_records : list pyval :=
  [ raw_record "SC 13G" "2025-10-01T17:12:34-04:00"
      "ACME Holdings Corporation International"
      [owner (PFloat (fl 21 (-2))); owner (PInt 9); owner PNone;
       PDict [(lit "name", PStr (lit "Someone"))]];
    raw_record "SC 13D" "not a date" "Nowhere Inc" [];
    raw_record "SC 13G/A" "2025-03-15T09:00:00-04:00" "Beta Corp" [];
    raw_record "SC 13G" "2023-01-01T09:00:00-04:00" "Old Corp"
      [owner (PFloat (fl 1 (-1)))];
    raw_record "SC 13D" "2024-12-24T09:00:00-05:00" "Gamma plc"
      [owner (PInt 3); owner (PFloat (fl 57 (-3)))] ].

(** [repr(e)] of the error of a [stdout] that encodes ASCII only, on a
    text of letters the first of which is not ASCII and the second, if
    any, is. *)
Definition encode_error_repr_ascii (text : pystr) : pystr :=
  lit "UnicodeEncodeError('ascii', '" ++ text
    ++ lit "', 0, 1, 'ordinal not in range(128)')".

Definition sample_connection_error : pystr :=
  lit "ConnectionError('Connection aborted.')".

(** The first fund gets [sample_records], the second a network error, the
    others an empty answer; every message is accepted; [stdout] encodes
    ASCII only. *)
Definition sample_env : env :=
  mkenv strptime_ascii
        (fun _ => mkdate 2024 11 4)
        (mkclock 2025 11 4 9 0 0)
        fmt_1f_sample
        (fun _ => false)
        encode_error_repr_ascii
        (lit "sample-key") (lit "sample-token") (lit "sample-chat")
        (fun _ cik =>
           if str_eqb cik (lit "1603466")
           then Ok (PDict [(lit "filings", PList sample_records)])
           else if str_eqb cik (lit "1791786")
                then Raise (ConnectionError sample_connection_error)
           else Ok (PDict []))
        (fun _ _ => Ok (200, Ok (PDict [(lit "ok", PBool true)]))).

Definition sample_cutoff : date := mkdate 2024 11 4.

(** What the loop makes of [sample_records] with room for two filings. *)
Definition sample_results : list filing :=
  Eval vm_compute in
    match extract_loop sample_env sample_cutoff 2 sample_records [] with
    | Ok results => results
    | Raise _ => []
    end.

Definition sample_first_record : pyval :=
  raw_record "SC 13G" "2025-10-01T17:12:34-04:00"
    "ACME Holdings Corporation International"
    [owner (PFloat (fl 21 (-2))); owner (PInt 9); owner PNone;
     PDict [(lit "name", PStr (lit "Someone"))]].

Definition sample_first_filing : filing :=
  mkfiling (PStr (lit "SC 13G")) (lit "2025-10-01")
    (PStr (lit "ACME Holdings Corporation International")) (Some (fl 9 0)).

(** Owners whose first percentage is NaN, and a record and entry with
    them. *)
Definition sample_nan_owners : list pyval :=
  [owner (PFloat S754_nan); owner (PFloat (fl 5 0))].

Definition sample_nan_record : pyval :=
  raw_record "SC 13G" "2025-10-01T17:12:34-04:00" "NaN Corp"
    sample_nan_owners.

Definition sample_nan_filing : filing :=
  mkfiling (PStr (lit "SC 13G")) (lit "2025-10-01") (PStr (lit "NaN Corp"))
    (Some S754_nan).

(** An owner whose percentage is the JSON [true]. *)
Definition sample_bool_owners : list pyval := [owner (PBool true)].

Definition sample_bool_record : pyval :=
  raw_record "SC 13G" "2025-10-01T17:12:34-04:00" "Bool Corp"
    sample_bool_owners.

Definition sample_bool_filing : filing :=
  mkfiling (PStr (lit "SC 13G")) (lit "2025-10-01") (PStr (lit "Bool Corp"))
    (Some float_one).



(* ================================================================== *)
(** * Further notions used in the statements *)

(** A character other than a newline. *)
Definition not_nl (c : char) : bool := negb (N.eqb c NL).

(** A chunk that is not empty and does not start with a newline. *)
Definition solid (c : pystr) : Prop := c <> [] /\ nth_error c 0 <> Some NL.

(** What the loop body keeps of a record: the entry, or nothing when the
    record is skipped or the body raises. *)
Definition kept_of (E : env) (cutoff_date : date) (f : pyval) : list filing :=
  match normalize E cutoff_date f with
  | Ok (Keep r) => [r]
  | _ => []
  end.

Definition is_str (v : pyval) : bool :=
  match v with
  | PStr _ => true
  | _ => false
  end.


(** An owner entry the loop over the owners can take: a dict whose
    ["amountAsPercent"] is no [int] beyond the doubles. *)
Definition owner_ok (o : pyval) : bool :=
  match o with
  | PDict d =>
      match lookup (lit "amountAsPercent") d with
      | Some (PInt z) =>
          match float_of_int z with
          | Ok _ => true
          | Raise _ => false
          end
      | _ => true
      end
  | _ => false
  end.

(** A ["filedAt"] the loop body can take: falsy, or a string whose part
    before the first "T" parses or that [stdout] can encode. *)
Definition filed_at_ok (E : env) (raw : pyval) : bool :=
  negb (truthy raw)
  || match raw with
     | PStr s =>
         match strptime E (before_first 84%N s) with
         | Some _ => true
         | None => printable E s
         end
     | _ => false
     end.

(** A record the loop body can take: a dict whose ["filedAt"], if any, is
    as above, and whose ["owners"], if any, is falsy or a list of owner
    entries as above. *)
Definition well_formed (E : env) (f : pyval) : bool :=
  match f with
  | PDict d =>
      match lookup (lit "filedAt") d with
      | None => true
      | Some raw => filed_at_ok E raw
      end
      && match lookup (lit "owners") d with
         | None => true
         | Some o =>
             negb (truthy o)
             || match o with
                | PList os => forallb owner_ok os
                | _ => false
                end
         end
  | _ => false
  end.

(** A record on which the loop body raises before it looks at the date:
    not a dict, or a dict whose ["filedAt"] is truthy and not a string. *)
Definition malformed (f : pyval) : bool :=
  match f with
  | PDict d =>
      match lookup (lit "filedAt") d with
      | None => false
      | Some raw => truthy raw && negb (is_str raw)
      end
  | _ => true
  end.

(** A record with the given ["filedAt"] string in front of other fields. *)
Definition with_filed_at (raw : pystr) (d : list (pystr * pyval)) : pyval :=
  PDict ((lit "filedAt", PStr raw) :: d).

Definition sample_number_date : pyval :=
  PDict [(lit "filedAt", PInt 20251124)].

(** An issuer the formatter cannot take: truthy and not a string. *)
Definition bad_issuer (v : pyval) : bool := truthy v && negb (is_str v).






Definition sample_number_issuer : filing :=
  mkfiling (PStr (lit "SC 13G")) (lit "2025-10-01") (PInt 5) None.

(** The records of an answer of the filings source, as the loop of the
    fetch visits them; none when the fetch raises before the loop. *)
Definition records_of (data : pyval) : list pyval :=
  match (filings0 <- py_get data (lit "filings") (PList []) ;;
         py_iter filings0) with
  | Ok filings => filings
  | Raise _ => []
  end.

(** A record whose ["nameOfIssuer"], if any, the formatter can take. *)
Definition issuer_ok (f : pyval) : bool :=
  match f with
  | PDict d =>
      match lookup (lit "nameOfIssuer") d with
      | Some v => negb (bad_issuer v)
      | None => true
      end
  | _ => true
  end.

(** What [main] does with the dict once its loop is over: it makes the
    report, prints it and sends it. *)
Definition deliver (E : env) (all_funds_filings : funds_dict) : io bool :=
  report_text <~ lift (format_daily_report E all_funds_filings) ;;
  _ <~ lift (py_print E report_text) ;;
  send_telegram_message E report_text.

(** [sample_env] with a filings source that answers, for the second fund,
    one record whose ["filedAt"] is the letter e with an acute accent, and
    no record for the other funds. *)
Definition accent_env : env :=
  mkenv (strptime sample_env) (cutoff_for sample_env) (now_utc sample_env)
        (fmt_1f sample_env) (stdout_encodes sample_env)
        (encode_error_repr sample_env)
        (SEC_API_KEY sample_env) (TELEGRAM_BOT_TOKEN sample_env)
        (TELEGRAM_CHAT_ID sample_env)
        (fun _ cik =>
           if str_eqb cik (lit "1791786")
           then Ok (PDict [(lit "filings",
                            PList [PDict [(lit "filedAt", PStr [233%N])]])])
           else Ok (PDict []))
        (telegram_api sample_env).

(** [sample_env] with a filings source that answers, for every fund, one
    record of a recent date whose issuer is the letter e with an acute
    accent. *)
Definition accent_issuer_env : env :=
  mkenv (strptime sample_env) (cutoff_for sample_env) (now_utc sample_env)
        (fmt_1f sample_env) (stdout_encodes sample_env)
        (encode_error_repr sample_env)
        (SEC_API_KEY sample_env) (TELEGRAM_BOT_TOKEN sample_env)
        (TELEGRAM_CHAT_ID sample_env)
        (fun _ _ =>
           Ok (PDict [(lit "filings",
                       PList [PDict [(lit "filedAt", PStr (lit "2025-10-01"));
                                     (lit "nameOfIssuer", PStr [233%N])]])]))
        (telegram_api sample_env).

(** Two funds filed under one identifier. *)
Definition sample_twins : list fund :=
  [ mkfund (lit "First name") (lit "1603466");
    mkfund (lit "Second name") (lit "1603466") ].

(* ================================================================== *)
(** * Facts about strings *)

Lemma len_nonneg (s : pystr) : 0 <= len s.
Proof. unfold len. lia. Qed.

Lemma clamp_inside (n i : Z) : 0 <= i <= n -> clamp n i = i.
Proof.
  intros [Hlo Hhi]. unfold clamp.
  destruct (Z.ltb_spec i 0); lia.
Qed.

Lemma slice_to_inside (s : pystr) (i : Z) :
  0 <= i <= len s -> slice_to s i = firstn (Z.to_nat i) s.
Proof. intros H. unfold slice_to. now rewrite clamp_inside. Qed.

Lemma slice_from_inside (s : pystr) (i : Z) :
  0 <= i <= len s -> slice_from s i = skipn (Z.to_nat i) s.
Proof. intros H. unfold slice_from. now rewrite clamp_inside. Qed.

Lemma slice_to_len (s : pystr) (i : Z) :
  0 <= i <= len s -> len (slice_to s i) = i.
Proof.
  intros H. rewrite slice_to_inside by assumption.
  unfold len in *. rewrite length_firstn. lia.
Qed.

Lemma slices_append (s : pystr) (i : Z) : slice_to s i ++ slice_from s i = s.
Proof. apply firstn_skipn. Qed.

Lemma rindex_bound (c : char) (s : pystr) (j : nat) :
  rindex c s = Some j -> (j < List.length s)%nat /\ nth_error s j = Some c.
Proof.
  revert j. induction s as [|x r IH]; simpl; intros j H; [discriminate|].
  destruct (rindex c r) as [k|] eqn:Hr.
  - injection H as <-. destruct (IH k eq_refl). simpl. split; [lia|assumption].
  - destruct (N.eqb_spec x c) as [->|]; [|discriminate].
    injection H as <-. simpl. split; [lia|reflexivity].
Qed.

Lemma rindex_absent (c : char) (s : pystr) :
  rindex c s = None -> forall j, nth_error s j <> Some c.
Proof.
  induction s as [|x r IH]; simpl; intros H j.
  - now destruct j.
  - destruct (rindex c r) eqn:Hr; [discriminate|].
    destruct (N.eqb_spec x c) as [|Hx]; [discriminate|].
    destruct j as [|j]; simpl.
    + intros [= E]. contradiction.
    + now apply IH.
Qed.

Lemma rindex_is_last (c : char) (s : pystr) (j : nat) :
  rindex c s = Some j ->
  forall i, (j < i)%nat -> nth_error s i <> Some c.
Proof.
  revert j. induction s as [|x r IH]; simpl; intros j H i Hi; [discriminate|].
  destruct i as [|i]; [lia|]. simpl.
  destruct (rindex c r) as [k|] eqn:Hr.
  - injection H as <-. apply (IH k eq_refl). lia.
  - now apply rindex_absent.
Qed.

Lemma rindex_found (c : char) (s : pystr) (i : nat) :
  nth_error s i = Some c -> exists j, rindex c s = Some j.
Proof.
  intros H. destruct (rindex c s) as [j|] eqn:E; [now exists j|].
  exfalso. exact (rindex_absent c s E i H).
Qed.

Lemma nth_error_firstn_some (n : nat) (s : pystr) (j : nat) (c : char) :
  nth_error (firstn n s) j = Some c -> nth_error s j = Some c.
Proof.
  revert s j. induction n as [|n IH]; intros [|x r] [|j]; simpl;
    try discriminate; auto.
Qed.

(** What [lstrip] removes: a run of [c], at least one when [s] starts
    with [c]. *)
Lemma lstrip_run (c : char) (s : pystr) :
  exists k, s = repeat c k ++ lstrip c s
            /\ (nth_error s 0 = Some c -> (0 < k)%nat).
Proof.
  induction s as [|x r [k [IH _]]]; simpl.
  - exists O. split; [reflexivity|discriminate].
  - destruct (N.eqb_spec x c) as [->|Hx].
    + exists (S k). simpl. split; [now rewrite <- IH|lia].
    + exists O. simpl. split; [reflexivity|]. intros [= E]. contradiction.
Qed.

Lemma repeat_only_newlines (k : nat) : only_newlines (repeat NL k).
Proof.
  unfold only_newlines. induction k; simpl; constructor; auto.
Qed.

(* ================================================================== *)
(** * Facts about [chunk_text] *)

Section Chunker.

Variable max_len : Z.
Hypothesis max_len_pos : 1 <= max_len.

(** Where a text longer than [max_len] is cut. *)
Lemma split_point_range (remaining : pystr) :
  max_len < len remaining ->
  0 <= split_point max_len remaining <= max_len
  /\ (split_point max_len remaining = 0 ->
      nth_error remaining 0 = Some NL).
Proof.
  intros Hlong. unfold split_point, rfind.
  assert (Hin : 0 <= max_len <= len remaining) by lia.
  rewrite slice_to_inside by exact Hin.
  destruct (rindex NL (firstn (Z.to_nat max_len) remaining)) as [j|] eqn:Hj.
  - destruct (rindex_bound _ _ _ Hj) as [Hlt Hnth].
    rewrite length_firstn in Hlt.
    replace (Z.of_nat j =? -1) with false
      by (symmetry; apply Z.eqb_neq; lia).
    split; [lia|]. intros H0. assert (j = O) by lia. subst j.
    exact (nth_error_firstn_some _ _ _ _ Hnth).
  - simpl. split; [lia|]. lia.
Qed.

(** A turn that goes round again cuts [remaining] into the chunk, a run
    of newlines and the new [remaining]. *)
Lemma chunk_step_again (remaining : pystr) (chunks : list pystr)
  (r : pystr) (cs : list pystr) :
  chunk_step max_len remaining chunks = Again r cs ->
  exists (chunk : pystr) (k : nat),
    cs = chunks ++ [chunk]
    /\ chunk = slice_to remaining (split_point max_len remaining)
    /\ len chunk = split_point max_len remaining
    /\ len chunk <= max_len
    /\ remaining = chunk ++ repeat NL k ++ r
    /\ (split_point max_len remaining = 0 -> (0 < k)%nat).
Proof.
  unfold chunk_step. destruct remaining as [|x rest] eqn:Hrem; [discriminate|].
  rewrite <- Hrem.
  destruct (Z.leb_spec (len remaining) max_len) as [|Hlong]; [discriminate|].
  intros [= <- <-].
  destruct (split_point_range remaining Hlong) as [Hsp Hzero].
  set (sp := split_point max_len remaining) in *.
  destruct (lstrip_run NL (slice_from remaining sp)) as [k [Hk Hk0]].
  exists (slice_to remaining sp), k.
  assert (Hlen : len (slice_to remaining sp) = sp)
    by (apply slice_to_len; lia).
  repeat split; try assumption; try lia.
  - rewrite <- Hk. symmetry. apply slices_append.
  - intros H0. apply Hk0. rewrite H0.
    rewrite slice_from_inside by lia. simpl. now apply Hzero.
Qed.

(** Every turn that goes round again leaves a shorter text. *)
Lemma chunk_step_shorter (remaining : pystr) (chunks : list pystr)
  (r : pystr) (cs : list pystr) :
  chunk_step max_len remaining chunks = Again r cs ->
  (List.length r < List.length remaining)%nat.
Proof.
  intros H. destruct (chunk_step_again _ _ _ _ H)
    as (chunk & k & _ & _ & Hlen & _ & Hcut & Hzero).
  apply (f_equal (@List.length char)) in Hcut.
  rewrite !length_app, repeat_length in Hcut.
  unfold len in Hlen.
  destruct (Z.eq_dec (split_point max_len remaining) 0) as [E|E].
  - specialize (Hzero E). lia.
  - destruct (chunk_step max_len remaining chunks) eqn:Hs; [discriminate|].
    assert (0 <= split_point max_len remaining) by lia. lia.
Qed.

(** The loop is left within [length remaining + 1] turns. *)
Lemma chunk_loop_enough (fuel : nat) :
  forall remaining chunks,
    (List.length remaining < fuel)%nat ->
    exists cs, chunk_loop fuel max_len remaining chunks = Some cs.
Proof.
  induction fuel as [|fuel IH]; intros remaining chunks Hfuel; [lia|].
  simpl. destruct (chunk_step max_len remaining chunks) as [cs|r cs] eqn:Hs.
  - now exists cs.
  - apply IH. apply chunk_step_shorter in Hs. lia.
Qed.

(** What the loop returns: the chunks it had, then new ones, each within
    [max_len]; the new chunks, each followed by a run of newlines, make up
    the text that remained. *)
Lemma chunk_loop_spec (fuel : nat) :
  forall remaining chunks cs,
    chunk_loop fuel max_len remaining chunks = Some cs ->
    exists new seps,
      cs = chunks ++ new
      /\ Forall (fun c => len c <= max_len) new
      /\ List.length seps = List.length new
      /\ Forall only_newlines seps
      /\ remaining = weave new seps.
Proof.
  induction fuel as [|fuel IH]; intros remaining chunks cs H; [discriminate|].
  simpl in H.
  destruct (chunk_step max_len remaining chunks) as [cs'|r cs'] eqn:Hs.
  - injection H as <-. unfold chunk_step in Hs.
    destruct remaining as [|x rest] eqn:Hrem.
    + injection Hs as <-. exists [], []. rewrite app_nil_r.
      repeat split; constructor.
    + rewrite <- Hrem in *.
      destruct (Z.leb_spec (len remaining) max_len) as [Hshort|];
        [|discriminate].
      injection Hs as <-. exists [remaining], [[]]. simpl.
      rewrite app_nil_r.
      repeat split; repeat constructor; assumption.
  - destruct (chunk_step_again _ _ _ _ Hs)
      as (chunk & k & -> & _ & _ & Hle & Hcut & _).
    destruct (IH _ _ _ H) as (new & seps & -> & Hall & Hn & Hnl & Hr).
    exists (chunk :: new), (repeat NL k :: seps).
    rewrite <- app_assoc. simpl. repeat split.
    + now constructor.
    + now rewrite Hn.
    + constructor; [apply repeat_only_newlines|assumption].
    + now rewrite <- Hr.
Qed.

End Chunker.

(** More fuel does not change what the loop returns. *)
Lemma chunk_loop_more_fuel (max_len : Z) (n m : nat) :
  forall remaining chunks cs,
    chunk_loop n max_len remaining chunks = Some cs ->
    (n <= m)%nat ->
    chunk_loop m max_len remaining chunks = Some cs.
Proof.
  revert m. induction n as [|n IH]; intros m remaining chunks cs H Hle;
    [discriminate|].
  destruct m as [|m]; [lia|]. simpl in *.
  destruct (chunk_step max_len remaining chunks); [assumption|].
  apply IH; [assumption|lia].
Qed.


(** With [max_len = 0] a turn on a text that does not start with a newline
    changes nothing but [chunks]. *)
Lemma chunk_step_zero (x : char) (rest : pystr) (chunks : list pystr) :
  x <> NL ->
  chunk_step 0 (x :: rest) chunks = Again (x :: rest) (chunks ++ [[]]).
Proof.
  intros Hx. unfold chunk_step.
  destruct (Z.leb_spec (len (x :: rest)) 0) as [H|_].
  - unfold len in H. simpl in H. lia.
  - assert (Hsp : split_point 0 (x :: rest) = 0).
    { unfold split_point, rfind.
      rewrite slice_to_inside by (pose proof (len_nonneg (x :: rest)); lia).
      reflexivity. }
    rewrite Hsp.
    rewrite slice_to_inside, slice_from_inside
      by (pose proof (len_nonneg (x :: rest)); lia).
    simpl. destruct (N.eqb_spec x NL); [contradiction|reflexivity].
Qed.

Lemma chunk_loop_zero_diverges (x : char) (rest : pystr) :
  x <> NL ->
  forall fuel chunks, chunk_loop fuel 0 (x :: rest) chunks = None.
Proof.
  intros Hx. induction fuel as [|fuel IH]; intros chunks; [reflexivity|].
  cbn [chunk_loop]. rewrite chunk_step_zero by assumption. apply IH.
Qed.

(** The cut is at 0 when the only newline before [max_len] opens the text. *)
Lemma split_point_leading_newline (max_len : Z) (text : pystr) :
  1 <= max_len -> max_len < len text ->
  nth_error text 0 = Some NL ->
  (forall i, (0 < i)%nat -> Z.of_nat i < max_len ->
             nth_error text i <> Some NL) ->
  split_point max_len text = 0.
Proof.
  intros Hpos Hlong Hfirst Hothers. unfold split_point, rfind.
  rewrite slice_to_inside by lia.
  assert (Hhead : nth_error (firstn (Z.to_nat max_len) text) 0 = Some NL).
  { destruct text as [|x r]; [discriminate|].
    destruct (Z.to_nat max_len) eqn:Hm; [lia|]. exact Hfirst. }
  destruct (rindex_found _ _ _ Hhead) as [j Hj]. rewrite Hj.
  destruct (rindex_bound _ _ _ Hj) as [Hlt Hnth].
  rewrite length_firstn in Hlt.
  destruct j as [|j]; [reflexivity|]. exfalso.
  apply (Hothers (S j)); [lia|lia|].
  exact (nth_error_firstn_some _ _ _ _ Hnth).
Qed.

(* ================================================================== *)
(** * The chunker: properties of the specification *)

(** C3: for every text and every [max_len > 0], [chunk_text] returns, and
    every chunk it returns has length at most [max_len]. *)
Theorem chunk_text_within_max_len (text : pystr) (max_len : Z) :
  0 < max_len ->
  exists chunks,
    chunk_text max_len text = Some chunks
    /\ Forall (fun c => len c <= max_len) chunks.
Proof.
  intros Hpos. assert (H1 : 1 <= max_len) by lia.
  destruct (chunk_loop_enough max_len H1 (S (List.length text)) text [])
    as [cs Hcs]; [lia|].
  exists cs. split; [exact Hcs|].
  destruct (chunk_loop_spec max_len H1 _ _ _ _ Hcs)
    as (new & seps & -> & Hall & _).
  exact Hall.
Qed.

Lemma chunk_text_within_max_len_witness :
  0 < 4 /\
  exists chunks,
    chunk_text 4 (lit "abcdefghi") = Some chunks
    /\ Forall (fun c => len c <= 4) chunks.
Proof.
  split; [lia|]. apply (chunk_text_within_max_len (lit "abcdefghi") 4). lia.
Defined.

(** C4, as stated, fails: the newlines that end a text after the last cut
    are stripped and followed by no chunk.  ["ab\n\n\n"] with [max_len = 3]
    gives the single chunk ["ab"]. *)
Lemma chunk_text_loses_trailing_newlines :
  0 < 3
  /\ chunk_text 3 sample_trailing = Some [lit "ab"]
  /\ ~ restored_between sample_trailing [lit "ab"].
Proof.
  split; [lia|]. split; [reflexivity|].
  intros (seps & Hlen & _ & Htext).
  destruct seps; [|discriminate]. discriminate.
Qed.

(** C4, amended: for every text and every [max_len > 0] the text is the
    chunks in order, each followed by a run of newlines (possibly empty),
    the last chunk too. *)
Theorem chunk_text_restores (text : pystr) (max_len : Z) :
  0 < max_len ->
  exists chunks seps,
    chunk_text max_len text = Some chunks
    /\ List.length seps = List.length chunks
    /\ Forall only_newlines seps
    /\ text = weave chunks seps.
Proof.
  intros Hpos. assert (H1 : 1 <= max_len) by lia.
  destruct (chunk_loop_enough max_len H1 (S (List.length text)) text [])
    as [cs Hcs]; [lia|].
  destruct (chunk_loop_spec max_len H1 _ _ _ _ Hcs)
    as (new & seps & -> & _ & Hn & Hnl & Htext).
  exists new, seps. repeat split; assumption.
Qed.

Lemma chunk_text_restores_witness :
  0 < 3 /\
  exists chunks seps,
    chunk_text 3 sample_trailing = Some chunks
    /\ List.length seps = List.length chunks
    /\ Forall only_newlines seps
    /\ sample_trailing = weave chunks seps.
Proof.
  split; [lia|]. apply (chunk_text_restores sample_trailing 3). lia.
Defined.

(** C5, as stated, fails on the empty text, whose length is within any
    [max_len > 0]: the loop is not entered and no chunk is returned. *)
Lemma chunk_text_empty_no_chunk :
  0 < 5 /\ len [] <= 5
  /\ chunk_text 5 [] = Some []
  /\ chunk_text 5 [] <> Some [[]].
Proof.
  split; [lia|]. split; [unfold len; simpl; lia|].
  split; [reflexivity|discriminate].
Qed.

(** C5, amended: a text that is not empty and not longer than [max_len]
    comes back as one chunk, the text itself, and chunking that chunk again
    gives the same. *)
Theorem chunk_text_short (text : pystr) (max_len : Z) :
  0 < max_len ->
  text <> [] ->
  len text <= max_len ->
  chunk_text max_len text = Some [text]
  /\ rechunk max_len [text] = Some [text].
Proof.
  intros _ Hne Hshort.
  assert (H : chunk_text max_len text = Some [text]).
  { unfold chunk_text. simpl. unfold chunk_step.
    destruct text as [|x r]; [contradiction|].
    destruct (Z.leb_spec (len (x :: r)) max_len); [reflexivity|lia]. }
  split; [exact H|]. simpl. now rewrite H.
Qed.

Lemma chunk_text_short_witness :
  0 < 4 /\ lit "abc" <> [] /\ len (lit "abc") <= 4
  /\ chunk_text 4 (lit "abc") = Some [lit "abc"]
  /\ rechunk 4 [lit "abc"] = Some [lit "abc"].
Proof.
  assert (Hpos : 0 < 4) by lia.
  assert (Hne : lit "abc" <> []) by discriminate.
  assert (Hshort : len (lit "abc") <= 4) by (vm_compute; discriminate).
  split; [exact Hpos|]. split; [exact Hne|]. split; [exact Hshort|].
  exact (chunk_text_short (lit "abc") 4 Hpos Hne Hshort).
Defined.

(** C9: [chunk_text] can return an empty chunk.  Whenever the text is longer
    than [max_len >= 1] and the only newline before index [max_len] is at
    index 0, the first chunk is empty; a newline followed by one long line
    is such a text. *)
Theorem chunk_text_empty_first_chunk :
  (exists text max_len,
     1 <= max_len /\ exists rest, chunk_text max_len text = Some ([] :: rest))
  /\ (forall text max_len,
        1 <= max_len -> max_len < len text ->
        nth_error text 0 = Some NL ->
        (forall i, (0 < i)%nat -> Z.of_nat i < max_len ->
                   nth_error text i <> Some NL) ->
        exists rest, chunk_text max_len text = Some ([] :: rest)).
Proof.
  split.
  - exists sample_nl_line, 3. split; [lia|].
    exists [lit "abc"; lit "def"]. reflexivity.
  - intros text max_len Hpos Hlong Hfirst Hothers.
    destruct (chunk_loop_enough max_len Hpos (S (List.length text)) text [])
      as [cs Hcs]; [lia|].
    unfold chunk_text. rewrite Hcs. simpl in Hcs.
    assert (Hstep : chunk_step max_len text [] =
                    Again (lstrip NL (slice_from text 0)) [[]]).
    { unfold chunk_step. destruct text as [|x r] eqn:Ht; [discriminate|].
      rewrite <- Ht in *.
      destruct (Z.leb_spec (len text) max_len); [lia|].
      rewrite (split_point_leading_newline max_len text) by assumption.
      rewrite slice_to_inside by lia. reflexivity. }
    rewrite Hstep in Hcs.
    destruct (chunk_loop_spec max_len Hpos _ _ _ _ Hcs)
      as (new & _ & -> & _).
    now exists new.
Qed.

Lemma chunk_text_empty_first_chunk_witness :
  exists rest, chunk_text 3 sample_nl_line = Some ([] :: rest).
Proof.
  apply (proj2 chunk_text_empty_first_chunk sample_nl_line 3).
  - lia.
  - vm_compute. reflexivity.
  - reflexivity.
  - intros [|[|[|i]]] Hi Hlt; try lia; discriminate.
Defined.

(** C10: for [max_len >= 1] the loop of [chunk_text] terminates.  A turn
    either leaves the loop or goes round again with a strictly shorter
    text: shorter by at least the cut position, and by at least one
    stripped newline when the cut is at 0.  More than [length text] turns
    of fuel give the result.  For [max_len = 0] the loop does not end on a
    text that starts with another character than a newline. *)
Theorem chunk_text_terminates :
  (forall max_len, 1 <= max_len ->
     (forall remaining chunks r cs,
        chunk_step max_len remaining chunks = Again r cs ->
        0 <= split_point max_len remaining
        /\ len r + split_point max_len remaining <= len remaining
        /\ (split_point max_len remaining = 0 ->
            nth_error remaining 0 = Some NL)
        /\ len r < len remaining)
     /\ (forall text, exists chunks,
           chunk_text max_len text = Some chunks
           /\ forall fuel, (List.length text < fuel)%nat ->
                           chunk_loop fuel max_len text [] = Some chunks))
  /\ (forall x rest, x <> NL ->
        forall fuel, chunk_loop fuel 0 (x :: rest) [] = None).
Proof.
  split.
  - intros max_len Hpos. split.
    + intros remaining chunks r cs Hs.
      pose proof (chunk_step_shorter max_len Hpos _ _ _ _ Hs) as Hshorter.
      destruct (chunk_step_again max_len Hpos _ _ _ _ Hs)
        as (chunk & k & _ & _ & Hlen & _ & Hcut & _).
      assert (Hlong : max_len < len remaining).
      { unfold chunk_step in Hs. destruct remaining as [|x rest] eqn:Hr;
          [discriminate|]. rewrite <- Hr in *.
        destruct (Z.leb_spec (len remaining) max_len); [discriminate|lia]. }
      destruct (split_point_range max_len Hpos remaining Hlong) as [Hsp Hz].
      apply (f_equal (@List.length char)) in Hcut.
      rewrite !length_app, repeat_length in Hcut.
      unfold len in *. repeat split; try lia. exact Hz.
    + intros text.
      destruct (chunk_loop_enough max_len Hpos (S (List.length text)) text [])
        as [cs Hcs]; [lia|].
      exists cs. split; [exact Hcs|]. intros fuel Hfuel.
      apply (chunk_loop_more_fuel max_len (S (List.length text)));
        [exact Hcs|lia].
  - intros x rest Hx fuel. now apply chunk_loop_zero_diverges.
Qed.

Lemma chunk_text_terminates_witness :
  exists chunks,
    chunk_text 4 (lit "abcdefghi") = Some chunks
    /\ forall fuel, (List.length (lit "abcdefghi") < fuel)%nat ->
                    chunk_loop fuel 4 (lit "abcdefghi") [] = Some chunks.
Proof.
  apply (proj1 chunk_text_terminates 4). lia.
Defined.

(* ================================================================== *)
(** * Facts about the extractor *)

Lemma date_not_ltb_leb (a b : date) :
  date_ltb a b = false -> date_leb b a = true.
Proof.
  unfold date_ltb, date_leb. intros H.
  destruct (Z.compare_spec (year a) (year b)) as [Hy|Hy|Hy];
    try discriminate.
  - destruct (Z.compare_spec (month a) (month b)) as [Hm|Hm|Hm];
      try discriminate.
    + apply Z.ltb_ge in H.
      replace (year b <? year a) with false by (symmetry; apply Z.ltb_ge; lia).
      replace (year b =? year a) with true by (symmetry; apply Z.eqb_eq; lia).
      replace (month b <? month a) with false
        by (symmetry; apply Z.ltb_ge; lia).
      replace (month b =? month a) with true
        by (symmetry; apply Z.eqb_eq; lia).
      simpl. apply Z.leb_le. lia.
    + replace (year b <? year a) with false by (symmetry; apply Z.ltb_ge; lia).
      replace (year b =? year a) with true by (symmetry; apply Z.eqb_eq; lia).
      replace (month b <? month a) with true
        by (symmetry; apply Z.ltb_lt; lia).
      reflexivity.
  - replace (year b <? year a) with true by (symmetry; apply Z.ltb_lt; lia).
    reflexivity.
Qed.

(** A record that is kept carries the date string that was parsed and
    found not older than the cutoff. *)
Lemma normalize_keep_recent (E : env) (cutoff_date : date) (f : pyval)
  (r : filing) :
  normalize E cutoff_date f = Ok (Keep r) -> recent E cutoff_date r.
Proof.
  unfold normalize, recent, bind. intros H.
  destruct (py_get f (lit "formType") (PStr [])); [|discriminate].
  destruct (py_get f (lit "filedAt") PNone) as [raw|]; [|discriminate].
  destruct (py_get f (lit "nameOfIssuer") (PStr [])); [|discriminate].
  destruct (py_get f (lit "owners") (PList [])); [|discriminate].
  destruct (truthy raw); simpl in H; [|discriminate].
  destruct (split_T raw) as [ds|]; [|discriminate].
  destruct (strptime E ds) as [d|] eqn:Hd;
    [|destruct (py_print E _); discriminate].
  destruct (date_ltb d cutoff_date) eqn:Hlt; [discriminate|].
  destruct (py_iter _); [|discriminate].
  destruct (collect_percents _ _); [|discriminate].
  injection H as <-. simpl. exists d. split; [exact Hd|].
  now apply date_not_ltb_leb.
Qed.

Section Extractor.

Variable E : env.
Variable cutoff_date : date.
Variable max_filings : Z.

(** The loop keeps [results] recent and, once within [max_filings],
    within it. *)
Lemma extract_loop_invariant (filings : list pyval) :
  forall results out,
    Forall (recent E cutoff_date) results ->
    Z.of_nat (List.length results) <= max_filings ->
    extract_loop E cutoff_date max_filings filings results = Ok out ->
    Forall (recent E cutoff_date) out /\ Z.of_nat (List.length out) <= max_filings.
Proof.
  induction filings as [|f rest IH]; intros results out Hrec Hlen H;
    simpl in H.
  - injection H as <-. now split.
  - destruct (Z.geb_spec (Z.of_nat (List.length results)) max_filings)
      as [Hfull|Hroom].
    + injection H as <-. now split.
    + unfold bind in H.
      destruct (normalize E cutoff_date f) as [[|r]|] eqn:Hn;
        [ | |discriminate].
      * now apply (IH results).
      * apply (IH (results ++ [r])); [ | |exact H].
        -- apply Forall_app. split; [assumption|].
           constructor; [|constructor].
           exact (normalize_keep_recent _ _ _ _ Hn).
        -- rewrite length_app. simpl. lia.
Qed.

End Extractor.

(** What the code appends for an owner entry is the percentage that
    counts. *)
Lemma owner_percent_counted (o : pyval) :
  owner_percent o = counted_percent o.
Proof.
  destruct o as [| | | | | |d]; try reflexivity.
  unfold owner_percent, counted_percent. cbn [py_get].
  destruct (lookup (lit "amountAsPercent") d) as [[|[|]|z|x|s|l|d']|];
    try reflexivity.
Qed.

(** [percents] is the list of the percentages the owners' entries count
    for, in order; the loop returns when every owner entry is a dict and no
    conversion overflows. *)
Lemma collect_percents_spec (owners : list pyval) :
  forall percents out,
    collect_percents owners percents = Ok out ->
    out = percents
            ++ flat_map (fun o => match owner_percent o with
                                  | Some x => [x]
                                  | None => []
                                  end) owners.
Proof.
  induction owners as [|o rest IH]; intros percents out H; simpl in H.
  - injection H as <-. simpl. now rewrite app_nil_r.
  - unfold bind in H. simpl. unfold owner_percent.
    destruct (py_get o (lit "amountAsPercent") PNone) as [p|];
      [|discriminate].
    destruct (is_number p).
    + destruct (py_float p) as [x|]; [|discriminate].
      rewrite (IH _ _ H). now rewrite <- app_assoc.
    + exact (IH _ _ H).
Qed.

(** The order of the doubles other than NaN. *)
Ltac compare_cases :=
  repeat match goal with
         | H : context [Z.compare ?a ?b] |- _ => destruct (Z.compare_spec a b)
         | |- context [Z.compare ?a ?b] => destruct (Z.compare_spec a b)
         | H : context [Pos.compare ?a ?b] |- _ =>
             destruct (Pos.compare_spec a b)
         | |- context [Pos.compare ?a ?b] => destruct (Pos.compare_spec a b)
         end.

Lemma SFltb_leb (x y : spec_float) : SFltb x y = true -> SFleb x y = true.
Proof. unfold SFltb, SFleb. now destruct (SFcompare x y) as [[]|]. Qed.

Lemma SFleb_refl (x : spec_float) : is_nan x = false -> SFleb x x = true.
Proof.
  destruct x as [s|s| |s m e]; try discriminate; intros _;
    unfold SFleb, SFcompare; destruct s; try reflexivity;
    change (Pos.compare_cont Eq m m) with (Pos.compare m m);
    rewrite Z.compare_refl, Pos.compare_refl; reflexivity.
Qed.

Lemma SFleb_total (x y : spec_float) :
  is_nan x = false -> is_nan y = false ->
  SFltb x y = false -> SFleb y x = true.
Proof.
  destruct x as [sx|sx| |sx mx ex], y as [sy|sy| |sy my ey];
    try discriminate; intros _ _; unfold SFltb, SFleb, SFcompare;
    try destruct sx; try destruct sy; try reflexivity; try discriminate;
    change (Pos.compare_cont Eq ?a ?b) with (Pos.compare a b);
    compare_cases; simpl; try reflexivity; try discriminate; try lia.
Qed.

Lemma SFleb_trans (x y z : spec_float) :
  SFleb x y = true -> SFleb y z = true -> SFleb x z = true.
Proof.
  destruct x as [sx|sx| |sx mx ex], y as [sy|sy| |sy my ey],
           z as [sz|sz| |sz mz ez];
    unfold SFleb, SFcompare;
    try destruct sx; try destruct sy; try destruct sz;
    try reflexivity; try discriminate;
    change (Pos.compare_cont Eq ?a ?b) with (Pos.compare a b);
    compare_cases; simpl; try reflexivity; try discriminate; try lia.
Qed.

(** [max] returns an item of the list; no item exceeds it when none is
    NaN. *)
Lemma py_max_spec (others : list spec_float) :
  forall first,
    In (py_max first others) (first :: others)
    /\ (forallb (fun v => negb (is_nan v)) (first :: others) = true ->
        SFleb first (py_max first others) = true
        /\ forall v, In v others -> SFleb v (py_max first others) = true).
Proof.
  unfold py_max.
  induction others as [|y r IH]; intros first; cbn [fold_left].
  - split; [now left|]. intros Hnan. simpl in Hnan.
    split; [|contradiction].
    apply SFleb_refl. rewrite andb_true_r in Hnan.
    now apply negb_true_iff in Hnan.
  - destruct (SFltb first y) eqn:Hlt.
    + destruct (IH y) as [Hin Hmax].
      split; [right; exact Hin|]. intros Hnan.
      cbn [forallb] in Hnan. apply andb_prop in Hnan.
      destruct Hnan as [_ Hnan]. destruct (Hmax Hnan) as [Hy Hall].
      split.
      * apply SFleb_trans with y; [now apply SFltb_leb|assumption].
      * intros v [<-|Hv]; [assumption|now apply Hall].
    + destruct (IH first) as [Hin Hmax].
      split; [destruct Hin as [Hin|Hin]; [now left|right; now right]|].
      intros Hnan. cbn [forallb] in Hnan. apply andb_prop in Hnan.
      destruct Hnan as [Hfirst Hnan]. apply andb_prop in Hnan.
      destruct Hnan as [Hy Hnan].
      assert (Hrest : forallb (fun v => negb (is_nan v)) (first :: r) = true)
        by (cbn [forallb]; now rewrite Hfirst, Hnan).
      destruct (Hmax Hrest) as [Hle Hall].
      split; [assumption|].
      intros v [<-|Hv]; [|now apply Hall].
      apply SFleb_trans with first; [|assumption].
      apply SFleb_total; [now apply negb_true_iff..|assumption].
Qed.

(* ================================================================== *)
(** * The extractor: properties of the specification *)

(** C1: for every list of raw records, every cutoff date and every
    [max_filings >= 0], every filing the loop returns carries a date that
    parses and is not before the cutoff, and there are at most
    [max_filings] of them. *)
Theorem extract_recent_and_bounded (E : env) (cutoff_date : date)
  (max_filings : Z) (filings : list pyval) (results : list filing) :
  0 <= max_filings ->
  extract_loop E cutoff_date max_filings filings [] = Ok results ->
  Forall (recent E cutoff_date) results
  /\ Z.of_nat (List.length results) <= max_filings.
Proof.
  intros Hmax H.
  apply (extract_loop_invariant E cutoff_date max_filings filings [] results);
    [constructor|simpl; lia|exact H].
Qed.

Lemma extract_recent_and_bounded_witness :
  0 <= 2
  /\ extract_loop sample_env sample_cutoff 2 sample_records []
     = Ok sample_results
  /\ Forall (recent sample_env sample_cutoff) sample_results
  /\ Z.of_nat (List.length sample_results) <= 2.
Proof.
  assert (Hmax : 0 <= 2) by lia.
  assert (Hrun : extract_loop sample_env sample_cutoff 2 sample_records []
                 = Ok sample_results) by (vm_compute; reflexivity).
  split; [exact Hmax|]. split; [exact Hrun|].
  exact (extract_recent_and_bounded sample_env sample_cutoff 2 sample_records
           sample_results Hmax Hrun).
Defined.

(** The same holds of what [fetch_13dg_filings_for_cik] returns, for the
    cutoff the clock gives. *)
Corollary fetch_recent_and_bounded (E : env) (cik : pystr)
  (lookback_days max_filings : Z) (log log' : list request)
  (results : list filing) :
  0 <= max_filings ->
  fetch_13dg_filings_for_cik E cik lookback_days max_filings log
  = (Ok results, log') ->
  Forall (recent E (cutoff_for E lookback_days)) results
  /\ Z.of_nat (List.length results) <= max_filings.
Proof.
  intros Hmax. unfold fetch_13dg_filings_for_cik.
  destruct (negb (truthy (PStr (SEC_API_KEY E)))
            || str_eqb (SEC_API_KEY E) PLACEHOLDER_KEY); [discriminate|].
  unfold iobind, sec_post, lift, bind.
  destruct (sec_api E log cik) as [data|]; [|discriminate].
  destruct (py_get data (lit "filings") (PList [])) as [filings0|];
    [|discriminate].
  destruct (py_iter filings0) as [filings|]; [|discriminate].
  intros [= H _].
  apply (extract_loop_invariant E _ max_filings filings [] results);
    [constructor|simpl; lia|exact H].
Qed.

(** C2, as stated, fails.  With a NaN among the percentages [max] keeps
    the NaN it starts from: the headline is NaN although another owner has
    5.0, which NaN is not greater than or equal to.  And a percentage that
    is the JSON [true] counts as 1.0, although the entry carries no
    number. *)
Lemma headline_not_as_stated :
  (normalize sample_env sample_cutoff sample_nan_record
   = Ok (Keep sample_nan_filing)
   /\ owners_of sample_nan_record = Ok sample_nan_owners
   /\ ~ headline_as_stated sample_nan_owners
          (percent_owned sample_nan_filing))
  /\ (normalize sample_env sample_cutoff sample_bool_record
      = Ok (Keep sample_bool_filing)
      /\ owners_of sample_bool_record = Ok sample_bool_owners
      /\ ~ headline_as_stated sample_bool_owners
             (percent_owned sample_bool_filing)).
Proof.
  split; (split; [vm_compute; reflexivity|]);
    (split; [vm_compute; reflexivity|]).
  - intros [_ H]. destruct (H S754_nan eq_refl) as [_ Hmax].
    specialize (Hmax (owner (PFloat (fl 5 0))) (fl 5 0)
                  (or_intror (or_introl eq_refl))).
    assert (Hv : numeric_percent (owner (PFloat (fl 5 0))) = Some (fl 5 0))
      by (vm_compute; reflexivity).
    specialize (Hmax Hv). vm_compute in Hmax. discriminate Hmax.
  - intros [[_ H] _].
    assert (Hnone : percent_owned sample_bool_filing = None).
    { apply H. intros o [<-|[]]. vm_compute. reflexivity. }
    discriminate Hnone.
Qed.

(** C2, amended: for every raw record the loop keeps, [percent_owned] is
    [None] exactly when no owner entry carries a percentage that is a
    number or a boolean ([True] counting as 1.0, [False] as 0.0);
    otherwise it is the percentage of one of the entries, as a float, and
    when none of the percentages is NaN no entry has a greater one. *)
Theorem percent_owned_is_max (E : env) (cutoff_date : date) (f : pyval)
  (r : filing) :
  normalize E cutoff_date f = Ok (Keep r) ->
  exists owners,
    owners_of f = Ok owners
    /\ (percent_owned r = None <->
        forall o, In o owners -> counted_percent o = None)
    /\ (forall m, percent_owned r = Some m ->
          (exists o, In o owners /\ counted_percent o = Some m)
          /\ ((forall o, In o owners ->
                         counted_percent o <> Some S754_nan) ->
              forall o v, In o owners -> counted_percent o = Some v ->
                          SFleb v m = true)).
Proof.
  unfold normalize, owners_of, bind. intros H.
  destruct (py_get f (lit "formType") (PStr [])); [|discriminate].
  destruct (py_get f (lit "filedAt") PNone) as [raw|]; [|discriminate].
  destruct (py_get f (lit "nameOfIssuer") (PStr [])); [|discriminate].
  destruct (py_get f (lit "owners") (PList [])) as [owners0|]; [|discriminate].
  destruct (truthy raw); simpl in H; [|discriminate].
  destruct (split_T raw) as [ds|]; [|discriminate].
  destruct (strptime E ds) as [d|];
    [|destruct (py_print E _); discriminate].
  destruct (date_ltb d cutoff_date); [discriminate|].
  destruct (py_iter (py_or owners0 (PList []))) as [owners|]; [|discriminate].
  destruct (collect_percents owners []) as [percents|] eqn:Hc; [|discriminate].
  injection H as <-. simpl. exists owners. split; [reflexivity|].
  apply collect_percents_spec in Hc. simpl in Hc.
  set (pick := fun o => match owner_percent o with
                        | Some x => [x]
                        | None => []
                        end) in Hc.
  assert (Hmem : forall v, In v percents <->
                           exists o, In o owners /\ counted_percent o = Some v).
  { intros v. rewrite Hc, in_flat_map. split.
    - intros (o & Ho & Hv). exists o. split; [assumption|].
      unfold pick in Hv. rewrite owner_percent_counted in Hv.
      destruct (counted_percent o); [|contradiction].
      destruct Hv as [->|[]]. reflexivity.
    - intros (o & Ho & Hv). exists o. split; [assumption|].
      unfold pick. rewrite owner_percent_counted, Hv. now left. }
  split.
  - split.
    + intros Hnone o Ho. destruct percents as [|x rest]; [|discriminate].
      destruct (counted_percent o) as [v|] eqn:Hv; [|reflexivity].
      exfalso. apply (proj2 (Hmem v)). now exists o.
    + intros Hall. destruct percents as [|x rest]; [reflexivity|].
      exfalso. destruct (proj1 (Hmem x) (or_introl eq_refl)) as (o & Ho & Hx).
      rewrite (Hall o Ho) in Hx. discriminate.
  - intros m Hm. destruct percents as [|x rest]; [discriminate|].
    simpl in Hm. injection Hm as <-.
    destruct (py_max_spec rest x) as [Hin Hmax].
    split; [now apply Hmem|].
    intros Hnonan o v Ho Hv.
    assert (Hclean : forallb (fun v => negb (is_nan v)) (x :: rest) = true).
    { apply forallb_forall. intros w Hw. apply Hmem in Hw.
      destruct Hw as (o' & Ho' & Hw). specialize (Hnonan o' Ho').
      destruct w; try reflexivity. contradiction. }
    destruct (Hmax Hclean) as [Hfirst Hrest].
    assert (Hv' : In v (x :: rest)) by (apply Hmem; now exists o).
    destruct Hv' as [<-|Hv']; [assumption|now apply Hrest].
Qed.

Lemma percent_owned_is_max_witness :
  normalize sample_env sample_cutoff sample_first_record
  = Ok (Keep sample_first_filing)
  /\ exists owners,
       owners_of sample_first_record = Ok owners
       /\ (percent_owned sample_first_filing = None <->
           forall o, In o owners -> counted_percent o = None)
       /\ (forall m, percent_owned sample_first_filing = Some m ->
             (exists o, In o owners /\ counted_percent o = Some m)
             /\ ((forall o, In o owners ->
                            counted_percent o <> Some S754_nan) ->
                 forall o v, In o owners -> counted_percent o = Some v ->
                             SFleb v m = true)).
Proof.
  assert (Hkeep : normalize sample_env sample_cutoff sample_first_record
                  = Ok (Keep sample_first_filing)) by (vm_compute; reflexivity).
  split; [exact Hkeep|].
  exact (percent_owned_is_max sample_env sample_cutoff sample_first_record
           sample_first_filing Hkeep).
Defined.

(* ================================================================== *)
(** * Facts about the formatter *)

(** The issuer column of the code is the column of the specification on
    the stripped name, and is 35 characters wide. *)
Lemma issuer_field_stripped (v : pyval) (issuer_name : pystr) :
  py_or v (PStr []) = PStr issuer_name ->
  issuer_field v = Ok (issuer_field_spec (strip issuer_name))
  /\ len (issuer_field_spec (strip issuer_name)) = 35.
Proof.
  intros Hv. unfold issuer_field, issuer_field_spec. rewrite Hv.
  cbn [py_strip bind]. set (s := strip issuer_name).
  destruct (Z.gtb_spec (len s) 35) as [Hlong|Hshort].
  - rewrite slice_to_inside by lia. change (Z.to_nat 32) with 32%nat.
    assert (Hlen : List.length (firstn 32 s ++ lit "...") = 35%nat).
    { rewrite length_app, length_firstn. unfold len in Hlong.
      change (List.length (lit "...")) with 3%nat. lia. }
    unfold ljust. rewrite Hlen. cbn [Nat.sub repeat]. rewrite app_nil_r.
    split; [reflexivity|]. unfold len. rewrite Hlen. reflexivity.
  - split; [reflexivity|]. unfold ljust, len in *.
    rewrite length_app, repeat_length. lia.
Qed.

(** The lines [format_rows] adds: one row per filing. *)
Lemma format_rows_spec (E : env) (filings : list filing) :
  forall lines out,
    format_rows E filings lines = Ok out ->
    exists rows,
      out = lines ++ rows
      /\ Forall2 (fun f row => format_row E f = Ok row) filings rows.
Proof.
  induction filings as [|f rest IH]; intros lines out H; simpl in H.
  - injection H as <-. exists []. rewrite app_nil_r. split; constructor.
  - unfold bind in H. destruct (format_row E f) as [row|] eqn:Hrow;
      [|discriminate].
    destruct (IH _ _ H) as (rows & -> & Hrows).
    exists (row :: rows). rewrite <- app_assoc. split; [reflexivity|].
    now constructor.
Qed.

(* ================================================================== *)
(** * The formatter: properties of the specification *)

(** C8, as stated, fails on a name with white space around it: the name
    is stripped before it is measured and cut.  A space followed by 35
    letters has 36 characters and is shown as the 35 letters. *)
Lemma issuer_field_strips_first :
  (len sample_padded_name >? 35) = true
  /\ issuer_field (PStr sample_padded_name) = Ok (repeat 65%N 35)
  /\ issuer_field (PStr sample_padded_name)
     <> Ok (issuer_field_spec sample_padded_name).
Proof.
  split; [reflexivity|]. split; [reflexivity|]. discriminate.
Qed.

(** C8, amended: in every row of the report the issuer column is made from
    the issuer name with the white space around it stripped (a missing name
    counts as empty): a stripped name longer than 35 characters is shown as
    its first 32 characters followed by "...", another one padded with
    spaces to 35 characters; the column is always 35 characters wide. *)
Theorem issuer_column (E : env) (filings : list filing)
  (lines out : list pystr) :
  format_rows E filings lines = Ok out ->
  exists rows,
    out = lines ++ rows
    /\ Forall2
         (fun f row =>
            exists issuer_name,
              py_or (issuer f) (PStr []) = PStr issuer_name
              /\ row = filed_at_date f ++ lit " | "
                         ++ issuer_field_spec (strip issuer_name)
                         ++ lit " | " ++ pct_str E (percent_owned f)
              /\ len (issuer_field_spec (strip issuer_name)) = 35)
         filings rows.
Proof.
  intros H. destruct (format_rows_spec _ _ _ _ H) as (rows & -> & Hrows).
  exists rows. split; [reflexivity|]. clear H.
  induction Hrows as [|f row fs rs Hrow _ IH]; [constructor|].
  constructor; [|exact IH].
  unfold format_row, bind in Hrow.
  destruct (issuer_field (issuer f)) as [field|] eqn:Hfield; [|discriminate].
  injection Hrow as <-.
  assert (Hname : exists issuer_name,
             py_or (issuer f) (PStr []) = PStr issuer_name).
  { unfold issuer_field, bind in Hfield.
    destruct (py_or (issuer f) (PStr [])) as [| | | |s| |];
      try discriminate. now exists s. }
  destruct Hname as [issuer_name Hname]. exists issuer_name.
  destruct (issuer_field_stripped _ _ Hname) as [Hspec Hwidth].
  rewrite Hspec in Hfield. injection Hfield as <-.
  repeat split; assumption.
Qed.

Lemma issuer_column_witness :
  exists out,
    format_rows sample_env sample_results [] = Ok out
    /\ exists rows,
         out = [] ++ rows
         /\ Forall2
              (fun f row =>
                 exists issuer_name,
                   py_or (issuer f) (PStr []) = PStr issuer_name
                   /\ row = filed_at_date f ++ lit " | "
                              ++ issuer_field_spec (strip issuer_name)
                              ++ lit " | "
                              ++ pct_str sample_env (percent_owned f)
                   /\ len (issuer_field_spec (strip issuer_name)) = 35)
              sample_results rows.
Proof.
  eexists. split; [vm_compute; reflexivity|].
  apply (issuer_column sample_env sample_results []).
  vm_compute. reflexivity.
Defined.

(* ================================================================== *)
(** * Facts about dicts *)

Lemma str_eqb_eq (a b : pystr) : str_eqb a b = true <-> a = b.
Proof.
  unfold str_eqb. destruct (list_eq_dec N.eq_dec a b); split; intros H;
    congruence.
Qed.

Lemma str_eqb_refl (a : pystr) : str_eqb a a = true.
Proof. now apply str_eqb_eq. Qed.

Lemma str_eqb_neq (a b : pystr) : a <> b -> str_eqb a b = false.
Proof.
  intros H. destruct (str_eqb a b) eqn:E; [|reflexivity].
  apply str_eqb_eq in E. contradiction.
Qed.

Section Dict.

Context {V : Type}.

Lemma lookup_dict_set_same (key : pystr) (v : V) (d : list (pystr * V)) :
  lookup key (dict_set key v d) = Some v.
Proof.
  induction d as [|[k x] r IH]; simpl.
  - now rewrite str_eqb_refl.
  - destruct (str_eqb k key) eqn:Hk; simpl; now rewrite Hk.
Qed.

Lemma lookup_dict_set_other (key k' : pystr) (v : V)
  (d : list (pystr * V)) :
  k' <> key -> lookup key (dict_set k' v d) = lookup key d.
Proof.
  intros Hne. induction d as [|[k x] r IH]; simpl.
  - now rewrite str_eqb_neq.
  - destruct (str_eqb k k') eqn:Hk; simpl.
    + apply str_eqb_eq in Hk. subst k.
      now rewrite (str_eqb_neq _ _ Hne).
    + now rewrite IH.
Qed.

(** A new key goes to the end. *)
Lemma dict_set_fresh (key : pystr) (v : V) (d : list (pystr * V)) :
  ~ In key (List.map fst d) -> dict_set key v d = d ++ [(key, v)].
Proof.
  induction d as [|[k x] r IH]; simpl; intros Hfresh; [reflexivity|].
  rewrite str_eqb_neq by tauto. rewrite IH by tauto. reflexivity.
Qed.

Lemma lookup_in (key : pystr) (v : V) (d : list (pystr * V)) :
  lookup key d = Some v -> In (key, v) d.
Proof.
  induction d as [|[k x] r IH]; simpl; [discriminate|].
  destruct (str_eqb k key) eqn:Hk.
  - apply str_eqb_eq in Hk. intros [= ->]. left. now subst.
  - intros H. right. now apply IH.
Qed.

Lemma in_dict_set (key : pystr) (v : V) (d : list (pystr * V))
  (kv : pystr * V) :
  In kv (dict_set key v d) -> kv = (key, v) \/ In kv d.
Proof.
  induction d as [|[k x] r IH]; simpl.
  - intros [<-|[]]. now left.
  - destruct (str_eqb k key) eqn:Hk; simpl.
    + apply str_eqb_eq in Hk. subst k. intros [<-|H]; auto.
    + intros [<-|H]; auto. destruct (IH H); auto.
Qed.

End Dict.

(* ================================================================== *)
(** * Facts about the pipeline *)

Section Pipeline.

Variable E : env.

(** [fetch_or_empty] makes the requests of the fetch and gives its
    filings, or none when the fetch raised and the handler wrote its
    line. *)
Lemma fetch_or_empty_spec (fund : fund) (log : list request) :
  fetch_or_empty E fund log =
    (match fst (fetch_13dg_filings_for_cik E (fund_cik fund) LOOKBACK_DAYS
                  MAX_FILINGS_PER_FUND log) with
     | Ok filings => Ok filings
     | Raise e => _ <- print_fetch_error E fund e ;; Ok []
     end,
     snd (fetch_13dg_filings_for_cik E (fund_cik fund) LOOKBACK_DAYS
            MAX_FILINGS_PER_FUND log)).
Proof.
  unfold fetch_or_empty, try_except, iobind, lift, ret.
  destruct (fetch_13dg_filings_for_cik E (fund_cik fund) LOOKBACK_DAYS
              MAX_FILINGS_PER_FUND log) as [[fs|e] log']; [reflexivity|].
  cbn [fst snd]. now destruct (print_fetch_error E fund e).
Qed.

(** A turn of the loop over the funds whose fetch returns, or raises an
    error the handler reports. *)
Lemma collect_funds_turn (fd : fund) (rest : list fund)
  (all : funds_dict) (log : list request) :
  (forall e,
     fst (fetch_13dg_filings_for_cik E (fund_cik fd) LOOKBACK_DAYS
            MAX_FILINGS_PER_FUND log) = Raise e ->
     print_fetch_error E fd e = Ok tt) ->
  collect_funds E (fd :: rest) all log
  = collect_funds E rest
      (dict_set (fund_cik fd)
         (mkinfo (fund_name fd)
            match fst (fetch_13dg_filings_for_cik E (fund_cik fd)
                         LOOKBACK_DAYS MAX_FILINGS_PER_FUND log) with
            | Ok filings => filings
            | Raise _ => []
            end) all)
      (snd (fetch_13dg_filings_for_cik E (fund_cik fd) LOOKBACK_DAYS
              MAX_FILINGS_PER_FUND log)).
Proof.
  intros Hprint. cbn [collect_funds]. unfold iobind.
  rewrite fetch_or_empty_spec.
  destruct (fst (fetch_13dg_filings_for_cik E (fund_cik fd)
                   LOOKBACK_DAYS MAX_FILINGS_PER_FUND log)) as [fs|e];
    [reflexivity|].
  now rewrite (Hprint e eq_refl).
Qed.

(** A turn whose fetch raises an error the handler cannot report ends the
    loop. *)
Lemma collect_funds_turn_aborts (fd : fund) (rest : list fund)
  (all : funds_dict) (log : list request) (e e' : exn) :
  fst (fetch_13dg_filings_for_cik E (fund_cik fd) LOOKBACK_DAYS
         MAX_FILINGS_PER_FUND log) = Raise e ->
  print_fetch_error E fd e = Raise e' ->
  collect_funds E (fd :: rest) all log
  = (Raise e',
     snd (fetch_13dg_filings_for_cik E (fund_cik fd) LOOKBACK_DAYS
            MAX_FILINGS_PER_FUND log)).
Proof.
  intros Hfetch Hprint. cbn [collect_funds]. unfold iobind.
  now rewrite fetch_or_empty_spec, Hfetch, Hprint.
Qed.

(** When the loop returns, its first turn was one of the first kind. *)
Lemma collect_funds_step (fd : fund) (rest : list fund)
  (all : funds_dict) (log : list request) (out : funds_dict) :
  fst (collect_funds E (fd :: rest) all log) = Ok out ->
  (forall e,
     fst (fetch_13dg_filings_for_cik E (fund_cik fd) LOOKBACK_DAYS
            MAX_FILINGS_PER_FUND log) = Raise e ->
     print_fetch_error E fd e = Ok tt).
Proof.
  intros H e Hfetch.
  destruct (print_fetch_error E fd e) as [[]|e'] eqn:Hprint;
    [reflexivity|].
  rewrite (collect_funds_turn_aborts fd rest all log e e' Hfetch Hprint)
    in H.
  discriminate.
Qed.

(** When the loop returns, so does the rest of it after the first turn. *)
Lemma collect_funds_inv (fd : fund) (rest : list fund)
  (all : funds_dict) (log : list request) (out : funds_dict) :
  fst (collect_funds E (fd :: rest) all log) = Ok out ->
  fst (collect_funds E rest
         (dict_set (fund_cik fd)
            (mkinfo (fund_name fd)
               match fst (fetch_13dg_filings_for_cik E (fund_cik fd)
                            LOOKBACK_DAYS MAX_FILINGS_PER_FUND log) with
               | Ok filings => filings
               | Raise _ => []
               end) all)
         (snd (fetch_13dg_filings_for_cik E (fund_cik fd) LOOKBACK_DAYS
                 MAX_FILINGS_PER_FUND log))) = Ok out.
Proof.
  intros H.
  pose proof (collect_funds_step fd rest all log out H) as Hhead.
  now rewrite (collect_funds_turn fd rest all log Hhead) in H.
Qed.

(** The loop over the funds returns when the handler can report every
    error of a fetch; the log is then that of the fetches. *)
Lemma collect_funds_ok (funds : list fund) :
  forall all log,
    reports_errors E funds log ->
    exists out,
      collect_funds E funds all log = (Ok out, log_through E funds log).
Proof.
  induction funds as [|fund rest IH]; intros all log Hrep.
  - now exists all.
  - rewrite collect_funds_turn.
    + cbn [log_through]. apply IH.
      intros before f after e Hsplit.
      apply (Hrep (fund :: before) f after e).
      now rewrite Hsplit.
    + intros e. exact (Hrep [] fund rest e eq_refl).
Qed.

(** The same the other way round. *)
Lemma collect_funds_reports (funds : list fund) :
  forall all log out,
    fst (collect_funds E funds all log) = Ok out ->
    reports_errors E funds log
    /\ snd (collect_funds E funds all log) = log_through E funds log.
Proof.
  induction funds as [|fund rest IH]; intros all log out H.
  - split; [|reflexivity]. intros [|f before] g after e Hsplit; discriminate.
  - pose proof (collect_funds_step fund rest all log out H) as Hhead.
    rewrite (collect_funds_turn fund rest all log Hhead) in *.
    destruct (IH _ _ _ H) as [Hrep Hlog]. split; [|exact Hlog].
    intros [|f before] g after e Hsplit.
    + injection Hsplit as <- <-. apply Hhead.
    + injection Hsplit as <- ->. exact (Hrep before g after e eq_refl).
Qed.

Lemma collect_funds_app (before after : list fund) :
  forall all log mid,
    fst (collect_funds E before all log) = Ok mid ->
    collect_funds E (before ++ after) all log
    = collect_funds E after mid (snd (collect_funds E before all log)).
Proof.
  induction before as [|fund rest IH]; intros all log mid H.
  - simpl in *. now injection H as <-.
  - pose proof (collect_funds_step fund rest all log mid H) as Hhead.
    cbn [app]. rewrite !(collect_funds_turn fund _ all log Hhead) in *.
    now apply IH.
Qed.

(** The loop returns on the first funds of a list when it does on the
    list. *)
Lemma collect_funds_prefix (before after : list fund) :
  forall all log out,
    fst (collect_funds E (before ++ after) all log) = Ok out ->
    exists mid, fst (collect_funds E before all log) = Ok mid.
Proof.
  induction before as [|fund rest IH]; intros all log out H.
  - now exists all.
  - cbn [app] in H.
    pose proof (collect_funds_step fund _ all log out H) as Hhead.
    rewrite (collect_funds_turn fund (rest ++ after) all log Hhead) in H.
    rewrite (collect_funds_turn fund rest all log Hhead).
    exact (IH _ _ _ H).
Qed.

(** Funds with other identifiers leave the entry of [key] alone. *)
Lemma collect_funds_lookup_other (key : pystr) (funds : list fund) :
  forall all log out,
    ~ In key (List.map fund_cik funds) ->
    fst (collect_funds E funds all log) = Ok out ->
    lookup key out = lookup key all.
Proof.
  induction funds as [|fund rest IH]; intros all log out Hkey H;
    simpl in *.
  - now injection H as <-.
  - apply (collect_funds_inv fund rest all log out) in H.
    rewrite (IH _ _ _ ltac:(tauto) H).
    apply lookup_dict_set_other. intros Heq. apply Hkey. now left.
Qed.

(** Funds with distinct identifiers get one entry each, in order. *)
Lemma collect_funds_keys (funds : list fund) :
  forall all log out,
    NoDup (List.map fund_cik funds) ->
    (forall k, In k (List.map fst all) ->
               ~ In k (List.map fund_cik funds)) ->
    fst (collect_funds E funds all log) = Ok out ->
    List.map fst out = List.map fst all ++ List.map fund_cik funds.
Proof.
  induction funds as [|fund rest IH]; intros all log out Hnd Hfresh H;
    simpl in *.
  - injection H as <-. now rewrite app_nil_r.
  - apply (collect_funds_inv fund rest all log out) in H.
    inversion Hnd as [|? ? Hnotin Hnd']; subst.
    assert (Hnew : ~ In (fund_cik fund) (List.map fst all)).
    { intros Hin. apply (Hfresh _ Hin). now left. }
    rewrite (dict_set_fresh _ _ _ Hnew) in H.
    apply IH in H; [|exact Hnd'|].
    + rewrite H, map_app, <- app_assoc. reflexivity.
    + intros k Hk. rewrite map_app in Hk. apply in_app_or in Hk.
      destruct Hk as [Hk|[<-|[]]].
      * intros Hin. apply (Hfresh _ Hk). now right.
      * exact Hnotin.
Qed.

(** Every entry comes from what was there or from a fund of the list;
    its filings are then those of a fetch that returned, or none. *)
Lemma collect_funds_entries (funds : list fund) :
  forall all log out cik info,
    fst (collect_funds E funds all log) = Ok out ->
    In (cik, info) out ->
    In (cik, info) all
    \/ filings info = []
    \/ exists log', fst (fetch_13dg_filings_for_cik E cik LOOKBACK_DAYS
                           MAX_FILINGS_PER_FUND log') = Ok (filings info).
Proof.
  induction funds as [|fund rest IH]; intros all log out cik info H Hin;
    simpl in *.
  - injection H as <-. now left.
  - apply (collect_funds_inv fund rest all log out) in H.
    destruct (IH _ _ _ _ _ H Hin) as [Hset|Hrest]; [|now right].
    destruct (in_dict_set _ _ _ _ Hset) as [[= -> ->]|Hall]; [|now left].
    right. simpl.
    destruct (fst (fetch_13dg_filings_for_cik E (fund_cik fund)
                     LOOKBACK_DAYS MAX_FILINGS_PER_FUND log)) eqn:Hf.
    + right. now exists log.
    + now left.
Qed.

Lemma post_part_spec (body : pystr) (log : list request) :
  exists sent, post_part E body log = (Ok sent, TelegramPost body :: log).
Proof. unfold post_part. eexists. reflexivity. Qed.

(** Posting the parts never raises and only talks to Telegram. *)
Lemma send_parts_spec (chunks : list pystr) :
  forall total idx all_ok log, exists ok posts,
    send_parts E total idx chunks all_ok log = (Ok ok, posts ++ log)
    /\ Forall to_telegram posts.
Proof.
  induction chunks as [|chunk rest IH]; intros total idx all_ok log;
    cbn [send_parts].
  - exists all_ok, []. split; [reflexivity|constructor].
  - unfold iobind.
    set (body := if total >? 1 then part_header idx total ++ chunk
                 else chunk).
    destruct (post_part_spec body log) as [sent ->].
    destruct (IH total (idx + 1) (if sent then all_ok else false)
                (TelegramPost body :: log))
      as (ok & posts & -> & Hposts).
    exists ok, (posts ++ [TelegramPost body]). rewrite <- app_assoc.
    split; [reflexivity|]. apply Forall_app. split; [assumption|].
    constructor; [exact I|constructor].
Qed.

Lemma send_telegram_message_spec (text : pystr) (log : list request) :
  exists ok posts,
    send_telegram_message E text log = (Ok ok, posts ++ log)
    /\ Forall to_telegram posts.
Proof.
  unfold send_telegram_message.
  destruct (negb (truthy (PStr (TELEGRAM_BOT_TOKEN E)))
            || negb (truthy (PStr (TELEGRAM_CHAT_ID E)))).
  - exists false, []. split; [reflexivity|constructor].
  - apply send_parts_spec.
Qed.

(** A row cannot be made only when its issuer column cannot. *)
Lemma format_rows_raise (filings : list filing) :
  forall lines e,
    format_rows E filings lines = Raise e ->
    exists f, In f filings /\ issuer_field (issuer f) = Raise e.
Proof.
  induction filings as [|f rest IH]; intros lines e H; simpl in H;
    [discriminate|].
  unfold bind in H. destruct (format_row E f) as [row|e'] eqn:Hrow.
  - destruct (IH _ _ H) as (f' & Hin & Hf'). exists f'. split; [now right|].
    exact Hf'.
  - injection H as ->. exists f. split; [now left|].
    unfold format_row, bind in Hrow.
    destruct (issuer_field (issuer f)); [discriminate|assumption].
Qed.

Lemma format_funds_raise (items : funds_dict) :
  forall lines e,
    format_funds E items lines = Raise e ->
    exists cik info f,
      In (cik, info) items /\ In f (filings info)
      /\ issuer_field (issuer f) = Raise e.
Proof.
  induction items as [|[cik info] rest IH]; intros lines e H; simpl in H;
    [discriminate|].
  destruct (filings info) as [|f0 fs] eqn:Hfs.
  - destruct (IH _ _ H) as (c & i & f & Hin & Hf & He).
    exists c, i, f. repeat split; auto. now right.
  - unfold bind in H.
    destruct (format_rows E (f0 :: fs) _) as [lines'|e'] eqn:Hrows.
    + destruct (IH _ _ H) as (c & i & f & Hin & Hf & He).
      exists c, i, f. repeat split; auto. now right.
    + injection H as ->.
      destruct (format_rows_raise _ _ _ Hrows) as (f & Hin & He).
      exists cik, info, f. rewrite Hfs. repeat split; auto. now left.
Qed.

Lemma format_funds_extends (items : funds_dict) :
  forall lines out,
    format_funds E items lines = Ok out -> exists more, out = lines ++ more.
Proof.
  induction items as [|[cik info] rest IH]; intros lines out H; simpl in H.
  - injection H as <-. exists []. now rewrite app_nil_r.
  - destruct (filings info) as [|f0 fs].
    + destruct (IH _ _ H) as [more ->]. rewrite <- !app_assoc. eauto.
    + unfold bind in H.
      destruct (format_rows E (f0 :: fs) _) as [lines'|] eqn:Hrows;
        [|discriminate].
      destruct (format_rows_spec _ _ _ _ Hrows) as (rows & -> & _).
      destruct (IH _ _ H) as [more ->]. rewrite <- !app_assoc. eauto.
Qed.

(** Every entry of the dict has its block in the report. *)
Lemma format_funds_block (items : funds_dict) :
  forall lines out cik info,
    format_funds E items lines = Ok out ->
    In (cik, info) items ->
    exists above below, out = above ++ block_start cik info ++ below.
Proof.
  induction items as [|[c i] rest IH]; intros lines out cik info H Hin;
    simpl in H; [contradiction|].
  destruct Hin as [[= -> ->]|Hin].
  - unfold block_start. destruct (filings info) as [|f0 fs].
    + destruct (format_funds_extends _ _ _ H) as [more ->].
      exists lines, more. now rewrite <- !app_assoc.
    + unfold bind in H.
      destruct (format_rows E (f0 :: fs) _) as [lines'|] eqn:Hrows;
        [|discriminate].
      destruct (format_rows_spec _ _ _ _ Hrows) as (rows & -> & _).
      destruct (format_funds_extends _ _ _ H) as [more ->].
      exists lines, (rows ++ [[]] ++ more).
      now rewrite <- !app_assoc.
  - destruct (filings i) as [|f0 fs].
    + exact (IH _ _ _ _ H Hin).
    + unfold bind in H.
      destruct (format_rows E (f0 :: fs) _) as [lines'|]; [|discriminate].
      exact (IH _ _ _ _ H Hin).
Qed.

End Pipeline.

(* ================================================================== *)
(** * Facts about what is printed *)

Lemma ascii_printable (E : env) (s : pystr) :
  ascii_text s = true -> printable E s = true.
Proof.
  unfold ascii_text, printable. intros H. apply forallb_forall.
  intros c Hc. rewrite (proj1 (forallb_forall _ _) H c Hc). reflexivity.
Qed.

Lemma ascii_text_app (a b : pystr) :
  ascii_text (a ++ b) = ascii_text a && ascii_text b.
Proof. apply forallb_app. Qed.

Lemma lit_digits_ascii (d : Decimal.uint) :
  ascii_text (lit (NilEmpty.string_of_uint d)) = true.
Proof. induction d; simpl; auto. Qed.

Lemma str_of_Z_ascii (z : Z) : ascii_text (str_of_Z z) = true.
Proof.
  unfold str_of_Z, NilZero.string_of_int.
  destruct (Z.to_int z) as [d|d]; unfold NilZero.string_of_uint.
  - destruct d; try reflexivity; apply lit_digits_ascii.
  - change (ascii_text (45%N :: lit match d with
                                    | Decimal.Nil => "0"%string
                                    | _ => NilEmpty.string_of_uint d
                                    end) = true).
    cbn [ascii_text forallb]. fold (ascii_text (lit match d with
                                    | Decimal.Nil => "0"%string
                                    | _ => NilEmpty.string_of_uint d
                                    end)).
    destruct d; try reflexivity; apply lit_digits_ascii.
Qed.

Lemma pad2_ascii (z : Z) : ascii_text (pad2 z) = true.
Proof.
  unfold pad2. destruct (z <? 10).
  - rewrite ascii_text_app, str_of_Z_ascii. reflexivity.
  - apply str_of_Z_ascii.
Qed.

Lemma now_str_ascii (E : env) : ascii_text (now_str E) = true.
Proof.
  unfold now_str.
  repeat (rewrite ascii_text_app; apply andb_true_intro; split);
    try apply str_of_Z_ascii; try apply pad2_ascii; reflexivity.
Qed.

Lemma report_head_ascii (E : env) :
  forallb ascii_text (report_head E) = true.
Proof.
  unfold report_head. cbn [forallb].
  rewrite !ascii_text_app, now_str_ascii, str_of_Z_ascii. reflexivity.
Qed.

Lemma join_ascii (lines : list pystr) :
  forallb ascii_text lines = true -> ascii_text (join [NL] lines) = true.
Proof.
  induction lines as [|l rest IH]; intros H; [reflexivity|].
  cbn [forallb] in H. apply andb_prop in H. destruct H as [Hl Hrest].
  destruct rest as [|l' rest']; [exact Hl|].
  change (join [NL] (l :: l' :: rest'))
    with (l ++ [NL] ++ join [NL] (l' :: rest')).
  rewrite !ascii_text_app, Hl, (IH Hrest). reflexivity.
Qed.

(** The report of funds without filings and with ASCII names is ASCII. *)
Lemma format_funds_ascii (E : env) (items : funds_dict) :
  forall lines,
    Forall (fun kv : pystr * fund_info =>
              filings (snd kv) = []
              /\ ascii_text (fst kv) = true
              /\ ascii_text (name (snd kv)) = true) items ->
    forallb ascii_text lines = true ->
    exists out,
      format_funds E items lines = Ok out /\ forallb ascii_text out = true.
Proof.
  induction items as [|[cik info] rest IH]; intros lines Hitems Hlines;
    simpl.
  - eauto.
  - inversion Hitems as [|? ? (Hnone & Hcik & Hname) Hrest]; subst.
    simpl in Hnone, Hcik, Hname. rewrite Hnone. apply IH; [exact Hrest|].
    rewrite !forallb_app, Hlines. unfold block_head. cbn [forallb].
    rewrite !ascii_text_app, Hcik, Hname. reflexivity.
Qed.

Lemma report_without_filings_printable (E : env) (all : funds_dict) :
  Forall (fun kv : pystr * fund_info =>
            filings (snd kv) = []
            /\ ascii_text (fst kv) = true
            /\ ascii_text (name (snd kv)) = true) all ->
  exists text,
    format_daily_report E all = Ok text /\ printable E text = true.
Proof.
  intros Hall. unfold format_daily_report, report_lines.
  destruct (format_funds_ascii E all (report_head E) Hall
              (report_head_ascii E)) as (lines & -> & Hlines).
  cbn [bind]. eexists. split; [reflexivity|].
  apply ascii_printable. now apply join_ascii.
Qed.

Lemma FUNDS_ascii :
  forallb (fun fund => ascii_text (fund_cik fund)
                       && ascii_text (fund_name fund)) FUNDS = true.
Proof. vm_compute. reflexivity. Qed.

(** For a fund with an ASCII name and identifier the handler of [main]
    can fail only on [repr(e)]. *)
Lemma print_fetch_error_ascii (E : env) (fund : fund) (e : exn) :
  ascii_text (fund_cik fund) && ascii_text (fund_name fund) = true ->
  print_fetch_error E fund e = print_repr E e.
Proof.
  intros H. apply andb_prop in H. destruct H as [Hcik Hname].
  unfold print_fetch_error, py_print.
  rewrite ascii_printable; [reflexivity|].
  rewrite !ascii_text_app, Hcik, Hname. reflexivity.
Qed.

(** What interrupts a print is a [UnicodeEncodeError]. *)
Lemma py_print_raise (E : env) (text : pystr) (e : exn) :
  py_print E text = Raise e ->
  printable E text = false /\ e = UnicodeEncodeError (encode_error_repr E text).
Proof.
  unfold py_print. destruct (printable E text); [discriminate|].
  intros [= <-]. now split.
Qed.

Lemma print_fetch_error_raise (E : env) (fund : fund) (e e' : exn) :
  print_fetch_error E fund e = Raise e' ->
  exists shown, e' = UnicodeEncodeError shown.
Proof.
  unfold print_fetch_error, bind.
  destruct (py_print E _) as [[]|e0] eqn:Hhead.
  - destruct e; try discriminate; cbn [print_repr]; intros H;
      apply py_print_raise in H; destruct H as [_ ->]; eauto.
  - intros [= <-]. apply py_print_raise in Hhead.
    destruct Hhead as [_ ->]. eauto.
Qed.

(** A [stdout] that encodes every character takes every text. *)
Lemma py_print_complete (E : env) (text : pystr) :
  (forall c, stdout_encodes E c = true) -> py_print E text = Ok tt.
Proof.
  intros Hall. unfold py_print, printable.
  replace (forallb _ text) with true; [reflexivity|].
  symmetry. apply forallb_forall. intros c _. rewrite Hall.
  apply orb_true_r.
Qed.

Lemma print_fetch_error_complete (E : env) (fund : fund) (e : exn) :
  (forall c, stdout_encodes E c = true) ->
  print_fetch_error E fund e = Ok tt.
Proof.
  intros Hall. unfold print_fetch_error.
  rewrite (py_print_complete E _ Hall). cbn [bind].
  destruct e; try reflexivity; cbn [print_repr];
    apply (py_print_complete E _ Hall).
Qed.

Lemma FUNDS_distinct : NoDup (List.map fund_cik FUNDS).
Proof.
  assert (Hdec : forall (l : list pystr),
             (fix distinct (l : list pystr) : bool :=
                match l with
                | [] => true
                | x :: r => negb (existsb (str_eqb x) r) && distinct r
                end) l = true -> NoDup l).
  { induction l as [|x r IH]; intros H; constructor.
    - apply andb_prop in H. destruct H as [H _].
      apply negb_true_iff in H. intros Hin.
      assert (existsb (str_eqb x) r = true); [|congruence].
      apply existsb_exists. exists x. split; [assumption|apply str_eqb_refl].
    - apply IH. apply andb_prop in H. tauto. }
  apply Hdec. vm_compute. reflexivity.
Qed.

Section PipelineRuns.

Variable E : env.



(** The entry of a fund with an identifier of its own holds its name and
    what its fetch gave when the loop reached it. *)
Lemma collect_funds_lookup (before after : list fund) (fund : fund)
  (log : list request) (all : funds_dict) :
  NoDup (List.map fund_cik (before ++ fund :: after)) ->
  fst (collect_funds E (before ++ fund :: after) [] log) = Ok all ->
  lookup (fund_cik fund) all
  = Some (mkinfo (fund_name fund)
            match fst (fetch_13dg_filings_for_cik E (fund_cik fund)
                         LOOKBACK_DAYS MAX_FILINGS_PER_FUND
                         (log_after E before log)) with
            | Ok filings => filings
            | Raise _ => []
            end).
Proof.
  intros Hnd H.
  destruct (collect_funds_prefix E before (fund :: after) [] log all H)
    as [mid Hmid].
  rewrite (collect_funds_app E before (fund :: after) [] log mid Hmid) in H.
  apply (collect_funds_inv E fund after mid _ all) in H.
  assert (Hnotin : ~ In (fund_cik fund) (List.map fund_cik after)).
  { rewrite map_app in Hnd. simpl in Hnd.
    apply NoDup_remove_2 in Hnd. intros Hin. apply Hnd.
    apply in_or_app. now right. }
  rewrite (collect_funds_lookup_other E (fund_cik fund) after _ _ _
             Hnotin H).
  unfold log_after. apply lookup_dict_set_same.
Qed.

(** The identifier and the name of an entry are those of a fund. *)
Lemma collect_funds_names (funds : list fund) :
  forall all log out cik info,
    fst (collect_funds E funds all log) = Ok out ->
    In (cik, info) out ->
    In (cik, info) all
    \/ exists fund,
         In fund funds /\ cik = fund_cik fund /\ name info = fund_name fund.
Proof.
  induction funds as [|fund rest IH]; intros all log out cik info H Hin;
    simpl in *.
  - injection H as <-. now left.
  - apply (collect_funds_inv E fund rest all log out) in H.
    destruct (IH _ _ _ _ _ H Hin) as [Hset|(g & Hg & Hc & Hn)].
    + destruct (in_dict_set _ _ _ _ Hset) as [[= -> ->]|Hall]; [|now left].
      right. exists fund. auto.
    + right. exists g. auto.
Qed.

(** The log of a loop that returns is that of the fetches made in
    turn. *)
Lemma collect_funds_log_through (funds : list fund) (all : funds_dict)
  (log : list request) (out : funds_dict) :
  fst (collect_funds E funds all log) = Ok out ->
  snd (collect_funds E funds all log) = log_through E funds log.
Proof. intros H. exact (proj2 (collect_funds_reports E funds all log out H)). Qed.


End PipelineRuns.

(* ================================================================== *)
(** * The pipeline: properties of the specification *)




(** C7, as stated, fails: the handler of [main] prints [repr(e)], and an
    error that [stdout] cannot write interrupts the handler.  The record
    of the second fund has a date that does not parse and that an ASCII
    [stdout] cannot encode: the fetch raises, the handler raises on the
    [repr] of that error, which shows the date, and the run ends there,
    after two requests, without a report. *)
Lemma failing_fetch_aborts_run :
  In (mkfund (lit "Elliott") (lit "1791786")) FUNDS
  /\ fst (fetch_13dg_filings_for_cik accent_env (lit "1791786")
            LOOKBACK_DAYS MAX_FILINGS_PER_FUND [SecPost (lit "1603466")])
     = Raise (UnicodeEncodeError (encode_error_repr accent_env [233%N]))
  /\ aborts (main accent_env) []
  /\ snd (main accent_env [])
     = [SecPost (lit "1791786"); SecPost (lit "1603466")].
Proof.
  split; [right; left; reflexivity|].
  split; [vm_compute; reflexivity|].
  split; [eexists; vm_compute; reflexivity|].
  vm_compute. reflexivity.
Qed.

(** C7, amended: when [stdout] can write the [repr] of every error that a
    fetch raises, the loop of [main] makes the fetch of every configured
    fund in turn and ends with one entry per fund, in order: the filings
    its fetch returned or, when the fetch raised, none; the run goes on
    with that dict.  A fund whose fetch raised has its block in the
    report, with the placeholder line, like every other fund.  The
    formatter raises only over a filing that a fetch returned, and a run
    in which no entry holds a filing gets to send its report. *)
Theorem failing_fetch_keeps_report (E : env) (log : list request) :
  (forall before fund after e,
     FUNDS = before ++ fund :: after ->
     fst (fetch_13dg_filings_for_cik E (fund_cik fund) LOOKBACK_DAYS
            MAX_FILINGS_PER_FUND (log_through E before log)) = Raise e ->
     print_repr E e = Ok tt) ->
  exists all,
    collect_funds E FUNDS [] log = (Ok all, log_through E FUNDS log)
    /\ main E log = deliver E all (log_through E FUNDS log)
    /\ List.map fst all = List.map fund_cik FUNDS
    /\ (forall before fund after,
          FUNDS = before ++ fund :: after ->
          lookup (fund_cik fund) all
          = Some (mkinfo (fund_name fund)
                    match fst (fetch_13dg_filings_for_cik E (fund_cik fund)
                                 LOOKBACK_DAYS MAX_FILINGS_PER_FUND
                                 (log_through E before log)) with
                    | Ok filings => filings
                    | Raise _ => []
                    end))
    /\ (forall before fund after e,
          FUNDS = before ++ fund :: after ->
          fst (fetch_13dg_filings_for_cik E (fund_cik fund) LOOKBACK_DAYS
                 MAX_FILINGS_PER_FUND (log_through E before log)) = Raise e ->
          lookup (fund_cik fund) all = Some (mkinfo (fund_name fund) [])
          /\ forall text,
               format_daily_report E all = Ok text ->
               exists above below,
                 text = join [NL]
                          (above
                             ++ block_head (fund_cik fund) (fund_name fund)
                             ++ [NO_FILINGS; []] ++ below))
    /\ (forall text,
          format_daily_report E all = Ok text ->
          forall fund, In fund FUNDS ->
            exists info above below,
              lookup (fund_cik fund) all = Some info
              /\ name info = fund_name fund
              /\ text = join [NL]
                          (above ++ block_start (fund_cik fund) info
                             ++ below))
    /\ (forall e,
          format_daily_report E all = Raise e ->
          exists cik info log',
            In (cik, info) all /\ filings info <> []
            /\ fst (fetch_13dg_filings_for_cik E cik LOOKBACK_DAYS
                      MAX_FILINGS_PER_FUND log') = Ok (filings info))
    /\ ((forall cik info, In (cik, info) all -> filings info = []) ->
        exists text,
          format_daily_report E all = Ok text
          /\ main E log
             = send_telegram_message E text (log_through E FUNDS log)).
Proof.
  intros Hrepr.
  assert (Hrep : reports_errors E FUNDS log).
  { intros before fund after e Hsplit Hraise.
    rewrite print_fetch_error_ascii;
      [exact (Hrepr before fund after e Hsplit Hraise)|].
    apply (proj1 (forallb_forall _ _) FUNDS_ascii).
    rewrite Hsplit. apply in_elt. }
  destruct (collect_funds_ok E FUNDS [] log Hrep) as [all Hall].
  assert (Hfst : fst (collect_funds E FUNDS [] log) = Ok all)
    by now rewrite Hall.
  assert (Hmain : main E log = deliver E all (log_through E FUNDS log)).
  { unfold main, run, deliver, iobind. now rewrite Hall. }
  assert (Hentry : forall before fund after,
             FUNDS = before ++ fund :: after ->
             lookup (fund_cik fund) all
             = Some (mkinfo (fund_name fund)
                       match fst (fetch_13dg_filings_for_cik E (fund_cik fund)
                                    LOOKBACK_DAYS MAX_FILINGS_PER_FUND
                                    (log_through E before log)) with
                       | Ok filings => filings
                       | Raise _ => []
                       end)).
  { intros before fund after Hsplit.
    pose proof FUNDS_distinct as Hnd. pose proof Hfst as Hf.
    rewrite Hsplit in Hnd, Hf.
    destruct (collect_funds_prefix E before (fund :: after) [] log all Hf)
      as [mid Hmid].
    rewrite <- (collect_funds_log_through E before [] log mid Hmid).
    exact (collect_funds_lookup E before after fund log all Hnd Hf). }
  assert (Hblock : forall text fund info,
             format_daily_report E all = Ok text ->
             lookup (fund_cik fund) all = Some info ->
             exists above below,
               text = join [NL]
                        (above ++ block_start (fund_cik fund) info ++ below)).
  { intros text fund info Htext Hinfo.
    unfold format_daily_report, report_lines, bind in Htext.
    destruct (format_funds E all (report_head E)) as [lines|] eqn:Hlines;
      [|discriminate].
    injection Htext as <-. apply lookup_in in Hinfo.
    destruct (format_funds_block _ _ _ _ _ _ Hlines Hinfo)
      as (above & below & ->).
    now exists above, below. }
  exists all. split; [exact Hall|]. split; [exact Hmain|].
  split; [|split; [|split; [|split; [|split]]]].
  - now rewrite (collect_funds_keys E FUNDS [] log all FUNDS_distinct).
  - exact Hentry.
  - intros before fund after e Hsplit Hraise.
    pose proof (Hentry before fund after Hsplit) as Hlook.
    rewrite Hraise in Hlook. split; [exact Hlook|].
    intros text Htext. exact (Hblock text fund _ Htext Hlook).
  - intros text Htext fund Hin.
    destruct (in_split _ _ Hin) as (before & after & Hsplit).
    pose proof (Hentry before fund after Hsplit) as Hlook.
    destruct (Hblock text fund _ Htext Hlook) as (above & below & ->).
    eexists. exists above, below. split; [exact Hlook|].
    split; reflexivity.
  - intros e He. unfold format_daily_report, report_lines, bind in He.
    destruct (format_funds E all (report_head E)) as [lines|e'] eqn:Hlines;
      [discriminate|].
    destruct (format_funds_raise _ _ _ _ Hlines)
      as (cik & info & f & Hin & Hf & _).
    destruct (collect_funds_entries E FUNDS [] log all cik info Hfst Hin)
      as [[]|[Hnone|[log' Hlog']]].
    + rewrite Hnone in Hf. contradiction.
    + exists cik, info, log'. split; [exact Hin|]. split; [|exact Hlog'].
      intros Hnone. rewrite Hnone in Hf. contradiction.
  - intros Hnone.
    assert (Hitems : Forall (fun kv : pystr * fund_info =>
                               filings (snd kv) = []
                               /\ ascii_text (fst kv) = true
                               /\ ascii_text (name (snd kv)) = true) all).
    { apply Forall_forall. intros [cik info] Hin. simpl.
      split; [exact (Hnone cik info Hin)|].
      destruct (collect_funds_names E FUNDS [] log all cik info Hfst Hin)
        as [[]|(fund & Hfund & -> & ->)].
      apply (proj1 (forallb_forall _ _) FUNDS_ascii) in Hfund.
      now apply andb_prop in Hfund. }
    destruct (report_without_filings_printable E all Hitems)
      as (text & Htext & Hprint).
    exists text. split; [exact Htext|].
    rewrite Hmain. unfold deliver, iobind, lift, py_print.
    now rewrite Htext, Hprint.
Qed.

Lemma failing_fetch_keeps_report_witness :
  (forall before fund after e,
     FUNDS = before ++ fund :: after ->
     fst (fetch_13dg_filings_for_cik sample_env (fund_cik fund) LOOKBACK_DAYS
            MAX_FILINGS_PER_FUND (log_through sample_env before []))
     = Raise e ->
     print_repr sample_env e = Ok tt)
  /\ exists all,
       collect_funds sample_env FUNDS [] []
       = (Ok all, log_through sample_env FUNDS [])
       /\ lookup (lit "1791786") all = Some (mkinfo (lit "Elliott") [])
       /\ option_map (fun info => List.length (filings info))
            (lookup (lit "1603466") all) = Some 3%nat.
Proof.
  assert (Hrepr : forall before fund after e,
             FUNDS = before ++ fund :: after ->
             fst (fetch_13dg_filings_for_cik sample_env (fund_cik fund)
                    LOOKBACK_DAYS MAX_FILINGS_PER_FUND
                    (log_through sample_env before [])) = Raise e ->
             print_repr sample_env e = Ok tt).
  { intros before fund after e Hsplit.
    assert (Hin : In fund FUNDS) by (rewrite Hsplit; apply in_elt).
    generalize (log_through sample_env before []). intros log.
    unfold FUNDS in Hin. cbn [In] in Hin.
    repeat (destruct Hin as [<-|Hin]); try contradiction;
      vm_compute; intros H; try discriminate H.
    injection H as <-. reflexivity. }
  split; [exact Hrepr|].
  destruct (failing_fetch_keeps_report sample_env [] Hrepr)
    as (all & Hall & _ & _ & Hentry & Hfail & _).
  exists all. split; [exact Hall|]. split.
  - apply (Hfail [mkfund (lit "Point72 Asset Management") (lit "1603466")]
             (mkfund (lit "Elliott") (lit "1791786"))
             (skipn 2 FUNDS) (ConnectionError sample_connection_error)).
    + reflexivity.
    + vm_compute. reflexivity.
  - pose proof (Hentry []
                  (mkfund (lit "Point72 Asset Management") (lit "1603466"))
                  (skipn 1 FUNDS) eq_refl) as Hfirst.
    cbn [fund_cik fund_name] in Hfirst. rewrite Hfirst.
    vm_compute. reflexivity.
Defined.

(* ================================================================== *)
(** * More about the chunker *)

Lemma nth_error_firstn_lt (n : nat) (s : pystr) (i : nat) :
  (i < n)%nat -> nth_error (firstn n s) i = nth_error s i.
Proof.
  revert s i. induction n as [|n IH]; intros [|x r] [|i] H; simpl;
    try reflexivity; try lia.
  apply IH. lia.
Qed.

Lemma in_firstn (n : nat) (s : pystr) (c : char) :
  In c (firstn n s) -> In c s.
Proof.
  rewrite <- (firstn_skipn n s) at 2. intros H. apply in_or_app. now left.
Qed.

Lemma in_skipn (n : nat) (s : pystr) (c : char) :
  In c (skipn n s) -> In c s.
Proof.
  rewrite <- (firstn_skipn n s) at 2. intros H. apply in_or_app. now right.
Qed.

Lemma lstrip_head (c : char) (s : pystr) :
  nth_error (lstrip c s) 0 <> Some c.
Proof.
  induction s as [|x r IH]; simpl; [discriminate|].
  destruct (N.eqb_spec x c) as [|Hx]; [assumption|].
  simpl. intros [= E]. contradiction.
Qed.

Lemma lstrip_absent (c : char) (s : pystr) : ~ In c s -> lstrip c s = s.
Proof.
  destruct s as [|x r]; simpl; intros H; [reflexivity|].
  destruct (N.eqb_spec x c) as [->|]; [|reflexivity].
  exfalso. apply H. now left.
Qed.

Lemma lstrip_app_last (c x : char) (s : pystr) :
  x <> c -> lstrip c (s ++ [x]) = lstrip c s ++ [x].
Proof.
  intros Hx. induction s as [|y r IH]; simpl.
  - destruct (N.eqb_spec x c); [contradiction|reflexivity].
  - destruct (N.eqb_spec y c); [assumption|reflexivity].
Qed.

Lemma rindex_none_absent (c : char) (s : pystr) :
  ~ In c s -> rindex c s = None.
Proof.
  intros H. destruct (rindex c s) as [j|] eqn:E; [|reflexivity].
  exfalso. apply H. destruct (rindex_bound _ _ _ E) as [_ Hj].
  exact (nth_error_In _ _ Hj).
Qed.

(** How a turn leaves the loop. *)
Lemma chunk_step_done (max_len : Z) (remaining : pystr)
  (chunks cs : list pystr) :
  chunk_step max_len remaining chunks = Done cs ->
  (remaining = [] /\ cs = chunks)
  \/ (remaining <> [] /\ len remaining <= max_len
      /\ cs = chunks ++ [remaining]).
Proof.
  unfold chunk_step. destruct remaining as [|x r] eqn:Hr.
  - intros [= <-]. now left.
  - rewrite <- Hr. destruct (Z.leb_spec (len remaining) max_len);
      [|discriminate].
    intros [= <-]. right. subst remaining. repeat split; auto. discriminate.
Qed.

(** A turn goes round again only on a text longer than [max_len]. *)
Lemma chunk_step_again_long (max_len : Z) (remaining : pystr)
  (chunks : list pystr) (r : pystr) (cs : list pystr) :
  chunk_step max_len remaining chunks = Again r cs ->
  max_len < len remaining
  /\ r = lstrip NL (slice_from remaining (split_point max_len remaining))
  /\ cs = chunks ++ [slice_to remaining (split_point max_len remaining)].
Proof.
  unfold chunk_step. destruct remaining as [|x rest] eqn:Hr; [discriminate|].
  rewrite <- Hr. destruct (Z.leb_spec (len remaining) max_len);
    [discriminate|].
  intros [= <- <-]. auto.
Qed.

Section ChunkerMore.

Variable max_len : Z.
Hypothesis max_len_pos : 1 <= max_len.

(** The new chunks are as many as the text that remained has characters,
    at most, and there is one unless nothing remained. *)
Lemma chunk_loop_count (fuel : nat) :
  forall remaining chunks cs,
    chunk_loop fuel max_len remaining chunks = Some cs ->
    exists new,
      cs = chunks ++ new
      /\ (new = [] <-> remaining = [])
      /\ (List.length new <= List.length remaining)%nat.
Proof.
  induction fuel as [|fuel IH]; intros remaining chunks cs H; [discriminate|].
  cbn [chunk_loop] in H.
  destruct (chunk_step max_len remaining chunks) as [cs'|r cs'] eqn:Hs.
  - injection H as <-.
    destruct (chunk_step_done _ _ _ _ Hs) as [[-> ->]|(Hne & _ & ->)].
    + exists []. rewrite app_nil_r. repeat split; auto.
    + exists [remaining]. split; [reflexivity|]. split.
      * split; [discriminate|contradiction].
      * destruct remaining; [contradiction|simpl; lia].
  - pose proof (chunk_step_shorter max_len max_len_pos _ _ _ _ Hs) as Hlt.
    destruct (chunk_step_again_long _ _ _ _ _ Hs) as (_ & _ & ->).
    destruct (IH _ _ _ H) as (new & -> & _ & Hcount).
    eexists (_ :: new). rewrite <- app_assoc. split; [reflexivity|]. split.
    + split; [discriminate|]. intros ->. simpl in Hlt. lia.
    + simpl. lia.
Qed.

(** Once the text does not start with a newline, every chunk is solid. *)
Lemma chunk_loop_solid (fuel : nat) :
  forall remaining chunks cs,
    chunk_loop fuel max_len remaining chunks = Some cs ->
    nth_error remaining 0 <> Some NL ->
    exists new, cs = chunks ++ new /\ Forall solid new.
Proof.
  induction fuel as [|fuel IH]; intros remaining chunks cs H Hhead;
    [discriminate|].
  cbn [chunk_loop] in H.
  destruct (chunk_step max_len remaining chunks) as [cs'|r cs'] eqn:Hs.
  - injection H as <-.
    destruct (chunk_step_done _ _ _ _ Hs) as [[-> ->]|(Hne & _ & ->)].
    + exists []. rewrite app_nil_r. split; [reflexivity|constructor].
    + exists [remaining]. split; [reflexivity|].
      constructor; [now split|constructor].
  - destruct (chunk_step_again_long _ _ _ _ _ Hs) as (Hlong & Hr & Hcs).
    destruct (split_point_range max_len max_len_pos remaining Hlong)
      as [Hsp Hzero].
    destruct (chunk_step_again max_len max_len_pos _ _ _ _ Hs)
      as (chunk & k & Hcs' & _ & Hlen & _ & Hcut & _).
    assert (Hchunk : solid chunk).
    { destruct chunk as [|y c'].
      - exfalso. apply Hhead, Hzero. unfold len in Hlen. simpl in Hlen. lia.
      - split; [discriminate|]. rewrite Hcut in Hhead. exact Hhead. }
    assert (Hrhead : nth_error r 0 <> Some NL)
      by (rewrite Hr; apply lstrip_head).
    destruct (IH _ _ _ H Hrhead) as (new & -> & Hnew).
    exists (chunk :: new). rewrite Hcs', <- app_assoc.
    split; [reflexivity|]. now constructor.
Qed.

(** A long text without a newline is cut exactly at [max_len]. *)
Lemma split_point_no_newline (remaining : pystr) :
  max_len < len remaining -> ~ In NL remaining ->
  split_point max_len remaining = max_len.
Proof.
  intros Hlong Hno. unfold split_point, rfind.
  rewrite slice_to_inside by lia.
  rewrite rindex_none_absent; [reflexivity|].
  intros Hin. apply Hno. exact (in_firstn _ _ _ Hin).
Qed.

Lemma chunk_loop_hard_split (fuel : nat) :
  forall remaining chunks cs,
    chunk_loop fuel max_len remaining chunks = Some cs ->
    ~ In NL remaining ->
    exists new,
      cs = chunks ++ new
      /\ List.concat new = remaining
      /\ Forall (fun c => len c = max_len) (removelast new)
      /\ Forall (fun c => c <> []) new
      /\ (remaining <> [] -> new <> []).
Proof.
  induction fuel as [|fuel IH]; intros remaining chunks cs H Hno;
    [discriminate|].
  cbn [chunk_loop] in H.
  destruct (chunk_step max_len remaining chunks) as [cs'|r cs'] eqn:Hs.
  - injection H as <-.
    destruct (chunk_step_done _ _ _ _ Hs) as [[-> ->]|(Hne & _ & ->)].
    + exists []. rewrite app_nil_r. simpl.
      repeat split; try constructor. intros Hc. contradiction.
    + exists [remaining]. simpl. rewrite app_nil_r.
      repeat split; try constructor; auto. discriminate.
  - destruct (chunk_step_again_long _ _ _ _ _ Hs) as (Hlong & Hr & Hcs).
    rewrite (split_point_no_newline remaining Hlong Hno) in Hr, Hcs.
    rewrite slice_from_inside in Hr by lia.
    rewrite slice_to_inside in Hcs by lia.
    assert (Hno' : ~ In NL (skipn (Z.to_nat max_len) remaining)).
    { intros Hin. apply Hno. exact (in_skipn _ _ _ Hin). }
    rewrite lstrip_absent in Hr by exact Hno'.
    assert (Hrne : r <> []).
    { intros Hnil. rewrite Hnil in Hr.
      apply (f_equal (@List.length char)) in Hr.
      rewrite length_skipn in Hr. unfold len in Hlong. simpl in Hr. lia. }
    rewrite <- Hr in Hno'.
    destruct (IH _ _ _ H Hno') as (new & -> & Hcat & Hfull & Hne & Hsome).
    exists (firstn (Z.to_nat max_len) remaining :: new).
    rewrite Hcs, <- app_assoc. split; [reflexivity|]. split; [|split; [|split]].
    + simpl. rewrite Hcat, Hr. apply firstn_skipn.
    + specialize (Hsome Hrne). destruct new as [|c0 new']; [contradiction|].
      cbn [removelast]. constructor; [|exact Hfull].
      unfold len in *. rewrite length_firstn. lia.
    + constructor; [|exact Hne]. intros Hnil.
      apply (f_equal (@List.length char)) in Hnil.
      rewrite length_firstn in Hnil. unfold len in Hlong. simpl in Hnil. lia.
    + discriminate.
Qed.

End ChunkerMore.

(** Newlines between the chunks are all that a weave adds to them. *)
Lemma weave_letters (new : list pystr) :
  forall seps,
    Forall only_newlines seps ->
    filter not_nl (weave new seps) = filter not_nl (List.concat new).
Proof.
  assert (Hnl : forall s, only_newlines s -> filter not_nl s = []).
  { induction s as [|x r IH]; intros H; [reflexivity|].
    inversion H as [|? ? Hx Hr]; subst. simpl. now apply IH. }
  induction new as [|c cs IH]; intros seps Hseps; [reflexivity|].
  destruct seps as [|s ss]; simpl.
  - rewrite !filter_app. f_equal. apply IH. constructor.
  - inversion Hseps as [|? ? Hs Hss]; subst.
    rewrite !filter_app, (Hnl s Hs). simpl. f_equal. now apply IH.
Qed.

(** With [max_len <= 0] a turn on a text that ends with another character
    than a newline goes round again on such a text. *)
Lemma chunk_step_nonpositive (max_len : Z) (x : char) (pre : pystr)
  (chunks : list pystr) :
  max_len <= 0 -> x <> NL ->
  exists pre' cs',
    chunk_step max_len (pre ++ [x]) chunks = Again (pre' ++ [x]) cs'.
Proof.
  intros Hmax Hx. unfold chunk_step.
  destruct (pre ++ [x]) as [|y rest] eqn:Hrem.
  { exfalso. now apply (app_cons_not_nil pre [] x). }
  rewrite <- Hrem.
  assert (Hlen : len (pre ++ [x]) = Z.of_nat (List.length pre) + 1).
  { unfold len. rewrite length_app. simpl. lia. }
  destruct (Z.leb_spec (len (pre ++ [x])) max_len); [lia|].
  set (sp := split_point max_len (pre ++ [x])).
  assert (Hcut : 0 <= clamp (len (pre ++ [x])) sp
                 <= Z.of_nat (List.length pre)).
  { assert (Hk0 : 0 <= clamp (len (pre ++ [x])) max_len
                  <= Z.of_nat (List.length pre)).
    { unfold clamp. destruct (Z.ltb_spec max_len 0); lia. }
    unfold sp, split_point, rfind, slice_to.
    destruct (rindex NL (firstn _ (pre ++ [x]))) as [j|] eqn:Hj.
    - destruct (rindex_bound _ _ _ Hj) as [Hlt _].
      rewrite length_firstn in Hlt.
      replace (Z.of_nat j =? -1) with false
        by (symmetry; apply Z.eqb_neq; lia).
      assert (Hjk : Z.of_nat j < clamp (len (pre ++ [x])) max_len) by lia.
      rewrite clamp_inside by lia. lia.
    - simpl. exact Hk0. }
  unfold slice_from. set (n := Z.to_nat (clamp (len (pre ++ [x])) sp)).
  assert (Hn : (n <= List.length pre)%nat) by (unfold n; lia).
  rewrite skipn_app.
  replace (n - List.length pre)%nat with O by lia. simpl.
  rewrite lstrip_app_last by assumption. eauto.
Qed.

(* ================================================================== *)
(** * The chunker: further properties *)

(** X1: for [max_len >= 1] there is a chunk unless the text is empty, and
    there are at most as many chunks as the text has characters. *)
Theorem chunk_text_count (text : pystr) (max_len : Z) :
  1 <= max_len ->
  exists chunks,
    chunk_text max_len text = Some chunks
    /\ (chunks = [] <-> text = [])
    /\ (List.length chunks <= List.length text)%nat.
Proof.
  intros Hpos.
  destruct (chunk_loop_enough max_len Hpos (S (List.length text)) text [])
    as [cs Hcs]; [lia|].
  exists cs. split; [exact Hcs|].
  destruct (chunk_loop_count max_len Hpos _ _ _ _ Hcs) as (new & -> & H1 & H2).
  now split.
Qed.

Lemma chunk_text_count_witness :
  1 <= 4 /\
  exists chunks,
    chunk_text 4 (lit "abcdefghi") = Some chunks
    /\ (chunks = [] <-> lit "abcdefghi" = [])
    /\ (List.length chunks <= List.length (lit "abcdefghi"))%nat.
Proof.
  assert (Hpos : 1 <= 4) by lia.
  split; [exact Hpos|].
  exact (chunk_text_count (lit "abcdefghi") 4 Hpos).
Defined.

(** X2: for [max_len >= 1] only the first chunk can be empty or start with
    a newline: every later chunk is solid, and so is the first when the
    text does not start with a newline. *)
Theorem chunk_text_later_chunks_solid (text : pystr) (max_len : Z)
  (chunks : list pystr) :
  1 <= max_len ->
  chunk_text max_len text = Some chunks ->
  Forall solid (tl chunks)
  /\ (nth_error text 0 <> Some NL -> Forall solid chunks).
Proof.
  intros Hpos H. split.
  - unfold chunk_text in H. cbn [chunk_loop] in H.
    destruct (chunk_step max_len text []) as [cs|r cs] eqn:Hs.
    + injection H as <-.
      destruct (chunk_step_done _ _ _ _ Hs) as [[_ ->]|(_ & _ & ->)];
        constructor.
    + destruct (chunk_step_again_long _ _ _ _ _ Hs) as (_ & Hr & ->).
      assert (Hhead : nth_error r 0 <> Some NL)
        by (rewrite Hr; apply lstrip_head).
      destruct (chunk_loop_solid max_len Hpos _ _ _ _ H Hhead)
        as (new & -> & Hnew).
      exact Hnew.
  - intros Hhead.
    destruct (chunk_loop_solid max_len Hpos _ _ _ _ H Hhead)
      as (new & -> & Hnew).
    exact Hnew.
Qed.

Lemma chunk_text_later_chunks_solid_witness :
  1 <= 3
  /\ chunk_text 3 sample_nl_line = Some [[]; lit "abc"; lit "def"]
  /\ Forall solid (tl [[]; lit "abc"; lit "def"]).
Proof.
  assert (Hpos : 1 <= 3) by lia.
  assert (Hrun : chunk_text 3 sample_nl_line
                 = Some [[]; lit "abc"; lit "def"]) by reflexivity.
  split; [exact Hpos|]. split; [exact Hrun|].
  exact (proj1 (chunk_text_later_chunks_solid sample_nl_line 3 _ Hpos Hrun)).
Defined.

(** X3: a text without any newline is cut into consecutive pieces of
    exactly [max_len] characters, the last piece holding what is left:
    the chunks concatenated are the text, none is empty, and all but the
    last have length [max_len]. *)
Theorem chunk_text_hard_split (text : pystr) (max_len : Z) :
  1 <= max_len ->
  ~ In NL text ->
  exists chunks,
    chunk_text max_len text = Some chunks
    /\ List.concat chunks = text
    /\ Forall (fun c => len c = max_len) (removelast chunks)
    /\ Forall (fun c => c <> []) chunks.
Proof.
  intros Hpos Hno.
  destruct (chunk_loop_enough max_len Hpos (S (List.length text)) text [])
    as [cs Hcs]; [lia|].
  exists cs. split; [exact Hcs|].
  destruct (chunk_loop_hard_split max_len Hpos _ _ _ _ Hcs Hno)
    as (new & -> & Hcat & Hfull & Hne & _).
  now repeat split.
Qed.

Lemma chunk_text_hard_split_witness :
  1 <= 4 /\ ~ In NL (lit "abcdefghi")
  /\ exists chunks,
       chunk_text 4 (lit "abcdefghi") = Some chunks
       /\ List.concat chunks = lit "abcdefghi"
       /\ Forall (fun c => len c = 4) (removelast chunks)
       /\ Forall (fun c => c <> []) chunks.
Proof.
  assert (Hpos : 1 <= 4) by lia.
  assert (Hno : ~ In NL (lit "abcdefghi")).
  { vm_compute. intros H.
    repeat (destruct H as [H|H]; [discriminate H|]). exact H. }
  split; [exact Hpos|]. split; [exact Hno|].
  exact (chunk_text_hard_split (lit "abcdefghi") 4 Hpos Hno).
Defined.

(** X4: on a text longer than [max_len >= 1] the cut is at the last
    newline before index [max_len]: there is a newline at the cut and none
    between the cut and [max_len]; the cut is at [max_len] itself exactly
    when there is no newline before [max_len]. *)
Theorem split_point_is_last_newline (max_len : Z) (remaining : pystr) :
  1 <= max_len ->
  max_len < len remaining ->
  0 <= split_point max_len remaining <= max_len
  /\ (split_point max_len remaining < max_len ->
      nth_error remaining (Z.to_nat (split_point max_len remaining))
      = Some NL)
  /\ (forall i, split_point max_len remaining < Z.of_nat i < max_len ->
                nth_error remaining i <> Some NL)
  /\ (split_point max_len remaining = max_len <->
      forall i, Z.of_nat i < max_len -> nth_error remaining i <> Some NL).
Proof.
  intros Hpos Hlong. unfold split_point, rfind.
  rewrite slice_to_inside by lia.
  destruct (rindex NL (firstn (Z.to_nat max_len) remaining)) as [j|] eqn:Hj.
  - destruct (rindex_bound _ _ _ Hj) as [Hlt Hnth].
    rewrite length_firstn in Hlt.
    replace (Z.of_nat j =? -1) with false by (symmetry; apply Z.eqb_neq; lia).
    rewrite Nat2Z.id. split; [lia|]. split; [|split].
    + intros _. exact (nth_error_firstn_some _ _ _ _ Hnth).
    + intros i Hi. rewrite <- (nth_error_firstn_lt (Z.to_nat max_len)) by lia.
      apply (rindex_is_last _ _ _ Hj). lia.
    + split; [lia|]. intros Hnone. exfalso. apply (Hnone j); [lia|].
      exact (nth_error_firstn_some _ _ _ _ Hnth).
  - simpl. split; [lia|]. split; [lia|]. split; [lia|].
    split; [|reflexivity]. intros _ i Hi.
    rewrite <- (nth_error_firstn_lt (Z.to_nat max_len)) by lia.
    now apply rindex_absent.
Qed.

Lemma split_point_is_last_newline_witness :
  1 <= 3 /\ 3 < len sample_trailing
  /\ split_point 3 sample_trailing = 2
  /\ nth_error sample_trailing (Z.to_nat (split_point 3 sample_trailing))
     = Some NL.
Proof.
  assert (Hpos : 1 <= 3) by lia.
  assert (Hlong : 3 < len sample_trailing) by reflexivity.
  split; [exact Hpos|]. split; [exact Hlong|]. split; [reflexivity|].
  apply (proj1 (proj2 (split_point_is_last_newline 3 sample_trailing
                         Hpos Hlong))).
  reflexivity.
Defined.

(** X5: for [max_len > 0] the chunks hold every character of the text
    other than a newline, in order: nothing but newlines is dropped. *)
Theorem chunk_text_keeps_letters (text : pystr) (max_len : Z) :
  0 < max_len ->
  exists chunks,
    chunk_text max_len text = Some chunks
    /\ filter not_nl (List.concat chunks) = filter not_nl text.
Proof.
  intros Hpos. assert (H1 : 1 <= max_len) by lia.
  destruct (chunk_loop_enough max_len H1 (S (List.length text)) text [])
    as [cs Hcs]; [lia|].
  exists cs. split; [exact Hcs|].
  destruct (chunk_loop_spec max_len H1 _ _ _ _ Hcs)
    as (new & seps & -> & _ & _ & Hnl & ->).
  simpl. symmetry. now apply weave_letters.
Qed.

Lemma chunk_text_keeps_letters_witness :
  0 < 3 /\
  exists chunks,
    chunk_text 3 sample_trailing = Some chunks
    /\ filter not_nl (List.concat chunks) = filter not_nl sample_trailing.
Proof.
  assert (Hpos : 0 < 3) by lia.
  split; [exact Hpos|]. exact (chunk_text_keeps_letters sample_trailing 3 Hpos).
Defined.

(** X6: with [max_len <= 0] the loop never ends on a text whose last
    character is not a newline, whatever the fuel. *)
Theorem chunk_text_nonpositive_diverges (max_len : Z) (x : char)
  (pre : pystr) :
  max_len <= 0 ->
  x <> NL ->
  (forall fuel, chunk_loop fuel max_len (pre ++ [x]) [] = None)
  /\ chunk_text max_len (pre ++ [x]) = None.
Proof.
  intros Hmax Hx.
  assert (H : forall fuel pre chunks,
             chunk_loop fuel max_len (pre ++ [x]) chunks = None).
  { induction fuel as [|fuel IH]; intros p chunks; [reflexivity|].
    cbn [chunk_loop].
    destruct (chunk_step_nonpositive max_len x p chunks Hmax Hx)
      as (p' & cs' & ->).
    apply IH. }
  split; [intros fuel; apply H|apply H].
Qed.

Lemma chunk_text_nonpositive_diverges_witness :
  -1 <= 0 /\ 99%N <> NL
  /\ (forall fuel, chunk_loop fuel (-1) (lit "ab" ++ [99%N]) [] = None)
  /\ chunk_text (-1) (lit "ab" ++ [99%N]) = None.
Proof.
  assert (Hmax : -1 <= 0) by lia.
  assert (Hx : 99%N <> NL) by discriminate.
  split; [exact Hmax|]. split; [exact Hx|].
  exact (chunk_text_nonpositive_diverges (-1) 99%N (lit "ab") Hmax Hx).
Defined.

(* ================================================================== *)
(** * More about the extractor *)

Section ExtractorMore.

Variable E : env.
Variable cutoff_date : date.
Variable max_filings : Z.

(** The loop over [a ++ b] is the loop over [a], followed by the loop over
    [b] unless [results] is full by then. *)
Lemma extract_loop_app (a b : list pyval) :
  forall results mid,
    extract_loop E cutoff_date max_filings a results = Ok mid ->
    extract_loop E cutoff_date max_filings (a ++ b) results
    = if Z.of_nat (List.length mid) >=? max_filings then Ok mid
      else extract_loop E cutoff_date max_filings b mid.
Proof.
  induction a as [|f rest IH]; intros results mid H; simpl in H.
  - injection H as <-. simpl. destruct b as [|g b']; simpl.
    + now destruct (Z.of_nat (List.length results) >=? max_filings).
    + now destruct (Z.of_nat (List.length results) >=? max_filings).
  - simpl.
    destruct (Z.of_nat (List.length results) >=? max_filings) eqn:Hfull.
    + injection H as <-. now rewrite Hfull.
    + unfold bind in *.
      destruct (normalize E cutoff_date f) as [[|r]|]; [ | |discriminate];
        now apply IH.
Qed.

Lemma extract_loop_kept (filings : list pyval) :
  forall results out,
    (List.length results <= Z.to_nat max_filings)%nat ->
    extract_loop E cutoff_date max_filings filings results = Ok out ->
    out = firstn (Z.to_nat max_filings)
            (results ++ flat_map (kept_of E cutoff_date) filings).
Proof.
  induction filings as [|f rest IH]; intros results out Hlen H; simpl in H.
  - injection H as <-. simpl. rewrite app_nil_r.
    symmetry. now apply firstn_all2.
  - destruct (Z.geb_spec (Z.of_nat (List.length results)) max_filings)
      as [Hfull|Hroom].
    + injection H as <-. rewrite firstn_app.
      replace (Z.to_nat max_filings - List.length results)%nat with O by lia.
      rewrite firstn_all2 by lia. simpl. now rewrite app_nil_r.
    + unfold bind in H. cbn [flat_map]. unfold kept_of at 1.
      destruct (normalize E cutoff_date f) as [[|r]|]; [ | |discriminate].
      * now apply IH.
      * assert (Hlen' : (List.length (results ++ [r])
                         <= Z.to_nat max_filings)%nat)
          by (rewrite length_app; simpl; lia).
        rewrite (IH (results ++ [r]) out Hlen' H).
        now rewrite <- app_assoc.
Qed.

Lemma collect_percents_dicts (owners : list pyval) :
  forallb owner_ok owners = true ->
  forall percents, exists out, collect_percents owners percents = Ok out.
Proof.
  induction owners as [|o rest IH]; intros Hall percents; simpl.
  - eauto.
  - simpl in Hall. apply andb_prop in Hall. destruct Hall as [Ho Hrest].
    destruct o as [| | | | | |d]; try discriminate.
    unfold owner_ok in Ho. cbn [py_get bind].
    destruct (lookup (lit "amountAsPercent") d) as [[|[|]|z|x|s|l|d']|];
      cbn [is_number py_float bind]; try (now apply IH).
    destruct (float_of_int z); [|discriminate]. cbn [bind]. now apply IH.
Qed.

Lemma normalize_well_formed (f : pyval) :
  well_formed E f = true -> exists v, normalize E cutoff_date f = Ok v.
Proof.
  destruct f as [| | | | | |d]; try discriminate.
  unfold well_formed, normalize. cbn [py_get bind]. intros H.
  apply andb_prop in H. destruct H as [Hdate Howners].
  destruct (lookup (lit "filedAt") d) as [raw|]; [|cbn; eauto].
  unfold filed_at_ok in Hdate.
  destruct (truthy raw) eqn:Hraw; [|cbn; eauto].
  simpl in Hdate. destruct raw as [| | | |s| |]; try discriminate.
  cbn [negb split_T bind str_of].
  destruct (strptime E _) as [day0|].
  2:{ unfold py_print. rewrite Hdate. cbn [bind]. eauto. }
  destruct (date_ltb day0 cutoff_date); [eauto|].
  assert (Hiter : exists os,
             py_iter (py_or match lookup (lit "owners") d with
                            | Some x => x
                            | None => PList []
                            end (PList [])) = Ok os
             /\ forallb owner_ok os = true).
  { unfold py_or. destruct (lookup (lit "owners") d) as [o|].
    - destruct (truthy o) eqn:Ho.
      + simpl in Howners. destruct o; try discriminate. simpl. eauto.
      + simpl. eauto.
    - simpl. eauto. }
  destruct Hiter as (os & -> & Hos). cbn [bind].
  destruct (collect_percents_dicts os Hos []) as [ps ->]. cbn [bind]. eauto.
Qed.

Lemma normalize_malformed (f : pyval) :
  malformed f = true -> normalize E cutoff_date f = Raise AttributeError.
Proof.
  destruct f as [| | | | | |d]; try reflexivity.
  unfold malformed, normalize. cbn [py_get bind].
  destruct (lookup (lit "filedAt") d) as [raw|]; [|discriminate].
  intros H. apply andb_prop in H. destruct H as [-> Hstr].
  destruct raw; try discriminate; reflexivity.
Qed.

End ExtractorMore.

Lemma before_first_app (sep : char) (d t : pystr) :
  ~ In sep d -> before_first sep (d ++ sep :: t) = d.
Proof.
  induction d as [|x r IH]; simpl; intros H.
  - now rewrite N.eqb_refl.
  - destruct (N.eqb_spec x sep) as [->|]; [tauto|].
    rewrite IH by tauto. reflexivity.
Qed.

Lemma py_get_first (k key : pystr) (v default : pyval)
  (d : list (pystr * pyval)) :
  py_get (PDict ((k, v) :: d)) key default
  = if str_eqb k key then Ok v else py_get (PDict d) key default.
Proof. simpl. now destruct (str_eqb k key). Qed.

(** Of a ["filedAt"] with a "T" in it the loop body sees the part before
    the first "T" only. *)
Lemma normalize_with_filed_at (E : env) (cutoff_date : date)
  (d : list (pystr * pyval)) (date_part t : pystr) :
  ~ In 84%N date_part ->
  normalize E cutoff_date (with_filed_at (date_part ++ 84%N :: t) d)
  = (form <- py_get (PDict d) (lit "formType") (PStr []) ;;
     issuer <- py_get (PDict d) (lit "nameOfIssuer") (PStr []) ;;
     owners0 <- py_get (PDict d) (lit "owners") (PList []) ;;
     match strptime E date_part with
     | None => _ <- py_print E (date_part ++ 84%N :: t) ;; Ok Skip
     | Some filed_date =>
         if date_ltb filed_date cutoff_date then Ok Skip
         else
           os <- py_iter (py_or owners0 (PList [])) ;;
           percents <- collect_percents os [] ;;
           Ok (Keep (mkfiling form date_part issuer (headline percents)))
     end).
Proof.
  intros Hno. unfold normalize, with_filed_at.
  rewrite !py_get_first.
  replace (str_eqb (lit "filedAt") (lit "formType")) with false
    by (vm_compute; reflexivity).
  replace (str_eqb (lit "filedAt") (lit "nameOfIssuer")) with false
    by (vm_compute; reflexivity).
  replace (str_eqb (lit "filedAt") (lit "owners")) with false
    by (vm_compute; reflexivity).
  rewrite str_eqb_refl.
  destruct (py_get (PDict d) (lit "formType") (PStr [])); [|reflexivity].
  cbn [bind].
  destruct (py_get (PDict d) (lit "nameOfIssuer") (PStr [])); [|reflexivity].
  cbn [bind].
  destruct (py_get (PDict d) (lit "owners") (PList [])); [|reflexivity].
  cbn [bind].
  assert (Htrue : truthy (PStr (date_part ++ 84%N :: t)) = true)
    by now destruct date_part.
  rewrite Htrue. cbn [negb split_T bind str_of].
  now rewrite before_first_app.
Qed.

(* ================================================================== *)
(** * The extractor: further properties *)

(** X7: what the loop returns is the first [max_filings] of the entries the
    body keeps, in the order of the records. *)
Theorem extract_loop_first_kept (E : env) (cutoff_date : date)
  (max_filings : Z) (filings : list pyval) (out : list filing) :
  extract_loop E cutoff_date max_filings filings [] = Ok out ->
  out = firstn (Z.to_nat max_filings)
          (flat_map (kept_of E cutoff_date) filings).
Proof.
  intros H.
  apply (extract_loop_kept E cutoff_date max_filings filings [] out);
    [simpl; lia|exact H].
Qed.

Lemma extract_loop_first_kept_witness :
  extract_loop sample_env sample_cutoff 2 sample_records [] = Ok sample_results
  /\ sample_results
     = firstn (Z.to_nat 2)
         (flat_map (kept_of sample_env sample_cutoff) sample_records).
Proof.
  assert (Hrun : extract_loop sample_env sample_cutoff 2 sample_records []
                 = Ok sample_results) by (vm_compute; reflexivity).
  split; [exact Hrun|].
  exact (extract_loop_first_kept sample_env sample_cutoff 2 sample_records
           sample_results Hrun).
Defined.

(** X8: the loop returns, and does not raise, on records that are dicts
    with a ["filedAt"] that is absent, falsy, or a string whose part before
    the first "T" parses or that [stdout] can encode, and with an
    ["owners"] that is absent, falsy or a list of dicts none of which has
    an [int] percentage beyond the doubles. *)
Theorem extract_loop_well_formed (E : env) (cutoff_date : date)
  (max_filings : Z) (filings : list pyval) :
  forallb (well_formed E) filings = true ->
  exists out, extract_loop E cutoff_date max_filings filings [] = Ok out.
Proof.
  generalize (@nil filing) as results.
  induction filings as [|f rest IH]; intros results Hall; simpl.
  - eauto.
  - simpl in Hall. apply andb_prop in Hall. destruct Hall as [Hf Hrest].
    destruct (Z.of_nat (List.length results) >=? max_filings); [eauto|].
    destruct (normalize_well_formed E cutoff_date f Hf) as [[|r] ->];
      cbn [bind]; now apply IH.
Qed.

Lemma extract_loop_well_formed_witness :
  forallb (well_formed sample_env) sample_records = true
  /\ exists out,
       extract_loop sample_env sample_cutoff 5 sample_records [] = Ok out.
Proof.
  assert (Hwf : forallb (well_formed sample_env) sample_records = true)
    by (vm_compute; reflexivity).
  split; [exact Hwf|].
  exact (extract_loop_well_formed sample_env sample_cutoff 5 sample_records
           Hwf).
Defined.

(** Outside these records the loop can raise: on an [int] percentage
    beyond the doubles ([OverflowError]) and on a date that does not parse
    and that [stdout] cannot encode ([UnicodeEncodeError]). *)
Lemma extract_loop_raises_outside :
  extract_loop sample_env sample_cutoff 5
    [raw_record "SC 13G" "2025-10-01T17:12:34-04:00" "Huge Corp"
       [owner (PInt (10 ^ 400))]] []
  = Raise OverflowError
  /\ extract_loop sample_env sample_cutoff 5
       [with_filed_at [233%N] []] []
     = Raise (UnicodeEncodeError (encode_error_repr sample_env [233%N])).
Proof. split; vm_compute; reflexivity. Qed.

(** X9: a record that is not a dict, or whose ["filedAt"] is truthy and not
    a string, makes the loop raise [AttributeError] when it is reached
    before [results] is full; the entries collected before it are lost. *)
Theorem extract_loop_malformed (E : env) (cutoff_date : date)
  (max_filings : Z) (good rest : list pyval) (f : pyval)
  (out : list filing) :
  extract_loop E cutoff_date max_filings good [] = Ok out ->
  Z.of_nat (List.length out) < max_filings ->
  malformed f = true ->
  extract_loop E cutoff_date max_filings (good ++ f :: rest) []
  = Raise AttributeError.
Proof.
  intros Hgood Hroom Hbad.
  rewrite (extract_loop_app E cutoff_date max_filings good (f :: rest) []
             out Hgood).
  destruct (Z.geb_spec (Z.of_nat (List.length out)) max_filings); [lia|].
  simpl. destruct (Z.geb_spec (Z.of_nat (List.length out)) max_filings);
    [lia|].
  now rewrite (normalize_malformed E cutoff_date f Hbad).
Qed.

Lemma extract_loop_malformed_witness :
  extract_loop sample_env sample_cutoff 5 sample_records []
  = Ok (firstn 3 (flat_map (kept_of sample_env sample_cutoff) sample_records))
  /\ malformed sample_number_date = true
  /\ extract_loop sample_env sample_cutoff 5
       (sample_records ++ sample_number_date :: []) []
     = Raise AttributeError.
Proof.
  assert (Hgood : extract_loop sample_env sample_cutoff 5 sample_records []
                  = Ok (firstn 3 (flat_map (kept_of sample_env sample_cutoff)
                                    sample_records)))
    by (vm_compute; reflexivity).
  assert (Hbad : malformed sample_number_date = true) by reflexivity.
  split; [exact Hgood|]. split; [exact Hbad|].
  apply (extract_loop_malformed sample_env sample_cutoff 5 sample_records []
           sample_number_date _ Hgood); [vm_compute; reflexivity|exact Hbad].
Defined.

(** X10: once [max_filings] entries are collected the loop looks at no
    further record: whatever follows, well formed or not, the result is the
    same. *)
Theorem extract_loop_stops_when_full (E : env) (cutoff_date : date)
  (max_filings : Z) (filings more : list pyval) (out : list filing) :
  extract_loop E cutoff_date max_filings filings [] = Ok out ->
  max_filings <= Z.of_nat (List.length out) ->
  extract_loop E cutoff_date max_filings (filings ++ more) [] = Ok out.
Proof.
  intros H Hfull.
  rewrite (extract_loop_app E cutoff_date max_filings filings more [] out H).
  destruct (Z.geb_spec (Z.of_nat (List.length out)) max_filings);
    [reflexivity|lia].
Qed.

Lemma extract_loop_stops_when_full_witness :
  extract_loop sample_env sample_cutoff 2 sample_records [] = Ok sample_results
  /\ 2 <= Z.of_nat (List.length sample_results)
  /\ extract_loop sample_env sample_cutoff 2
       (sample_records ++ [sample_number_date; PNone]) []
     = Ok sample_results.
Proof.
  assert (Hrun : extract_loop sample_env sample_cutoff 2 sample_records []
                 = Ok sample_results) by (vm_compute; reflexivity).
  assert (Hfull : 2 <= Z.of_nat (List.length sample_results))
    by (vm_compute; discriminate).
  split; [exact Hrun|]. split; [exact Hfull|].
  exact (extract_loop_stops_when_full sample_env sample_cutoff 2
           sample_records [sample_number_date; PNone] sample_results
           Hrun Hfull).
Defined.

(** X11: when the part of ["filedAt"] before the first "T" parses, only
    that part counts: two records that differ in what follows the "T" get
    the same verdict, and an entry that is kept carries that part as its
    date.  When it does not parse the whole string is printed, and the
    verdicts are the same if [stdout] can encode both strings. *)
Theorem normalize_ignores_time (E : env) (cutoff_date : date)
  (d : list (pystr * pyval)) (date_part t1 t2 : pystr) :
  ~ In 84%N date_part ->
  strptime E date_part <> None
  \/ (printable E (date_part ++ 84%N :: t1) = true
      /\ printable E (date_part ++ 84%N :: t2) = true) ->
  normalize E cutoff_date (with_filed_at (date_part ++ 84%N :: t1) d)
  = normalize E cutoff_date (with_filed_at (date_part ++ 84%N :: t2) d)
  /\ forall r,
       normalize E cutoff_date (with_filed_at (date_part ++ 84%N :: t1) d)
       = Ok (Keep r) ->
       filed_at_date r = date_part.
Proof.
  intros Hno Hsame. split.
  - rewrite !normalize_with_filed_at by assumption.
    destruct (strptime E date_part) as [day0|]; [reflexivity|].
    destruct Hsame as [Hc|[H1 H2]]; [contradiction|].
    unfold py_print. now rewrite H1, H2.
  - intros r. rewrite normalize_with_filed_at by assumption.
    unfold bind.
    destruct (py_get (PDict d) (lit "formType") (PStr [])); [|discriminate].
    destruct (py_get (PDict d) (lit "nameOfIssuer") (PStr []));
      [|discriminate].
    destruct (py_get (PDict d) (lit "owners") (PList [])); [|discriminate].
    destruct (strptime E date_part);
      [|destruct (py_print E _); discriminate].
    destruct (date_ltb _ _); [discriminate|].
    destruct (py_iter _); [|discriminate].
    destruct (collect_percents _ _); [|discriminate].
    now intros [= <-].
Qed.

Lemma normalize_ignores_time_witness :
  ~ In 84%N (lit "2025-10-01")
  /\ normalize sample_env sample_cutoff
       (with_filed_at (lit "2025-10-01" ++ 84%N :: lit "17:12:34-04:00") [])
     = normalize sample_env sample_cutoff
         (with_filed_at (lit "2025-10-01" ++ 84%N :: lit "00:00:00Z") []).
Proof.
  assert (Hno : ~ In 84%N (lit "2025-10-01")).
  { vm_compute. intros H.
    repeat (destruct H as [H|H]; [discriminate H|]). exact H. }
  split; [exact Hno|].
  apply (normalize_ignores_time sample_env sample_cutoff []
           (lit "2025-10-01") (lit "17:12:34-04:00") (lit "00:00:00Z") Hno).
  left. vm_compute. discriminate.
Defined.

(** Without the condition the verdicts can differ: of a date that does not
    parse the handler prints the whole string, the time too. *)
Lemma normalize_prints_unparsed :
  normalize sample_env sample_cutoff
    (with_filed_at (lit "soon" ++ 84%N :: [233%N]) [])
  = Raise (UnicodeEncodeError
             (encode_error_repr sample_env (lit "soon" ++ 84%N :: [233%N])))
  /\ normalize sample_env sample_cutoff
       (with_filed_at (lit "soon" ++ 84%N :: lit "e") [])
     = Ok Skip.
Proof. split; vm_compute; reflexivity. Qed.

(* ================================================================== *)
(** * More about the pipeline *)

Lemma good_key_passes (E : env) :
  ~ bad_key E ->
  negb (truthy (PStr (SEC_API_KEY E)))
  || str_eqb (SEC_API_KEY E) PLACEHOLDER_KEY = false.
Proof.
  unfold bad_key. intros H. apply orb_false_intro.
  - destruct (SEC_API_KEY E); [tauto|reflexivity].
  - apply str_eqb_neq. tauto.
Qed.

(** With a key that passes the check the fetch makes one request. *)
Lemma fetch_log (E : env) (cik : pystr) (lookback_days max_filings : Z)
  (log : list request) :
  ~ bad_key E ->
  snd (fetch_13dg_filings_for_cik E cik lookback_days max_filings log)
  = SecPost cik :: log.
Proof.
  intros Hkey. unfold fetch_13dg_filings_for_cik.
  rewrite (good_key_passes E Hkey). unfold iobind, sec_post, lift.
  now destruct (sec_api E log cik).
Qed.

(** With a key that passes the check the loop makes one request per fund,
    in order, up to the fund whose error the handler could not report, if
    there is one. *)
Lemma collect_funds_requests (E : env) (funds : list fund) :
  ~ bad_key E ->
  forall all log,
    exists done rest,
      funds = done ++ rest
      /\ snd (collect_funds E funds all log)
         = rev (List.map SecPost (List.map fund_cik done)) ++ log
      /\ ((exists out, fst (collect_funds E funds all log) = Ok out)
          /\ rest = []
          \/ exists shown,
               fst (collect_funds E funds all log)
               = Raise (UnicodeEncodeError shown)).
Proof.
  intros Hkey. induction funds as [|fund rest IH]; intros all log.
  - exists [], []. split; [reflexivity|]. split; [reflexivity|].
    left. split; [now exists all|reflexivity].
  - assert (Hgo : (forall e,
                     fst (fetch_13dg_filings_for_cik E (fund_cik fund)
                            LOOKBACK_DAYS MAX_FILINGS_PER_FUND log) = Raise e ->
                     print_fetch_error E fund e = Ok tt)
                  \/ exists e e',
                       fst (fetch_13dg_filings_for_cik E (fund_cik fund)
                              LOOKBACK_DAYS MAX_FILINGS_PER_FUND log) = Raise e
                       /\ print_fetch_error E fund e = Raise e').
    { destruct (fst (fetch_13dg_filings_for_cik E (fund_cik fund)
                       LOOKBACK_DAYS MAX_FILINGS_PER_FUND log)) as [fs|e].
      - left. discriminate.
      - destruct (print_fetch_error E fund e) as [[]|e'] eqn:Hprint.
        + left. now intros e0 [= <-].
        + right. now exists e, e'. }
    destruct Hgo as [Hhead|(e & e' & Hfetch & Hprint)].
    + rewrite (collect_funds_turn E fund rest all log Hhead).
      rewrite (fetch_log E _ _ _ log Hkey).
      match goal with
      | |- context [collect_funds E rest ?d ?l] =>
          destruct (IH d l) as (done & rest' & -> & Hsnd & Hres)
      end.
      exists (fund :: done), rest'. split; [reflexivity|].
      split; [|exact Hres].
      rewrite Hsnd. cbn [List.map rev]. now rewrite <- app_assoc.
    + rewrite (collect_funds_turn_aborts E fund rest all log e e'
                 Hfetch Hprint).
      rewrite (fetch_log E _ _ _ log Hkey).
      exists [fund], rest. split; [reflexivity|]. split; [reflexivity|].
      right. destruct (print_fetch_error_raise E fund e e' Hprint)
        as [shown ->].
      now exists shown.
Qed.

Lemma issuer_field_raise (v : pyval) (e : exn) :
  issuer_field v = Raise e -> e = AttributeError /\ bad_issuer v = true.
Proof.
  unfold issuer_field, py_or, bad_issuer.
  destruct (truthy v) eqn:Hv; [|discriminate].
  destruct v; cbn [py_strip bind]; try discriminate;
    intros [= <-]; now split.
Qed.

Lemma issuer_field_ok (v : pyval) (field : pystr) :
  issuer_field v = Ok field -> bad_issuer v = false.
Proof.
  unfold issuer_field, py_or, bad_issuer.
  destruct (truthy v) eqn:Hv; [|reflexivity].
  destruct v; cbn [py_strip bind]; try discriminate; reflexivity.
Qed.

Lemma format_row_ok (E : env) (f : filing) (row : pystr) :
  format_row E f = Ok row -> bad_issuer (issuer f) = false.
Proof.
  unfold format_row, bind.
  destruct (issuer_field (issuer f)) as [field|] eqn:Hf; [|discriminate].
  intros _. exact (issuer_field_ok _ _ Hf).
Qed.

Lemma Forall2_in_left {A B : Type} (R : A -> B -> Prop) (l : list A)
  (l' : list B) (a : A) :
  Forall2 R l l' -> In a l -> exists b, R a b.
Proof.
  induction 1 as [|x y xs ys Hxy _ IH]; intros Hin; [contradiction|].
  destruct Hin as [<-|Hin]; eauto.
Qed.

(** The lines [format_funds] adds: a block per entry, in order. *)
Lemma format_funds_blocks (E : env) (items : funds_dict) :
  forall lines out,
    format_funds E items lines = Ok out ->
    exists blocks,
      out = lines ++ List.concat blocks
      /\ Forall2
           (fun (item : pystr * fund_info) block =>
              exists rows,
                Forall2 (fun f row => format_row E f = Ok row)
                  (filings (snd item)) rows
                /\ block = block_head (fst item) (name (snd item))
                             ++ match filings (snd item) with
                                | [] => [NO_FILINGS]
                                | _ :: _ => rows
                                end ++ [[]])
           items blocks.
Proof.
  induction items as [|[cik info] rest IH]; intros lines out H; simpl in H.
  - injection H as <-. exists []. simpl. rewrite app_nil_r.
    split; [reflexivity|constructor].
  - destruct (filings info) as [|f0 fs] eqn:Hfs.
    + destruct (IH _ _ H) as (blocks & -> & Hblocks).
      exists ((block_head cik (name info) ++ [NO_FILINGS] ++ [[]]) :: blocks).
      split.
      * cbn [List.concat]. now rewrite <- !app_assoc.
      * constructor; [|exact Hblocks]. exists []. simpl. rewrite Hfs.
        split; [constructor|reflexivity].
    + unfold bind in H.
      destruct (format_rows E (f0 :: fs) _) as [lines'|] eqn:Hrows;
        [|discriminate].
      destruct (format_rows_spec _ _ _ _ Hrows) as (rows & -> & Hrs).
      destruct (IH _ _ H) as (blocks & -> & Hblocks).
      exists ((block_head cik (name info) ++ rows ++ [[]]) :: blocks).
      split.
      * cbn [List.concat]. now rewrite <- !app_assoc.
      * constructor; [|exact Hblocks]. exists rows. simpl. rewrite Hfs.
        split; [exact Hrs|reflexivity].
Qed.

Section Delivery.

Variable E : env.



End Delivery.

(* ================================================================== *)
(** * The pipeline: further properties *)



(** X13: the formatter raises exactly when some filing has an issuer that
    is truthy and not a string, and then it raises [AttributeError]; on any
    other dict it returns the report. *)
Theorem format_daily_report_raises_iff (E : env) (all : funds_dict) :
  (forall e, format_daily_report E all = Raise e -> e = AttributeError)
  /\ ((exists text, format_daily_report E all = Ok text) <->
      forall cik info f,
        In (cik, info) all -> In f (filings info) ->
        bad_issuer (issuer f) = false).
Proof.
  unfold format_daily_report, report_lines, bind. split; [|split].
  - intros e H.
    destruct (format_funds E all (report_head E)) as [lines|e'] eqn:Hl;
      [discriminate|].
    injection H as ->.
    destruct (format_funds_raise _ _ _ _ Hl) as (cik & info & f & _ & _ & Hf).
    exact (proj1 (issuer_field_raise _ _ Hf)).
  - intros [text H] cik info f Hin Hf.
    destruct (format_funds E all (report_head E)) as [lines|] eqn:Hl;
      [|discriminate].
    destruct (format_funds_blocks _ _ _ _ Hl) as (blocks & _ & Hblocks).
    destruct (Forall2_in_left _ _ _ _ Hblocks Hin) as (block & rows & Hrows & _).
    destruct (Forall2_in_left _ _ _ _ Hrows Hf) as (row & Hrow).
    exact (format_row_ok _ _ _ Hrow).
  - intros Hgood.
    destruct (format_funds E all (report_head E)) as [lines|e] eqn:Hl;
      [eauto|].
    destruct (format_funds_raise _ _ _ _ Hl) as (cik & info & f & Hin & Hf & He).
    destruct (issuer_field_raise _ _ He) as [_ Hbad].
    rewrite (Hgood cik info f Hin Hf) in Hbad. discriminate.
Qed.

Lemma format_daily_report_raises_iff_witness :
  format_daily_report sample_env
    [(lit "1603466", mkinfo (lit "Point72") [sample_number_issuer])]
  = Raise AttributeError.
Proof.
  destruct (format_daily_report sample_env
              [(lit "1603466", mkinfo (lit "Point72") [sample_number_issuer])])
    as [text|e] eqn:H.
  - exfalso.
    assert (Hbad : bad_issuer (issuer sample_number_issuer) = false).
    { apply (proj1 (proj2 (format_daily_report_raises_iff sample_env _))
               (ex_intro _ text H) (lit "1603466")
               (mkinfo (lit "Point72") [sample_number_issuer])
               sample_number_issuer); now left. }
    discriminate Hbad.
  - f_equal.
    exact (proj1 (format_daily_report_raises_iff sample_env _) e H).
Defined.

(** X14: the report is its four opening lines followed by one block per
    entry of the dict, in the order of the dict: the five lines that open
    a block, then a row per filing (the placeholder line when there is no
    filing), then an empty line. *)
Theorem format_daily_report_blocks (E : env) (all : funds_dict)
  (text : pystr) :
  format_daily_report E all = Ok text ->
  exists blocks,
    text = join [NL] (report_head E ++ List.concat blocks)
    /\ Forall2
         (fun (item : pystr * fund_info) block =>
            exists rows,
              Forall2 (fun f row => format_row E f = Ok row)
                (filings (snd item)) rows
              /\ block = block_head (fst item) (name (snd item))
                           ++ match filings (snd item) with
                              | [] => [NO_FILINGS]
                              | _ :: _ => rows
                              end ++ [[]])
         all blocks.
Proof.
  unfold format_daily_report, report_lines, bind. intros H.
  destruct (format_funds E all (report_head E)) as [lines|] eqn:Hl;
    [|discriminate].
  injection H as <-.
  destruct (format_funds_blocks _ _ _ _ Hl) as (blocks & -> & Hblocks).
  now exists blocks.
Qed.

Lemma format_daily_report_blocks_witness :
  exists text blocks,
    format_daily_report sample_env
      [(lit "1603466", mkinfo (lit "Point72") sample_results);
       (lit "1791786", mkinfo (lit "Elliott") [])] = Ok text
    /\ text = join [NL] (report_head sample_env ++ List.concat blocks)
    /\ List.length blocks = 2%nat.
Proof.
  destruct (format_daily_report sample_env
              [(lit "1603466", mkinfo (lit "Point72") sample_results);
               (lit "1791786", mkinfo (lit "Elliott") [])])
    as [text|e] eqn:H; [|vm_compute in H; discriminate H].
  destruct (format_daily_report_blocks sample_env _ text H)
    as (blocks & Htext & Hblocks).
  exists text, blocks. split; [reflexivity|]. split; [exact Htext|].
  symmetry. exact (Forall2_length Hblocks).
Defined.





(** X17: with a key that passes the check, a run over any list of funds
    makes one request to the filings source per fund, in the order of the
    list, and only then the requests that send the report.  The requests
    stop short of the last fund only when the handler of a failed fetch
    could not print its line: the run then ends with that
    [UnicodeEncodeError] and sends nothing. *)
Theorem run_requests (E : env) (funds : list fund) (log : list request) :
  ~ bad_key E ->
  exists posts done rest,
    funds = done ++ rest
    /\ snd (run E funds log)
       = posts ++ rev (List.map SecPost (List.map fund_cik done)) ++ log
    /\ Forall to_telegram posts
    /\ (rest = []
        \/ posts = []
           /\ exists shown,
                fst (run E funds log) = Raise (UnicodeEncodeError shown)).
Proof.
  intros Hkey.
  destruct (collect_funds_requests E funds Hkey [] log)
    as (done & rest & Hsplit & Hsnd & Hres).
  unfold run, iobind, lift.
  destruct (collect_funds E funds [] log) as [res log'].
  cbn [fst snd] in Hsnd, Hres. subst log'.
  destruct Hres as [[[all ->] ->]|[shown ->]].
  - destruct (format_daily_report E all) as [text|e].
    + destruct (py_print E text).
      * destruct (send_telegram_message_spec E text
                    (rev (List.map SecPost (List.map fund_cik done)) ++ log))
          as (ok & posts & -> & Hposts).
        exists posts, done, []. auto.
      * exists [], done, []. repeat split; auto.
    + exists [], done, []. repeat split; auto.
  - exists [], done, rest. repeat split; auto.
    right. split; [reflexivity|]. now exists shown.
Qed.

Lemma run_requests_witness :
  ~ bad_key sample_env
  /\ exists posts,
       snd (main sample_env [])
       = posts ++ rev (List.map SecPost (List.map fund_cik FUNDS)) ++ []
       /\ Forall to_telegram posts.
Proof.
  assert (Hkey : ~ bad_key sample_env).
  { intros [H|H]; vm_compute in H; discriminate H. }
  split; [exact Hkey|].
  destruct (run_requests sample_env FUNDS [] Hkey)
    as (posts & done & rest & Hsplit & Hsnd & Hposts & Hall).
  assert (Hrest : rest = []).
  { destruct Hall as [Hrest|[_ [shown Hraise]]]; [exact Hrest|].
    assert (Hok : fst (run sample_env FUNDS []) = Ok true)
      by (vm_compute; reflexivity).
    rewrite Hok in Hraise. discriminate Hraise. }
  subst rest. rewrite app_nil_r in Hsplit. subst done.
  exists posts. split; [exact Hsnd|exact Hposts].
Defined.

(** X18: every entry the loop of [main] collects, for any list of funds,
    holds at most [MAX_FILINGS_PER_FUND] filings, each with a date that is
    not before the cutoff of [LOOKBACK_DAYS]. *)
Theorem collected_filings_bounded (E : env) (funds : list fund)
  (log : list request) (all : funds_dict) :
  fst (collect_funds E funds [] log) = Ok all ->
  forall cik info,
    In (cik, info) all ->
    Z.of_nat (List.length (filings info)) <= MAX_FILINGS_PER_FUND
    /\ Forall (recent E (cutoff_for E LOOKBACK_DAYS)) (filings info).
Proof.
  intros H cik info Hin.
  destruct (collect_funds_entries E funds [] log all cik info H Hin)
    as [[]|[Hnone|[log' Hfetch]]].
  - rewrite Hnone. split; [simpl; unfold MAX_FILINGS_PER_FUND; lia|constructor].
  - destruct (fetch_13dg_filings_for_cik E cik LOOKBACK_DAYS
                MAX_FILINGS_PER_FUND log') as [res log''] eqn:Hf.
    simpl in Hfetch. subst res.
    destruct (fetch_recent_and_bounded E cik LOOKBACK_DAYS
                MAX_FILINGS_PER_FUND log' log'' (filings info)
                ltac:(unfold MAX_FILINGS_PER_FUND; lia) Hf) as [Hrec Hlen].
    now split.
Qed.

Lemma collected_filings_bounded_witness :
  exists all,
    fst (collect_funds sample_env FUNDS [] []) = Ok all
    /\ forall cik info,
         In (cik, info) all ->
         Z.of_nat (List.length (filings info)) <= MAX_FILINGS_PER_FUND
         /\ Forall (recent sample_env (cutoff_for sample_env LOOKBACK_DAYS))
              (filings info).
Proof.
  assert (Hall : exists all,
             fst (collect_funds sample_env FUNDS [] []) = Ok all)
    by (eexists; vm_compute; reflexivity).
  destruct Hall as [all H].
  exists all. split; [exact H|].
  exact (collected_filings_bounded sample_env FUNDS [] all H).
Defined.

(* ================================================================== *)
(** * The whole run: further properties *)

Lemma dict_set_keys {V : Type} (key : pystr) (v : V)
  (d : list (pystr * V)) :
  NoDup (List.map fst d) ->
  NoDup (List.map fst (dict_set key v d))
  /\ forall k, In k (List.map fst (dict_set key v d))
               <-> k = key \/ In k (List.map fst d).
Proof.
  induction d as [|[k0 x] r IH]; simpl; intros Hnd.
  - split; [repeat constructor; auto|]. intros k. split.
    + intros [<-|[]]. now left.
    + intros [->|[]]. now left.
  - inversion Hnd as [|? ? Hnotin Hnd']; subst.
    destruct (str_eqb k0 key) eqn:Hk; simpl.
    + apply str_eqb_eq in Hk. subst k0. split; [exact Hnd|].
      intros k. split; [intros [<-|H]; auto|intros [->|[<-|H]]; auto].
    + destruct (IH Hnd') as [IHnd IHin]. split.
      * constructor; [|exact IHnd]. intros Hin. apply IHin in Hin.
        destruct Hin as [->|Hin]; [|contradiction].
        rewrite str_eqb_refl in Hk. discriminate.
      * intros k. rewrite IHin. tauto.
Qed.

Section WholeRun.

Variable E : env.

(** The dict never holds an identifier twice, and holds every fund's. *)
Lemma collect_funds_nodup (funds : list fund) :
  forall all log out,
    NoDup (List.map fst all) ->
    fst (collect_funds E funds all log) = Ok out ->
    NoDup (List.map fst out)
    /\ forall k, In k (List.map fst out)
                 <-> In k (List.map fund_cik funds) \/ In k (List.map fst all).
Proof.
  induction funds as [|fund rest IH]; intros all log out Hnd H; simpl in *.
  - injection H as <-. split; [exact Hnd|]. intros k. tauto.
  - apply (collect_funds_inv E fund rest all log out) in H.
    match type of H with
    | fst (collect_funds E rest (dict_set ?k ?v all) ?l) = _ =>
        destruct (dict_set_keys k v all Hnd) as [Hnd' Hin'];
        destruct (IH _ _ _ Hnd' H) as [Hout Hin]
    end.
    split; [exact Hout|]. intros k. rewrite Hin, Hin'.
    split; intros Hk; intuition (subst; auto).
Qed.

(** The last fund filed under an identifier decides its entry. *)
Lemma collect_funds_lookup_last (before after : list fund) (fund : fund)
  (log : list request) (all : funds_dict) :
  ~ In (fund_cik fund) (List.map fund_cik after) ->
  fst (collect_funds E (before ++ fund :: after) [] log) = Ok all ->
  lookup (fund_cik fund) all
  = Some (mkinfo (fund_name fund)
            match fst (fetch_13dg_filings_for_cik E (fund_cik fund)
                         LOOKBACK_DAYS MAX_FILINGS_PER_FUND
                         (log_after E before log)) with
            | Ok filings => filings
            | Raise _ => []
            end).
Proof.
  intros Hnotin H.
  destruct (collect_funds_prefix E before (fund :: after) [] log all H)
    as [mid Hmid].
  rewrite (collect_funds_app E before (fund :: after) [] log mid Hmid) in H.
  apply (collect_funds_inv E fund after mid _ all) in H.
  rewrite (collect_funds_lookup_other E (fund_cik fund) after _ _ _
             Hnotin H).
  unfold log_after. apply lookup_dict_set_same.
Qed.

(** An entry that is kept carries the issuer of its record. *)
Lemma normalize_keep_issuer (cutoff_date : date) (f : pyval) (r : filing) :
  normalize E cutoff_date f = Ok (Keep r) ->
  issuer_ok f = true -> bad_issuer (issuer r) = false.
Proof.
  destruct f as [| | | | | |d]; try discriminate.
  unfold normalize, issuer_ok. cbn [py_get bind]. intros H Hok.
  destruct (negb (truthy _)); [discriminate|].
  destruct (split_T _); [|discriminate]. cbn [bind] in H.
  destruct (strptime E _); [|destruct (py_print E _); discriminate].
  destruct (date_ltb _ _); [discriminate|].
  destruct (py_iter _); [|discriminate]. cbn [bind] in H.
  destruct (collect_percents _ _); [|discriminate]. cbn [bind] in H.
  injection H as <-. simpl.
  destruct (lookup (lit "nameOfIssuer") d).
  - now apply negb_true_iff in Hok.
  - reflexivity.
Qed.

(** Every entry of [results] was there or was kept of a record. *)
Lemma extract_loop_origin (cutoff_date : date) (max_filings : Z)
  (filings : list pyval) :
  forall results out r,
    extract_loop E cutoff_date max_filings filings results = Ok out ->
    In r out ->
    In r results
    \/ exists f, In f filings /\ normalize E cutoff_date f = Ok (Keep r).
Proof.
  induction filings as [|f rest IH]; intros results out r H Hin; simpl in H.
  - injection H as <-. now left.
  - destruct (Z.of_nat (List.length results) >=? max_filings).
    + injection H as <-. now left.
    + unfold bind in H.
      destruct (normalize E cutoff_date f) as [[|r0]|] eqn:Hn;
        [ | |discriminate].
      * destruct (IH _ _ _ H Hin) as [Hres|(g & Hg & Hk)]; [now left|].
        right. exists g. split; [now right|exact Hk].
      * destruct (IH _ _ _ H Hin) as [Hres|(g & Hg & Hk)].
        -- apply in_app_or in Hres. destruct Hres as [Hres|[<-|[]]];
             [now left|]. right. exists f. split; [now left|exact Hn].
        -- right. exists g. split; [now right|exact Hk].
Qed.

(** The filings a fetch returns have issuers the formatter can take when
    the records of the answer have. *)
Lemma fetch_issuers (cik : pystr) (lookback_days max_filings : Z)
  (log : list request) (results : list filing) :
  (forall log data,
     sec_api E log cik = Ok data ->
     forallb issuer_ok (records_of data) = true) ->
  fst (fetch_13dg_filings_for_cik E cik lookback_days max_filings log)
  = Ok results ->
  forall r, In r results -> bad_issuer (issuer r) = false.
Proof.
  intros Hsane H r Hin. unfold fetch_13dg_filings_for_cik in H.
  destruct (negb (truthy (PStr (SEC_API_KEY E)))
            || str_eqb (SEC_API_KEY E) PLACEHOLDER_KEY); [discriminate|].
  unfold iobind, sec_post, lift in H.
  destruct (sec_api E log cik) as [data|] eqn:Hdata; [|discriminate].
  specialize (Hsane log data Hdata). unfold records_of in Hsane.
  cbn [fst] in H. unfold bind in H, Hsane.
  destruct (py_get data (lit "filings") (PList [])) as [filings0|];
    [|discriminate].
  destruct (py_iter filings0) as [records|]; [|discriminate].
  destruct (extract_loop_origin _ _ _ _ _ _ H Hin) as [[]|(f & Hf & Hk)].
  apply (normalize_keep_issuer _ f r Hk).
  exact (proj1 (forallb_forall _ _) Hsane f Hf).
Qed.

(** The loop over the funds can only be ended by the print of its
    handler. *)
Lemma collect_funds_raise (funds : list fund) :
  forall all log e,
    fst (collect_funds E funds all log) = Raise e ->
    exists shown, e = UnicodeEncodeError shown.
Proof.
  induction funds as [|fund rest IH]; intros all log e H.
  - discriminate H.
  - destruct (fst (fetch_13dg_filings_for_cik E (fund_cik fund)
                     LOOKBACK_DAYS MAX_FILINGS_PER_FUND log))
      as [fs|e0] eqn:Hfetch.
    + rewrite collect_funds_turn in H;
        [|intros e1 He1; rewrite Hfetch in He1; discriminate He1].
      exact (IH _ _ _ H).
    + destruct (print_fetch_error E fund e0) as [[]|e'] eqn:Hprint.
      * rewrite collect_funds_turn in H;
          [|intros e1 He1; rewrite Hfetch in He1; now injection He1 as <-].
        exact (IH _ _ _ H).
      * rewrite (collect_funds_turn_aborts E fund rest all log e0 e'
                   Hfetch Hprint) in H.
        injection H as <-.
        exact (print_fetch_error_raise E fund e0 e' Hprint).
Qed.

(** The report can be made of what the loop collected when the records of
    the filings source have issuers the formatter can take. *)
Lemma collected_report (funds : list fund) (log : list request)
  (all : funds_dict) :
  (forall log cik data,
     sec_api E log cik = Ok data ->
     forallb issuer_ok (records_of data) = true) ->
  fst (collect_funds E funds [] log) = Ok all ->
  exists text, format_daily_report E all = Ok text.
Proof.
  intros Hsane Hfst.
  destruct (format_daily_report E all) as [text|e] eqn:Hrep; [eauto|].
  exfalso. unfold format_daily_report, report_lines, bind in Hrep.
  destruct (format_funds E all (report_head E)) as [lines|e'] eqn:Hlines;
    [discriminate|].
  destruct (format_funds_raise _ _ _ _ Hlines)
    as (cik & info & f & Hin & Hf & Hfield).
  destruct (issuer_field_raise _ _ Hfield) as [_ Hbad].
  destruct (collect_funds_entries E funds [] log all cik info Hfst Hin)
    as [[]|[Hnone|[log' Hfetch]]].
  - rewrite Hnone in Hf. contradiction.
  - rewrite (fetch_issuers cik _ _ log' (filings info)
               (fun l d => Hsane l cik d) Hfetch f Hf) in Hbad.
    discriminate.
Qed.

End WholeRun.

(** X19: for any list of funds the dict of [main] holds each identifier
    once.  Of funds filed under the same identifier the last one decides
    the entry: its name, and what its fetch gave. *)
Theorem collect_funds_last_wins (E : env) (before after : list fund)
  (fund : fund) (log : list request) (all : funds_dict) :
  fst (collect_funds E (before ++ fund :: after) [] log) = Ok all ->
  NoDup (List.map fst all)
  /\ (~ In (fund_cik fund) (List.map fund_cik after) ->
      lookup (fund_cik fund) all
      = Some (mkinfo (fund_name fund)
                match fst (fetch_13dg_filings_for_cik E (fund_cik fund)
                             LOOKBACK_DAYS MAX_FILINGS_PER_FUND
                             (log_after E before log)) with
                | Ok filings => filings
                | Raise _ => []
                end)).
Proof.
  intros H. split.
  - exact (proj1 (collect_funds_nodup E _ [] log all (NoDup_nil _) H)).
  - intros Hlast.
    exact (collect_funds_lookup_last E before after fund log all Hlast H).
Qed.

Lemma collect_funds_last_wins_witness :
  exists all,
    fst (collect_funds sample_env sample_twins [] []) = Ok all
    /\ NoDup (List.map fst all)
    /\ option_map name (lookup (lit "1603466") all)
       = Some (lit "Second name").
Proof.
  assert (Hall : exists all,
             fst (collect_funds sample_env sample_twins [] []) = Ok all)
    by (eexists; vm_compute; reflexivity).
  destruct Hall as [all H].
  exists all. split; [exact H|].
  destruct (collect_funds_last_wins sample_env
              [mkfund (lit "First name") (lit "1603466")] []
              (mkfund (lit "Second name") (lit "1603466")) [] all H)
    as [Hnd Hlast].
  split; [exact Hnd|].
  specialize (Hlast (fun F : False => F)).
  cbn [fund_cik fund_name] in Hlast. rewrite Hlast. reflexivity.
Defined.

(** X20: when every record the filings source answers with has an issuer
    name that is a string, falsy or absent, a run over any list of funds
    can only be ended by [stdout]: an error it ends with is a
    [UnicodeEncodeError], whatever else the records hold and whichever
    fetches fail.  With a [stdout] that encodes every character the run
    returns. *)
Theorem run_aborts_only_at_print (E : env) (funds : list fund)
  (log : list request) :
  (forall log cik data,
     sec_api E log cik = Ok data ->
     forallb issuer_ok (records_of data) = true) ->
  (forall e,
     fst (run E funds log) = Raise e ->
     exists shown, e = UnicodeEncodeError shown)
  /\ ((forall c, stdout_encodes E c = true) ->
      exists ok log', run E funds log = (Ok ok, log')).
Proof.
  intros Hsane. split.
  - intros e He. unfold run, iobind, lift in He.
    destruct (collect_funds E funds [] log) as [[all|e0] log'] eqn:Hc.
    + assert (Hfst : fst (collect_funds E funds [] log) = Ok all)
        by now rewrite Hc.
      destruct (collected_report E funds log all Hsane Hfst) as [text Htext].
      rewrite Htext in He.
      destruct (py_print E text) as [[]|e1] eqn:Hprint.
      * destruct (send_telegram_message_spec E text log')
          as (ok & posts & Hsend & _).
        rewrite Hsend in He. discriminate He.
      * injection He as <-. apply py_print_raise in Hprint.
        destruct Hprint as [_ ->]. eauto.
    + injection He as <-.
      apply (collect_funds_raise E funds [] log). now rewrite Hc.
  - intros Hstdout.
    assert (Hrep : reports_errors E funds log).
    { intros before fund after e _ _.
      exact (print_fetch_error_complete E fund e Hstdout). }
    destruct (collect_funds_ok E funds [] log Hrep) as [all Hall].
    assert (Hfst : fst (collect_funds E funds [] log) = Ok all)
      by now rewrite Hall.
    destruct (collected_report E funds log all Hsane Hfst) as [text Htext].
    unfold run, iobind, lift.
    rewrite Hall, Htext, (py_print_complete E text Hstdout).
    destruct (send_telegram_message_spec E text (log_through E funds log))
      as (ok & posts & -> & _).
    eauto.
Qed.

Lemma run_aborts_only_at_print_witness :
  (forall log cik data,
     sec_api accent_issuer_env log cik = Ok data ->
     forallb issuer_ok (records_of data) = true)
  /\ exists shown,
       main accent_issuer_env []
       = (Raise (UnicodeEncodeError shown),
          rev (List.map SecPost (List.map fund_cik FUNDS))).
Proof.
  assert (Hsane : forall log cik data,
             sec_api accent_issuer_env log cik = Ok data ->
             forallb issuer_ok (records_of data) = true).
  { intros log cik data. cbn [accent_issuer_env sec_api].
    intros [= <-]. vm_compute. reflexivity. }
  split; [exact Hsane|].
  assert (Hrun : exists e,
             main accent_issuer_env []
             = (Raise e, rev (List.map SecPost (List.map fund_cik FUNDS))))
    by (eexists; vm_compute; reflexivity).
  destruct Hrun as [e Hrun].
  destruct (proj1 (run_aborts_only_at_print accent_issuer_env FUNDS []
                     Hsane) e) as [shown ->].
  - unfold main in Hrun. now rewrite Hrun.
  - now exists shown.
Defined.
